(** * go-panos: a shallow embedding of the XML API client

    The Go package [panos] talks to Palo Alto firewalls and Panorama over
    HTTP.  Every public operation builds a query, hands it to the HTTP
    collaborator ([rested]), unmarshals the XML answer and classifies it.
    The embedding below keeps that shape: the device is a function from the
    request history and the current request to a response, operations run
    in a small monad that threads the list of requests sent so far and can
    end in a Go run-time panic, and Go maps are stdpp [gmap]s. *)

From Stdlib Require Import String Ascii.
From stdpp Require Import base option list gmap strings fin_maps.

(** Go's comparison of strings. *)
Definition strNeq (a b : string) : bool := negb (String.eqb a b).
Infix "==" := String.eqb (at level 70, no associativity).
Infix "!=" := strNeq (at level 70, no associativity).

(** ** Go strings

    A Go string is a sequence of bytes, as is a Rocq [string]. *)

Definition dquote : string := String "034"%char EmptyString.

(** [strings.Contains]. *)
Fixpoint Contains (s substr : string) : bool :=
  String.prefix substr s
  || match s with
     | EmptyString => false
     | String _ s' => Contains s' substr
     end.

(** [strings.HasSuffix]. *)
Definition HasSuffix (s suffix : string) : bool :=
  String.prefix (String.rev suffix) (String.rev s).

(** [strings.Split] for a separator of one byte (the package only ever
    splits on a comma).  The result is never empty: splitting the empty
    string gives one empty field. *)
Fixpoint Split (s : string) (sep : ascii) : list string :=
  match s with
  | EmptyString => [EmptyString]
  | String a s' =>
      if Ascii.eqb a sep then EmptyString :: Split s' sep
      else match Split s' sep with
           | w :: ws => String a w :: ws
           | [] => [String a EmptyString]
           end
  end.

Definition bytes (l : list nat) : string :=
  fold_right (fun n s => String (ascii_of_nat n) s) EmptyString l.

(** The UTF-8 encodings of the code points for which [unicode.IsSpace]
    holds: U+0009..U+000D, U+0020, U+0085, U+00A0, U+1680, U+2000..U+200A,
    U+2028, U+2029, U+202F, U+205F, U+3000. *)
Definition whiteSpace : list string :=
  map bytes
    [ [9]; [10]; [11]; [12]; [13]; [32]; [194; 133]; [194; 160];
      [225; 154; 128];
      [226; 128; 128]; [226; 128; 129]; [226; 128; 130]; [226; 128; 131];
      [226; 128; 132]; [226; 128; 133]; [226; 128; 134]; [226; 128; 135];
      [226; 128; 136]; [226; 128; 137]; [226; 128; 138];
      [226; 128; 168]; [226; 128; 169]; [226; 128; 175];
      [226; 129; 159]; [227; 128; 128] ].

Fixpoint dropBytes (n : nat) (s : string) : string :=
  match n, s with
  | S n', String _ s' => dropBytes n' s'
  | _, _ => s
  end.

Fixpoint cutPrefix (ws : list string) (s : string) : option string :=
  match ws with
  | [] => None
  | w :: ws' =>
      if String.prefix w s then Some (dropBytes (String.length w) s)
      else cutPrefix ws' s
  end.

Fixpoint trimLeftWith (ws : list string) (fuel : nat) (s : string) : string :=
  match fuel with
  | O => s
  | S fuel' =>
      match cutPrefix ws s with
      | Some s' => trimLeftWith ws fuel' s'
      | None => s
      end
  end.

(** [strings.TrimSpace]: leading and trailing white space removed. *)
Definition TrimSpace (s : string) : string :=
  let l := trimLeftWith whiteSpace (String.length s) s in
  String.rev
    (trimLeftWith (map String.rev whiteSpace) (String.length l) (String.rev l)).

(** ** Errors

    A Go [error] is kept with its origin: the transport's, the XML
    decoder's, [errors.New] and [fmt.Errorf] (with the formatted text). *)
Inductive error : Type :=
  | TransportError (e : string)
  | XmlError (e : string)
  | ErrorsNew (msg : string)
  | Errorf (msg : string).

(** ** The structs of the package

    Each struct is a record [t] in a module of the struct's name.  Where
    the package gives a struct and a method the same name ([Devices],
    [DeviceGroups], [Tags], [AddressGroups], [Serial] the field), the module
    of the struct has a [T] appended. *)

Record PaloAlto : Type := {
  Host : string;
  Key : string;
  URI : string;
  Platform : string;
  Model : string;
  Serial : string;
  SoftwareVersion : string;
  DeviceType : string;
  Panorama : bool
}.

Module SerialT.
Record t : Type := { Serial : string }.
End SerialT.

Module DeviceGroup.
Record t : Type := { Name : string; Devices : list SerialT.t }.
End DeviceGroup.

Module DevicesT.
Record t : Type := { Status : string; Code : string; Devices : list SerialT.t }.
End DevicesT.

Module DeviceGroupsT.
Record t : Type := { Status : string; Code : string; Groups : list DeviceGroup.t }.
End DeviceGroupsT.

Module Tag.
Record t : Type := { Name : string; Color : string; Comments : string }.
End Tag.

Module TagsT.
Record t : Type := { Tags : list Tag.t }.
End TagsT.

Module xmlTag.
Record t : Type := { Name : string; Color : string; Comments : string }.
End xmlTag.

Module xmlTags.
Record t : Type := { Status : string; Code : string; Tags : list xmlTag.t }.
End xmlTags.

Module authKey.
Record t : Type := { Status : string; Code : string; Key : string }.
End authKey.

Module systemInfo.
Record t : Type := {
  Status : string; Code : string;
  Platform : string; Model : string; Serial : string; SoftwareVersion : string
}.
End systemInfo.

Module panoramaStatus.
Record t : Type := { Status : string; Code : string; Data : string }.
End panoramaStatus.

Module requestError.
Record t : Type := { Status : string; Code : string; Message : string }.
Definition zero : t := {| Status := EmptyString; Code := EmptyString; Message := EmptyString |}.
End requestError.

Module Address.
Record t : Type := {
  Name : string; IPAddress : string; IPRange : string; FQDN : string;
  Description : string
}.
End Address.

Module AddressObjects.
Record t : Type := { Status : string; Code : string; Addresses : list Address.t }.
End AddressObjects.

Module AddressGroup.
Record t : Type := {
  Name : string; Type_ : string; Members : list string;
  DynamicFilter : string; Description : string
}.
End AddressGroup.

Module AddressGroupsT.
Record t : Type := { Groups : list AddressGroup.t }.
End AddressGroupsT.

Module xmlAddressGroup.
Record t : Type := {
  Name : string; Members : list string; DynamicFilter : string;
  Description : string
}.
End xmlAddressGroup.

Module xmlAddressGroups.
Record t : Type := { Status : string; Code : string; Groups : list xmlAddressGroup.t }.
End xmlAddressGroups.

(** Modelled from the spec: the structs of the service listings are
    declared in a file of the package that is not among the sources.
    [ApplyTag] and [RemoveTag] read [sObj.Services] and [sgObj.Groups] and
    the [Name] of each element, nothing else. *)
Module Service.
Record t : Type := { Name : string }.
End Service.

Module ServiceObjects.
Record t : Type := { Services : list Service.t }.
End ServiceObjects.

Module ServiceGroup.
Record t : Type := { Name : string }.
End ServiceGroup.

Module ServiceGroupsT.
Record t : Type := { Groups : list ServiceGroup.t }.
End ServiceGroupsT.

(** ** XML answers

    The XML decoder is an external collaborator.  A body either fails to
    decode into the target struct or is a [<response>] document; of a
    document the model keeps what the package's struct tags can read: the
    [status] and [code] attributes of the root (absent or present) and the
    children of [<result>]. *)
Record document : Type := {
  docStatus : option string;
  docCode : option string;
  docMsg : option string;
  docKey : string;
  docPlatform : string;
  docModel : string;
  docSerial : string;
  docSwVersion : string;
  docData : string;
  docAddresses : list Address.t;
  docAddressGroups : list xmlAddressGroup.t;
  docTags : list xmlTag.t;
  docDevices : list SerialT.t;
  docDeviceGroups : list DeviceGroup.t;
  docServices : list Service.t;
  docServiceGroups : list ServiceGroup.t
}.

Inductive body : Type :=
  | Malformed (e : string)
  | Xml (d : document).

(** [xml.Unmarshal] leaves a field of the target untouched when the
    document has nothing for it; a freshly declared target holds zero
    values. *)
Definition attr (d : option string) : string := default EmptyString d.

Definition unmarshal_requestError (b : body) (v : requestError.t)
  : error + requestError.t :=
  match b with
  | Malformed e => inl (XmlError e)
  | Xml d =>
      inr {| requestError.Status := default (requestError.Status v) (docStatus d);
             requestError.Code := default (requestError.Code v) (docCode d);
             requestError.Message := default (requestError.Message v) (docMsg d) |}
  end.

Definition unmarshal_authKey (b : body) : error + authKey.t :=
  match b with
  | Malformed e => inl (XmlError e)
  | Xml d =>
      inr {| authKey.Status := attr (docStatus d);
             authKey.Code := attr (docCode d);
             authKey.Key := docKey d |}
  end.

Definition unmarshal_systemInfo (b : body) : error + systemInfo.t :=
  match b with
  | Malformed e => inl (XmlError e)
  | Xml d =>
      inr {| systemInfo.Status := attr (docStatus d);
             systemInfo.Code := attr (docCode d);
             systemInfo.Platform := docPlatform d;
             systemInfo.Model := docModel d;
             systemInfo.Serial := docSerial d;
             systemInfo.SoftwareVersion := docSwVersion d |}
  end.

Definition unmarshal_panoramaStatus (b : body) : error + panoramaStatus.t :=
  match b with
  | Malformed e => inl (XmlError e)
  | Xml d =>
      inr {| panoramaStatus.Status := attr (docStatus d);
             panoramaStatus.Code := attr (docCode d);
             panoramaStatus.Data := docData d |}
  end.

Definition unmarshal_Devices (b : body) : error + DevicesT.t :=
  match b with
  | Malformed e => inl (XmlError e)
  | Xml d =>
      inr {| DevicesT.Status := attr (docStatus d);
             DevicesT.Code := attr (docCode d);
             DevicesT.Devices := docDevices d |}
  end.

Definition unmarshal_DeviceGroups (b : body) : error + DeviceGroupsT.t :=
  match b with
  | Malformed e => inl (XmlError e)
  | Xml d =>
      inr {| DeviceGroupsT.Status := attr (docStatus d);
             DeviceGroupsT.Code := attr (docCode d);
             DeviceGroupsT.Groups := docDeviceGroups d |}
  end.

Definition unmarshal_xmlTags (b : body) : error + xmlTags.t :=
  match b with
  | Malformed e => inl (XmlError e)
  | Xml d =>
      inr {| xmlTags.Status := attr (docStatus d);
             xmlTags.Code := attr (docCode d);
             xmlTags.Tags := docTags d |}
  end.

Definition unmarshal_AddressObjects (b : body) : error + AddressObjects.t :=
  match b with
  | Malformed e => inl (XmlError e)
  | Xml d =>
      inr {| AddressObjects.Status := attr (docStatus d);
             AddressObjects.Code := attr (docCode d);
             AddressObjects.Addresses := docAddresses d |}
  end.

Definition unmarshal_xmlAddressGroups (b : body) : error + xmlAddressGroups.t :=
  match b with
  | Malformed e => inl (XmlError e)
  | Xml d =>
      inr {| xmlAddressGroups.Status := attr (docStatus d);
             xmlAddressGroups.Code := attr (docCode d);
             xmlAddressGroups.Groups := docAddressGroups d |}
  end.

(** ** The HTTP collaborator

    [rested.Request.Send(method, uri, body, headers, query)]; the package
    never passes a body.  A nil map is the empty map. *)
Record request : Type := {
  verb : string;
  url : string;
  headers_ : gmap string string;
  query_ : gmap string string
}.

Record Response : Type := {
  Error : option error;
  Body : body
}.

(** The device answers a request knowing every request it was sent before. *)
Definition device : Type := list request -> request -> Response.

(** ** Running an operation

    An operation reads the device, appends to the log of requests sent,
    and either completes with a value or panics. *)
Inductive outcome (A : Type) : Type :=
  | Done (a : A)
  | Panic (msg : string).
Arguments Done {A} a.
Arguments Panic {A} msg.

Definition M (A : Type) : Type :=
  device -> list request -> outcome A * list request.

#[global] Instance M_ret : MRet M :=
  fun A a _ log => (Done a, log).

#[global] Instance M_bind : MBind M :=
  fun A B f m dev log =>
    match m dev log with
    | (Done a, log') => f a dev log'
    | (Panic msg, log') => (Panic msg, log')
    end.

Definition Send (method uri : string) (headers query : gmap string string)
  : M Response :=
  fun dev log =>
    let r := {| verb := method; url := uri; headers_ := headers; query_ := query |} in
    (Done (dev log r), log ++ [r]).

Definition panic {A : Type} (msg : string) : M A :=
  fun _ log => (Panic msg, log).

Definition nilDereference : string :=
  "runtime error: invalid memory address or nil pointer dereference".

(** Reading a field through a pointer that may be nil. *)
Definition deref {A : Type} (ptr : option A) : M A :=
  match ptr with
  | Some a => mret a
  | None => panic nilDereference
  end.

(** ** The package-level tables *)

(** Indexing a Go [map[string]string]: the zero value for a missing key. *)
Definition index (m : gmap string string) (k : string) : string :=
  default EmptyString (m !! k).

Definition headers : gmap string string :=
  list_to_map [("Content-Type", "application/xml")].

Definition tagColors : gmap string string :=
  list_to_map
    [ ("Red", "color1"); ("Green", "color2"); ("Blue", "color3");
      ("Yellow", "color4"); ("Copper", "color5"); ("Orange", "color6");
      ("Purple", "color7"); ("Gray", "color8"); ("Light Green", "color9");
      ("Cyan", "color10"); ("Light Gray", "color11"); ("Blue Gray", "color12");
      ("Lime", "color13"); ("Black", "color14"); ("Gold", "color15");
      ("Brown", "color16") ].

Definition internalError : string :=
  "Internal error - Check with technical support when seeing these errors".

Definition errorCodes : gmap string string :=
  list_to_map
    [ ("400", "Bad request - Returned when a required parameter is missing, an illegal parameter value is used");
      ("403", "Forbidden - Returned for authentication or authorization errors including invalid key, insufficient admin access rights");
      ("1", "Unknown command - The specific config or operational command is not recognized");
      ("2", internalError);
      ("3", internalError);
      ("4", internalError);
      ("5", internalError);
      ("6", "Bad Xpath - The xpath specified in one or more attributes of the command is invalid. Check the API browser for proper xpath values");
      ("7", "Object not present - Object specified by the xpath is not present. For example, entry[@name=’value’] where no object with name ‘value’ is present");
      ("8", "Object not unique - For commands that operate on a single object, the specified object is not unique");
      ("9", internalError);
      ("10", "Reference count not zero - Object cannot be deleted as there are other objects that refer to it. For example, address object still in use in policy");
      ("11", internalError);
      ("12", "Invalid object - Xpath or element values provided are not complete");
      ("13", "Operation failed - A descriptive error message is returned in the response");
      ("14", "Operation not possible - Operation is not possible. For example, moving a rule up one position when it is already at the top");
      ("15", "Operation denied - For example, Admin not allowed to delete own account, Running a command that is not allowed on a passive device");
      ("16", "Unauthorized - The API role does not have access rights to run this query");
      ("17", "Invalid command - Invalid command or parameters");
      ("18", "Malformed command - The XML is malformed");
      ("19", "Success - Command completed successfully");
      ("20", "Success - Command completed successfully");
      ("21", internalError);
      ("22", "Session timed out - The session for this query timed out") ].

(** ** Shared pieces of the operations *)

Definition len {A : Type} (l : list A) : nat := List.length l.

(** [devicegroup[0]], read by the package only under [len(devicegroup) > 0]. *)
Definition elem0 (l : list string) : string := default EmptyString (head l).

(** [fmt.Errorf("error code %s: %s", code, errorCodes[code])]. *)
Definition codeError (code : string) : error :=
  Errorf ("error code " +:+ code +:+ ": " +:+ index errorCodes code).

(** The block every mutating operation ends with (the source repeats it
    verbatim at each place):
<<
      resp := r.Send(method, p.URI, nil, nil, query)
      if resp.Error != nil { return resp.Error }
      if err := xml.Unmarshal(resp.Body, &reqError); err != nil { return err }
      if reqError.Status != "success" {
        return fmt.Errorf("error code %s: %s", reqError.Code, errorCodes[reqError.Code])
      }
>>
    [inl e] is the early [return e]; [inr v] is falling through with
    [reqError] holding [v].  [checkResponse] is the part after [Send]. *)
Definition checkResponse (resp : Response) (reqError : requestError.t)
  : error + requestError.t :=
  match Error resp with
  | Some e => inl e
  | None =>
      match unmarshal_requestError (Body resp) reqError with
      | inl err => inl err
      | inr reqError =>
          if requestError.Status reqError != "success"
          then inl (codeError (requestError.Code reqError))
          else inr reqError
      end
  end.

Definition sendChecked (method : string) (p : PaloAlto)
    (query : gmap string string) (reqError : requestError.t)
  : M (error + requestError.t) :=
  resp ← Send method (URI p) ∅ query;
  mret (checkResponse resp reqError).

(** [return nil] after the block above. *)
Definition returnNil (r : error + requestError.t) : option error :=
  match r with
  | inl e => Some e
  | inr _ => None
  end.

(** [for _, x := range xs { ... }] with a body that may return from the
    enclosing function: [Some v] is [return v], [None] goes on with the next
    element. *)
Fixpoint forRange {A R : Type} (xs : list A) (loopBody : A -> M (option R))
  : M (option R) :=
  match xs with
  | [] => mret None
  | x :: xs' =>
      r ← loopBody x;
      match r with
      | Some v => mret (Some v)
      | None => forRange xs' loopBody
      end
  end.

Definition panosVsys : string :=
  "/config/devices/entry[@name='localhost.localdomain']/vsys/entry[@name='vsys1']".

Definition panoramaDeviceGroup : string :=
  "/config/devices/entry[@name='localhost.localdomain']/device-group".

Definition needDeviceGroup : error :=
  ErrorsNew "you must specify a device-group when connected to a Panorama device".

(** ** Addresses and address groups *)

Definition Addresses (p : PaloAlto) (devicegroup : list string)
  : M (option AddressObjects.t * option error) :=
  let xpath := "/config/devices/entry//address" in
  if (DeviceType p != "panorama") && (0 <? len devicegroup)%nat then
    mret (None, Some (ErrorsNew
      "you must be connected to a Panorama device when specifying a device-group"))
  else
  let xpath :=
    if (DeviceType p == "panos") && Panorama p
    then "/config/panorama//address" else xpath in
  let xpath :=
    if (DeviceType p == "panos") && negb (Panorama p)
    then panosVsys +:+ "/address" else xpath in
  let xpath :=
    if (DeviceType p == "panorama") && (0 <? len devicegroup)%nat
    then panoramaDeviceGroup +:+ "/entry[@name='" +:+ elem0 devicegroup +:+ "']/address"
    else xpath in
  let query : gmap string string :=
    list_to_map [("type", "config"); ("action", "get"); ("xpath", xpath);
                 ("key", Key p)] in
  addrData ← Send "get" (URI p) headers query;
  match unmarshal_AddressObjects (Body addrData) with
  | inl err => mret (None, Some err)
  | inr addrs =>
      if AddressObjects.Status addrs != "success"
      then mret (None, Some (codeError (AddressObjects.Code addrs)))
      else mret (Some addrs, None)
  end.

Definition AddressGroups (p : PaloAlto) (devicegroup : list string)
  : M (option AddressGroupsT.t * option error) :=
  let xpath := "/config/devices/entry//address-group" in
  if (DeviceType p != "panorama") && (0 <? len devicegroup)%nat then
    mret (None, Some (ErrorsNew
      "you must be connected to a Panorama device when specifying a device-group"))
  else
  let xpath :=
    if (DeviceType p == "panos") && Panorama p
    then "/config/panorama//address-group" else xpath in
  let xpath :=
    if (DeviceType p == "panos") && negb (Panorama p)
    then panosVsys +:+ "/address-group" else xpath in
  let xpath :=
    if (DeviceType p == "panorama") && (0 <? len devicegroup)%nat
    then panoramaDeviceGroup +:+ "/entry[@name='" +:+ elem0 devicegroup
           +:+ "']/address-group"
    else xpath in
  let query : gmap string string :=
    list_to_map [("type", "config"); ("action", "get"); ("xpath", xpath);
                 ("key", Key p)] in
  groupData ← Send "get" (URI p) headers query;
  match unmarshal_xmlAddressGroups (Body groupData) with
  | inl err => mret (None, Some err)
  | inr parsedGroups =>
      if xmlAddressGroups.Status parsedGroups != "success"
      then mret (None, Some (codeError (xmlAddressGroups.Code parsedGroups)))
      else
        let groups :=
          fold_left
            (fun acc g =>
               let gtype :=
                 if xmlAddressGroup.DynamicFilter g != EmptyString
                 then "Dynamic" else "Static" in
               acc ++ [ {| AddressGroup.Name := xmlAddressGroup.Name g;
                           AddressGroup.Type_ := gtype;
                           AddressGroup.Members := xmlAddressGroup.Members g;
                           AddressGroup.DynamicFilter :=
                             TrimSpace (xmlAddressGroup.DynamicFilter g);
                           AddressGroup.Description :=
                             xmlAddressGroup.Description g |} ])
            (xmlAddressGroups.Groups parsedGroups) [] in
        mret (Some {| AddressGroupsT.Groups := groups |}, None)
  end.

(** The element body of an address object: the [switch addrtype] and the
    optional description. *)
Definition addressBody (addrtype address description : string) : string :=
  let xmlBody :=
    if addrtype == "ip" then "<ip-netmask>" +:+ address +:+ "</ip-netmask>"
    else if addrtype == "range" then "<ip-range>" +:+ address +:+ "</ip-range>"
    else if addrtype == "fqdn" then "<fqdn>" +:+ address +:+ "</fqdn>"
    else EmptyString in
  if description != EmptyString
  then xmlBody +:+ "<description>" +:+ description +:+ "</description>"
  else xmlBody.

(** The locator of a named object of a category ([address],
    [address-group], [tag]) on a firewall or in a device-group; it stays
    empty when neither of the two [if]s applies. *)
Definition objectXpath (p : PaloAlto) (category name : string)
    (devicegroup : list string) : string :=
  let xpath := EmptyString in
  let xpath :=
    if DeviceType p == "panos"
    then panosVsys +:+ "/" +:+ category +:+ "/entry[@name='" +:+ name +:+ "']"
    else xpath in
  if (DeviceType p == "panorama") && (0 <? len devicegroup)%nat
  then panoramaDeviceGroup +:+ "/entry[@name='" +:+ elem0 devicegroup +:+ "']/"
         +:+ category +:+ "/entry[@name='" +:+ name +:+ "']"
  else xpath.

Definition CreateAddress (p : PaloAlto)
    (name addrtype address description : string) (devicegroup : list string)
  : M (option error) :=
  let xmlBody := addressBody addrtype address description in
  let xpath := objectXpath p "address" name devicegroup in
  if (DeviceType p == "panorama") && (len devicegroup <=? 0)%nat then
    mret (Some needDeviceGroup)
  else
  let query : gmap string string :=
    list_to_map [("type", "config"); ("action", "set"); ("xpath", xpath);
                 ("element", xmlBody); ("key", Key p)] in
  r ← sendChecked "post" p query requestError.zero;
  mret (returnNil r).

Definition onlyShared (what : string) : error :=
  ErrorsNew ("you can only " +:+ what
             +:+ " shared objects when connected to a Panorama device").

Definition CreateSharedAddress (p : PaloAlto)
    (name addrtype address description : string) : M (option error) :=
  let xmlBody := addressBody addrtype address description in
  if DeviceType p == "panos" then mret (Some (onlyShared "create")) else
  let xpath :=
    if DeviceType p == "panorama"
    then "/config/shared/address/entry[@name='" +:+ name +:+ "']"
    else EmptyString in
  let query : gmap string string :=
    list_to_map [("type", "config"); ("action", "set"); ("xpath", xpath);
                 ("element", xmlBody); ("key", Key p)] in
  r ← sendChecked "post" p query requestError.zero;
  mret (returnNil r).

(** The element body of a static group: one [<member>] per comma-separated
    field, trimmed, and the optional description. *)
Definition staticBody (members description : string) : string :=
  let m := Split members ","%char in
  let xmlBody := "<static>" in
  let xmlBody :=
    fold_left
      (fun acc member => acc +:+ "<member>" +:+ TrimSpace member +:+ "</member>")
      m xmlBody in
  let xmlBody := xmlBody +:+ "</static>" in
  if description != EmptyString
  then xmlBody +:+ "<description>" +:+ description +:+ "</description>"
  else xmlBody.

Definition noMembers : error :=
  ErrorsNew "you cannot create a static address group without any members".

Definition CreateStaticGroup (p : PaloAlto) (name members description : string)
    (devicegroup : list string) : M (option error) :=
  if members == EmptyString then mret (Some noMembers) else
  let xmlBody := staticBody members description in
  let xpath := objectXpath p "address-group" name devicegroup in
  if (DeviceType p == "panorama") && (len devicegroup <=? 0)%nat then
    mret (Some needDeviceGroup)
  else
  let query : gmap string string :=
    list_to_map [("type", "config"); ("action", "set"); ("xpath", xpath);
                 ("element", xmlBody); ("key", Key p)] in
  r ← sendChecked "post" p query requestError.zero;
  mret (returnNil r).

Definition CreateSharedStaticGroup (p : PaloAlto)
    (name members description : string) : M (option error) :=
  if members == EmptyString then mret (Some noMembers) else
  let xmlBody := staticBody members description in
  if DeviceType p == "panos" then mret (Some (onlyShared "create")) else
  let xpath :=
    if DeviceType p == "panorama"
    then "/config/shared/address-group/entry[@name='" +:+ name +:+ "']"
    else EmptyString in
  let query : gmap string string :=
    list_to_map [("type", "config"); ("action", "set"); ("xpath", xpath);
                 ("element", xmlBody); ("key", Key p)] in
  r ← sendChecked "post" p query requestError.zero;
  mret (returnNil r).

Definition dynamicBody (criteria description : string) : string :=
  let xmlBody := "<dynamic><filter>" +:+ criteria +:+ "</filter></dynamic>" in
  if description != EmptyString
  then xmlBody +:+ "<description>" +:+ description +:+ "</description>"
  else xmlBody.

Definition noFilter : error :=
  ErrorsNew "you cannot create a dynamic address group without any filter".

Definition CreateDynamicGroup (p : PaloAlto) (name criteria description : string)
    (devicegroup : list string) : M (option error) :=
  if criteria == EmptyString then mret (Some noFilter) else
  let xmlBody := dynamicBody criteria description in
  let xpath := objectXpath p "address-group" name devicegroup in
  if (DeviceType p == "panorama") && (len devicegroup <=? 0)%nat then
    mret (Some needDeviceGroup)
  else
  let query : gmap string string :=
    list_to_map [("type", "config"); ("action", "set"); ("xpath", xpath);
                 ("element", xmlBody); ("key", Key p)] in
  r ← sendChecked "post" p query requestError.zero;
  mret (returnNil r).

Definition CreateSharedDynamicGroup (p : PaloAlto)
    (name criteria description : string) : M (option error) :=
  if criteria == EmptyString then mret (Some noFilter) else
  let xmlBody := dynamicBody criteria description in
  if DeviceType p == "panos" then mret (Some (onlyShared "create")) else
  let xpath :=
    if DeviceType p == "panorama"
    then "/config/shared/address-group/entry[@name='" +:+ name +:+ "']"
    else EmptyString in
  let query : gmap string string :=
    list_to_map [("type", "config"); ("action", "set"); ("xpath", xpath);
                 ("element", xmlBody); ("key", Key p)] in
  r ← sendChecked "post" p query requestError.zero;
  mret (returnNil r).

Definition DeleteAddress (p : PaloAlto) (name : string)
    (devicegroup : list string) : M (option error) :=
  let xpath := objectXpath p "address" name devicegroup in
  if (DeviceType p == "panorama") && (len devicegroup <=? 0)%nat then
    mret (Some needDeviceGroup)
  else
  let query : gmap string string :=
    list_to_map [("type", "config"); ("action", "delete"); ("xpath", xpath);
                 ("key", Key p)] in
  r ← sendChecked "get" p query requestError.zero;
  mret (returnNil r).

Definition DeleteSharedAddress (p : PaloAlto) (name : string) : M (option error) :=
  if DeviceType p == "panos" then mret (Some (onlyShared "remove")) else
  let xpath :=
    if DeviceType p == "panorama"
    then "/config/shared/address/entry[@name='" +:+ name +:+ "']"
    else EmptyString in
  let query : gmap string string :=
    list_to_map [("type", "config"); ("action", "delete"); ("xpath", xpath);
                 ("key", Key p)] in
  r ← sendChecked "get" p query requestError.zero;
  mret (returnNil r).

Definition DeleteAddressGroup (p : PaloAlto) (name : string)
    (devicegroup : list string) : M (option error) :=
  let xpath := objectXpath p "address-group" name devicegroup in
  if (DeviceType p == "panorama") && (len devicegroup <=? 0)%nat then
    mret (Some needDeviceGroup)
  else
  let query : gmap string string :=
    list_to_map [("type", "config"); ("action", "delete"); ("xpath", xpath);
                 ("key", Key p)] in
  r ← sendChecked "get" p query requestError.zero;
  mret (returnNil r).

Definition DeleteSharedAddressGroup (p : PaloAlto) (name : string)
  : M (option error) :=
  if DeviceType p == "panos" then mret (Some (onlyShared "create")) else
  let xpath :=
    if DeviceType p == "panorama"
    then "/config/shared/address-group/entry[@name='" +:+ name +:+ "']"
    else EmptyString in
  let query : gmap string string :=
    list_to_map [("type", "config"); ("action", "delete"); ("xpath", xpath);
                 ("key", Key p)] in
  r ← sendChecked "get" p query requestError.zero;
  mret (returnNil r).

(** ** Session set-up *)

Definition NewSession (host user passwd : string)
  : M (option PaloAlto * option error) :=
  let status := false in
  let deviceType := "panos" in
  resp ← Send "get"
           ("https://" +:+ host +:+ "/api/?type=keygen&user=" +:+ user
              +:+ "&password=" +:+ passwd) ∅ ∅;
  match Error resp with
  | Some e => mret (None, Some e)
  | None =>
  match unmarshal_authKey (Body resp) with
  | inl err => mret (None, Some err)
  | inr key =>
  if authKey.Status key != "success" then
    mret (None, Some (Errorf ("error code " +:+ authKey.Code key +:+ ": "
                                +:+ index errorCodes (authKey.Code key)
                                +:+ " (keygen)")))
  else
  let uri := "https://" +:+ host +:+ "/api/?" in
  getInfo ← Send "get"
              (uri +:+ "&key=" +:+ authKey.Key key
                 +:+ "&type=op&cmd=<show><system><info></info></system></show>")
              ∅ ∅;
  match Error getInfo with
  | Some e => mret (None, Some e)
  | None =>
  match unmarshal_systemInfo (Body getInfo) with
  | inl err => mret (None, Some err)
  | inr info =>
  if systemInfo.Status info != "success" then
    mret (None, Some (Errorf ("error code " +:+ systemInfo.Code info +:+ ": "
                                +:+ index errorCodes (systemInfo.Code info)
                                +:+ " (show system info)")))
  else
  panStatus ← Send "get"
                (uri +:+ "&key=" +:+ authKey.Key key
                   +:+ "&type=op&cmd=<show><panorama-status></panorama-status></show>")
                ∅ ∅;
  match Error panStatus with
  | Some e => mret (None, Some e)
  | None =>
  match unmarshal_panoramaStatus (Body panStatus) with
  | inl err => mret (None, Some err)
  | inr pan =>
  let deviceType :=
    if systemInfo.Platform info == "m" then "panorama" else deviceType in
  let status :=
    if Contains (panoramaStatus.Data pan) ": yes" then true else status in
  mret (Some {| Host := host;
                Key := authKey.Key key;
                URI := "https://" +:+ host +:+ "/api/?";
                Platform := systemInfo.Platform info;
                Model := systemInfo.Model info;
                Serial := systemInfo.Serial info;
                SoftwareVersion := systemInfo.SoftwareVersion info;
                DeviceType := deviceType;
                Panorama := status |}, None)
  end end end end end end.

(** ** Devices and device-groups (Panorama) *)

Definition Devices (p : PaloAlto) : M (option DevicesT.t * option error) :=
  let xpath := "/config/mgt-config/devices" in
  if DeviceType p != "panorama" then
    mret (None, Some (ErrorsNew "devices can only be listed from a Panorama device"))
  else
  let query : gmap string string :=
    list_to_map [("type", "config"); ("action", "get"); ("xpath", xpath);
                 ("key", Key p)] in
  devData ← Send "get" (URI p) headers query;
  match unmarshal_Devices (Body devData) with
  | inl err => mret (None, Some err)
  | inr devices =>
      if DevicesT.Status devices != "success"
      then mret (None, Some (codeError (DevicesT.Code devices)))
      else mret (Some devices, None)
  end.

Definition DeviceGroups (p : PaloAlto) : M (option DeviceGroupsT.t * option error) :=
  let xpath := "/config/devices/entry//device-group" in
  if DeviceType p != "panorama" then
    mret (None, Some (ErrorsNew
      "device-groups can only be listed from a Panorama device"))
  else
  let query : gmap string string :=
    list_to_map [("type", "config"); ("action", "get"); ("xpath", xpath);
                 ("key", Key p)] in
  devData ← Send "get" (URI p) headers query;
  match unmarshal_DeviceGroups (Body devData) with
  | inl err => mret (None, Some err)
  | inr devices =>
      if DeviceGroupsT.Status devices != "success"
      then mret (None, Some (codeError (DeviceGroupsT.Code devices)))
      else mret (Some devices, None)
  end.

(** [devices] is a slice that may be nil. *)
Definition CreateDeviceGroup (p : PaloAlto) (name description : string)
    (devices : option (list string)) : M (option error) :=
  if (DeviceType p == "panos") || (DeviceType p != "panorama") then
    mret (Some (ErrorsNew
      "you must be connected to a Panorama device when creating a device-group"))
  else
  let xpath :=
    if DeviceType p == "panorama" then panoramaDeviceGroup else EmptyString in
  let xmlBody :=
    if DeviceType p == "panorama"
    then "<entry name=" +:+ dquote +:+ name +:+ dquote +:+ ">"
    else EmptyString in
  let xmlBody :=
    match devices with
    | Some ds =>
        fold_left
          (fun acc s =>
             acc +:+ "<entry name=" +:+ dquote +:+ TrimSpace s +:+ dquote +:+ "/>")
          ds (xmlBody +:+ "<devices>")
        +:+ "</devices>"
    | None => xmlBody
    end in
  let xmlBody :=
    if description != EmptyString
    then xmlBody +:+ "<description>" +:+ description +:+ "</description>"
    else xmlBody in
  let xmlBody := xmlBody +:+ "</entry>" in
  let query : gmap string string :=
    list_to_map [("type", "config"); ("action", "set"); ("xpath", xpath);
                 ("element", xmlBody); ("key", Key p)] in
  r ← sendChecked "post" p query requestError.zero;
  mret (returnNil r).

Definition DeleteDeviceGroup (p : PaloAlto) (name : string) : M (option error) :=
  if (DeviceType p == "panos") || (DeviceType p != "panorama") then
    mret (Some (ErrorsNew
      "you must be connected to a Panorama device when deleting a device-group"))
  else
  let xpath :=
    if DeviceType p == "panorama"
    then panoramaDeviceGroup +:+ "/entry[@name='" +:+ name +:+ "']"
    else EmptyString in
  let query : gmap string string :=
    list_to_map [("type", "config"); ("action", "delete"); ("xpath", xpath);
                 ("key", Key p)] in
  r ← sendChecked "post" p query requestError.zero;
  mret (returnNil r).

(** One [reqError] serves all the requests of [AddDevice]; the fixed
    [time.Sleep] between the two requests of the second branch has no
    counterpart here. *)
Definition AddDevice (p : PaloAlto) (serial : string) (devicegroup : list string)
  : M (option error) :=
  let reqError := requestError.zero in
  if (DeviceType p == "panos") || (DeviceType p != "panorama") then
    mret (Some (ErrorsNew "you must be connected to Panorama when adding devices"))
  else
  r ← (if (DeviceType p == "panorama") && (len devicegroup <=? 0)%nat then
         let xpath := "/config/mgt-config/devices" in
         let xmlBody := "<entry name=" +:+ dquote +:+ serial +:+ dquote +:+ "/>" in
         let query : gmap string string :=
           list_to_map [("type", "config"); ("action", "set"); ("xpath", xpath);
                        ("element", xmlBody); ("key", Key p)] in
         sendChecked "post" p query reqError
       else mret (inr reqError));
  match r with
  | inl e => mret (Some e)
  | inr reqError =>
      if (DeviceType p == "panorama") && (0 <? len devicegroup)%nat then
        let deviceXpath := "/config/mgt-config/devices" in
        let deviceXMLBody :=
          "<entry name=" +:+ dquote +:+ serial +:+ dquote +:+ "/>" in
        let xpath :=
          panoramaDeviceGroup +:+ "/entry[@name='" +:+ elem0 devicegroup +:+ "']" in
        let xmlBody :=
          "<devices><entry name=" +:+ dquote +:+ serial +:+ dquote
            +:+ "/></devices>" in
        let deviceQuery : gmap string string :=
          list_to_map [("type", "config"); ("action", "set");
                       ("xpath", deviceXpath); ("element", deviceXMLBody);
                       ("key", Key p)] in
        r ← sendChecked "post" p deviceQuery reqError;
        match r with
        | inl e => mret (Some e)
        | inr reqError =>
            let query : gmap string string :=
              list_to_map [("type", "config"); ("action", "set");
                           ("xpath", xpath); ("element", xmlBody);
                           ("key", Key p)] in
            r ← sendChecked "post" p query reqError;
            mret (returnNil r)
        end
      else mret None
  end.

Definition SetPanoramaServer (p : PaloAlto) (ip : string) : M (option error) :=
  let xpath :=
    "/config/devices/entry[@name='localhost.localdomain']/deviceconfig/system" in
  let xmlBody := "<panorama-server>" +:+ ip +:+ "</panorama-server>" in
  if (DeviceType p == "panorama") && Panorama p then
    mret (Some (ErrorsNew
      "you must be connected to a non-Panorama device in order to configure a Panorama server"))
  else
  let query : gmap string string :=
    list_to_map [("type", "config"); ("action", "set"); ("xpath", xpath);
                 ("key", Key p); ("element", xmlBody)] in
  r ← sendChecked "post" p query requestError.zero;
  mret (returnNil r).

Definition RemoveDevice (p : PaloAlto) (serial : string)
    (devicegroup : list string) : M (option error) :=
  if (DeviceType p == "panos") || (DeviceType p != "panorama") then
    mret (Some (ErrorsNew "you must be connected to Panorama when removing devices"))
  else
  let xpath :=
    if (DeviceType p == "panorama") && (len devicegroup <=? 0)%nat
    then "/config/mgt-config/devices/entry[@name='" +:+ serial +:+ "']"
    else EmptyString in
  let xpath :=
    if (DeviceType p == "panorama") && (0 <? len devicegroup)%nat
    then panoramaDeviceGroup +:+ "/entry[@name='" +:+ elem0 devicegroup
           +:+ "']/devices/entry[@name='" +:+ serial +:+ "']"
    else xpath in
  let query : gmap string string :=
    list_to_map [("type", "config"); ("action", "delete"); ("xpath", xpath);
                 ("key", Key p)] in
  r ← sendChecked "post" p query requestError.zero;
  mret (returnNil r).

(** ** Tags *)

(** The inner loop of [Tags],
<<
      for k, v := range tagColors { if t.Color == v { tcolor = k } }
>>
    run over the entries in the order [entries]; Go leaves the order of a
    map range unspecified. *)
Definition rangeTagColors (entries : list (string * string))
    (color tcolor : string) : string :=
  fold_left (fun tcolor kv => if color == kv.2 then kv.1 else tcolor)
            entries tcolor.

(** The loop over the parsed tags.  [tcolor] is declared once, before the
    loop, and [tags] grows by [append]. *)
Fixpoint tagsLoop (parsed : list xmlTag.t) (tcolor : string) (tags : list Tag.t)
  : list Tag.t :=
  match parsed with
  | [] => tags
  | t :: rest =>
      let tname := xmlTag.Name t in
      let tcolor := rangeTagColors (map_to_list tagColors) (xmlTag.Color t) tcolor in
      let tcomments := xmlTag.Comments t in
      tagsLoop rest tcolor
        (tags ++ [ {| Tag.Name := tname; Tag.Color := tcolor;
                      Tag.Comments := tcomments |} ])
  end.

Definition Tags (p : PaloAlto) : M (option TagsT.t * option error) :=
  let tcolor := EmptyString in
  let xpath := "/config/devices/entry//tag" in
  let xpath :=
    if (DeviceType p == "panos") && Panorama p
    then "/config/panorama//tag" else xpath in
  let xpath :=
    if DeviceType p == "panorama" then "/config/devices/entry//tag" else xpath in
  let query : gmap string string :=
    list_to_map [("type", "config"); ("action", "get"); ("xpath", xpath);
                 ("key", Key p)] in
  tData ← Send "get" (URI p) headers query;
  match unmarshal_xmlTags (Body tData) with
  | inl err => mret (None, Some err)
  | inr parsedTags =>
      if xmlTags.Status parsedTags != "success"
      then mret (None, Some (codeError (xmlTags.Code parsedTags)))
      else
        mret (Some {| TagsT.Tags := tagsLoop (xmlTags.Tags parsedTags) tcolor [] |},
              None)
  end.

Definition CreateTag (p : PaloAlto) (name color comments : string)
    (devicegroup : list string) : M (option error) :=
  let xmlBody := "<color>" +:+ index tagColors color +:+ "</color>" in
  let xmlBody :=
    if comments != EmptyString
    then xmlBody +:+ "<comments>" +:+ comments +:+ "</comments>"
    else xmlBody in
  let xpath := objectXpath p "tag" name devicegroup in
  if (DeviceType p == "panorama") && (len devicegroup <=? 0)%nat then
    mret (Some needDeviceGroup)
  else
  let query : gmap string string :=
    list_to_map [("type", "config"); ("action", "set"); ("xpath", xpath);
                 ("element", xmlBody); ("key", Key p)] in
  r ← sendChecked "post" p query requestError.zero;
  mret (returnNil r).

Definition DeleteTag (p : PaloAlto) (name : string) (devicegroup : list string)
  : M (option error) :=
  let xpath := objectXpath p "tag" name devicegroup in
  if (DeviceType p == "panorama") && (len devicegroup <=? 0)%nat then
    mret (Some needDeviceGroup)
  else
  let query : gmap string string :=
    list_to_map [("type", "config"); ("action", "delete"); ("xpath", xpath);
                 ("key", Key p)] in
  r ← sendChecked "get" p query requestError.zero;
  mret (returnNil r).

(** ** Applying and removing tags *)

(** Modelled from the spec: [Services] and [ServiceGroups], the listings of
    service objects and service groups, are methods of the package whose
    file is not among the sources.  [ApplyTag] and [RemoveTag] call them
    without arguments and keep the pointer they return; the operations are
    stated over any implementation of the two. *)
Class ServiceListing : Type := {
  Services : PaloAlto -> M (option ServiceObjects.t * option error);
  ServiceGroups : PaloAlto -> M (option ServiceGroupsT.t * option error)
}.

(** The body of each of the four loops of [ApplyTag]; the loops differ in
    the category segment of the locator only.  [query] is the map built
    before the loops, [query["xpath"] = xpath] the only change made to it. *)
Definition applyTagBody (p : PaloAlto) (category object : string)
    (devicegroup : list string) (query : gmap string string) (name : string)
  : M (option (option error)) :=
  if object == name then
    if DeviceType p == "panos" then
      let xpath :=
        panosVsys +:+ "/" +:+ category +:+ "/entry[@name='" +:+ object
          +:+ "']/tag" in
      let query := <["xpath" := xpath]> query in
      r ← sendChecked "post" p query requestError.zero;
      mret (Some (returnNil r))
    else if (DeviceType p == "panorama") && (0 <? len devicegroup)%nat then
      let xpath :=
        panoramaDeviceGroup +:+ "/entry[@name='" +:+ elem0 devicegroup +:+ "']/"
          +:+ category +:+ "/entry[@name='" +:+ object +:+ "']/tag" in
      let query := <["xpath" := xpath]> query in
      r ← sendChecked "post" p query requestError.zero;
      mret (Some (returnNil r))
    else if (DeviceType p == "panorama") && (len devicegroup <=? 0)%nat then
      mret (Some (Some needDeviceGroup))
    else mret None
  else mret None.

Definition tagBody (tag : string) : string :=
  let tags := Split tag ","%char in
  fold_left
    (fun acc t => acc +:+ "<member>" +:+ TrimSpace t +:+ "</member>")
    tags "<tag>"
  +:+ "</tag>".

Definition ApplyTag {SL : ServiceListing} (p : PaloAlto) (tag object : string)
    (devicegroup : list string) : M (option error) :=
  '(adObj, _) ← Addresses p [];
  '(agObj, _) ← AddressGroups p [];
  '(sObj, _) ← Services p;
  '(sgObj, _) ← ServiceGroups p;
  let xmlBody := tagBody tag in
  let query : gmap string string :=
    list_to_map [("type", "config"); ("action", "edit"); ("element", xmlBody);
                 ("key", Key p)] in
  ad ← deref adObj;
  r ← forRange (AddressObjects.Addresses ad)
        (fun a => applyTagBody p "address" object devicegroup query (Address.Name a));
  match r with
  | Some e => mret e
  | None =>
  ag ← deref agObj;
  r ← forRange (AddressGroupsT.Groups ag)
        (fun ag => applyTagBody p "address-group" object devicegroup query
                     (AddressGroup.Name ag));
  match r with
  | Some e => mret e
  | None =>
  s ← deref sObj;
  r ← forRange (ServiceObjects.Services s)
        (fun s => applyTagBody p "service" object devicegroup query (Service.Name s));
  match r with
  | Some e => mret e
  | None =>
  sg ← deref sgObj;
  r ← forRange (ServiceGroupsT.Groups sg)
        (fun sg => applyTagBody p "service-group" object devicegroup query
                     (ServiceGroup.Name sg));
  match r with
  | Some e => mret e
  | None => mret None
  end end end end.

(** The body of each of the four loops of [RemoveTag]. *)
Definition removeTagBody (p : PaloAlto) (category tag object : string)
    (devicegroup : list string) (query : gmap string string) (name : string)
  : M (option (option error)) :=
  if object == name then
    if DeviceType p == "panos" then
      let xpath :=
        panosVsys +:+ "/" +:+ category +:+ "/entry[@name='" +:+ object
          +:+ "']/tag/member[text()='" +:+ tag +:+ "']" in
      let query := <["xpath" := xpath]> query in
      r ← sendChecked "post" p query requestError.zero;
      mret (Some (returnNil r))
    else if (DeviceType p == "panorama") && (0 <? len devicegroup)%nat then
      let xpath :=
        panoramaDeviceGroup +:+ "/entry[@name='" +:+ elem0 devicegroup +:+ "']/"
          +:+ category +:+ "/entry[@name='" +:+ object
          +:+ "']/tag/member[text()='" +:+ tag +:+ "']" in
      let query := <["xpath" := xpath]> query in
      r ← sendChecked "post" p query requestError.zero;
      mret (Some (returnNil r))
    else if (DeviceType p == "panorama") && (len devicegroup <=? 0)%nat then
      mret (Some (Some needDeviceGroup))
    else mret None
  else mret None.

Definition RemoveTag {SL : ServiceListing} (p : PaloAlto) (tag object : string)
    (devicegroup : list string) : M (option error) :=
  '(adObj, _) ← Addresses p [];
  '(agObj, _) ← AddressGroups p [];
  '(sObj, _) ← Services p;
  '(sgObj, _) ← ServiceGroups p;
  let query : gmap string string :=
    list_to_map [("type", "config"); ("action", "delete"); ("key", Key p)] in
  ad ← deref adObj;
  r ← forRange (AddressObjects.Addresses ad)
        (fun a => removeTagBody p "address" tag object devicegroup query
                    (Address.Name a));
  match r with
  | Some e => mret e
  | None =>
  ag ← deref agObj;
  r ← forRange (AddressGroupsT.Groups ag)
        (fun ag => removeTagBody p "address-group" tag object devicegroup query
                     (AddressGroup.Name ag));
  match r with
  | Some e => mret e
  | None =>
  s ← deref sObj;
  r ← forRange (ServiceObjects.Services s)
        (fun s => removeTagBody p "service" tag object devicegroup query
                    (Service.Name s));
  match r with
  | Some e => mret e
  | None =>
  sg ← deref sgObj;
  r ← forRange (ServiceGroupsT.Groups sg)
        (fun sg => removeTagBody p "service-group" tag object devicegroup query
                     (ServiceGroup.Name sg));
  match r with
  | Some e => mret e
  | None => mret None
  end end end end.

(** ** Commit *)

Definition Commit (p : PaloAlto) : M (option error) :=
  let query : gmap string string :=
    list_to_map [("type", "commit"); ("cmd", "<commit></commit>");
                 ("key", Key p)] in
  r ← sendChecked "get" p query requestError.zero;
  mret (returnNil r).

Definition CommitAll (p : PaloAlto) (devicegroup : string) (devices : list string)
  : M (option error) :=
  let cmd :=
    if (DeviceType p == "panorama") && (len devices <=? 0)%nat
    then "<commit-all><shared-policy><device-group><entry name=" +:+ dquote
           +:+ devicegroup +:+ dquote
           +:+ "/></device-group></shared-policy></commit-all>"
    else EmptyString in
  let cmd :=
    if (DeviceType p == "panorama") && (0 <? len devices)%nat
    then
      fold_left
        (fun acc d => acc +:+ "<entry name=" +:+ dquote +:+ d +:+ dquote +:+ "/>")
        devices
        ("<commit-all><shared-policy><device-group><name>" +:+ devicegroup
           +:+ "</name><devices>")
      +:+ "</devices></device-group></shared-policy></commit-all>"
    else cmd in
  let query : gmap string string :=
    list_to_map [("type", "commit"); ("action", "all"); ("cmd", cmd);
                 ("key", Key p)] in
  r ← sendChecked "get" p query requestError.zero;
  mret (returnNil r).

(** ** Notions of the specification *)

(** The color name a color code stands for: the key under which the table
    [tagColors] holds the code, if any. *)
Definition colorName (code : string) : option string :=
  fst <$> List.find (fun kv => code == kv.2) (map_to_list tagColors).

(** The object categories a tag can be attached to, in the order in which
    [ApplyTag] and [RemoveTag] search them. *)
Inductive category : Type :=
  | catAddress
  | catAddressGroup
  | catService
  | catServiceGroup.

Definition searchOrder : list category :=
  [catAddress; catAddressGroup; catService; catServiceGroup].

Definition segment (c : category) : string :=
  match c with
  | catAddress => "address"
  | catAddressGroup => "address-group"
  | catService => "service"
  | catServiceGroup => "service-group"
  end.

(** A listing has an entry with the given name. *)
Definition hasName (object : string) (names : list string) : bool :=
  existsb (String.eqb object) names.

(** The names each listing holds. *)
Definition listedNames (ad : AddressObjects.t) (ag : AddressGroupsT.t)
    (s : ServiceObjects.t) (sg : ServiceGroupsT.t) (c : category) : list string :=
  match c with
  | catAddress => Address.Name <$> AddressObjects.Addresses ad
  | catAddressGroup => AddressGroup.Name <$> AddressGroupsT.Groups ag
  | catService => Service.Name <$> ServiceObjects.Services s
  | catServiceGroup => ServiceGroup.Name <$> ServiceGroupsT.Groups sg
  end.

(** First match wins: the earliest category, in the search order, whose
    listing has an entry named [object]. *)
Definition firstCategory (object : string) (listed : category -> list string)
  : option category :=
  List.find (fun c => hasName object (listed c)) searchOrder.

(** The device types for which a matching entry ends the search: the loop
    bodies return for [panos] and for [panorama], with or without a
    device-group, and for no other device type. *)
Definition returnsOnMatch (p : PaloAlto) : bool :=
  (DeviceType p == "panos") || (DeviceType p == "panorama").

(** The one mutation [ApplyTag] sends for an object of category [c]. *)
Definition applyTagQuery (p : PaloAlto) (tag : string) : gmap string string :=
  list_to_map [("type", "config"); ("action", "edit"); ("element", tagBody tag);
               ("key", Key p)].

Definition applyTagXpath (p : PaloAlto) (c : category) (object : string)
    (devicegroup : list string) : string :=
  if DeviceType p == "panos"
  then panosVsys +:+ "/" +:+ segment c +:+ "/entry[@name='" +:+ object +:+ "']/tag"
  else panoramaDeviceGroup +:+ "/entry[@name='" +:+ elem0 devicegroup +:+ "']/"
         +:+ segment c +:+ "/entry[@name='" +:+ object +:+ "']/tag".

Definition applyTagRequest (p : PaloAlto) (tag object : string)
    (devicegroup : list string) (c : category) : request :=
  {| verb := "post"; url := URI p; headers_ := ∅;
     query_ := <["xpath" := applyTagXpath p c object devicegroup]>
                 (applyTagQuery p tag) |}.

(** The one mutation [RemoveTag] sends for an object of category [c]. *)
Definition removeTagQuery (p : PaloAlto) : gmap string string :=
  list_to_map [("type", "config"); ("action", "delete"); ("key", Key p)].

Definition removeTagXpath (p : PaloAlto) (c : category) (tag object : string)
    (devicegroup : list string) : string :=
  if DeviceType p == "panos"
  then panosVsys +:+ "/" +:+ segment c +:+ "/entry[@name='" +:+ object
         +:+ "']/tag/member[text()='" +:+ tag +:+ "']"
  else panoramaDeviceGroup +:+ "/entry[@name='" +:+ elem0 devicegroup +:+ "']/"
         +:+ segment c +:+ "/entry[@name='" +:+ object
         +:+ "']/tag/member[text()='" +:+ tag +:+ "']".

Definition removeTagRequest (p : PaloAlto) (tag object : string)
    (devicegroup : list string) (c : category) : request :=
  {| verb := "post"; url := URI p; headers_ := ∅;
     query_ := <["xpath" := removeTagXpath p c tag object devicegroup]>
                 (removeTagQuery p) |}.

(** The four loops as one search over the pointers the listings returned:
    a nil pointer faults when its loop is reached, a listing with a match
    runs the loop body once at the match ([hit], by category) and returns,
    a listing without one is passed over. *)
Fixpoint searchFrom (hit : category -> M (option (option error))) (stops : bool)
    (object : string) (results : list (category * option (list string)))
  : M (option error) :=
  match results with
  | [] => mret None
  | (_, None) :: _ => panic nilDereference
  | (c, Some names) :: rest =>
      if stops && hasName object names
      then r ← hit c; mret (default None r)
      else searchFrom hit stops object rest
  end.

(** Whether that search reaches a nil pointer. *)
Fixpoint reachesNil (stops : bool) (object : string)
    (results : list (option (list string))) : bool :=
  match results with
  | [] => false
  | None :: _ => true
  | Some names :: rest =>
      if stops && hasName object names then false
      else reachesNil stops object rest
  end.

(** The pointers of the four listings, by category. *)
Definition listingResults (adObj : option AddressObjects.t)
    (agObj : option AddressGroupsT.t) (sObj : option ServiceObjects.t)
    (sgObj : option ServiceGroupsT.t) : list (category * option (list string)) :=
  [ (catAddress, (fun ad => Address.Name <$> AddressObjects.Addresses ad) <$> adObj);
    (catAddressGroup,
       (fun ag => AddressGroup.Name <$> AddressGroupsT.Groups ag) <$> agObj);
    (catService, (fun s => Service.Name <$> ServiceObjects.Services s) <$> sObj);
    (catServiceGroup,
       (fun sg => ServiceGroup.Name <$> ServiceGroupsT.Groups sg) <$> sgObj) ].

(** The public operations of the two source files, [NewSession],
    [ApplyTag] and [RemoveTag] apart, with their arguments. *)
Inductive call : Type :=
  | callDevices
  | callDeviceGroups
  | callCreateDeviceGroup (name description : string)
      (devices : option (list string))
  | callDeleteDeviceGroup (name : string)
  | callAddDevice (serial : string) (devicegroup : list string)
  | callSetPanoramaServer (ip : string)
  | callRemoveDevice (serial : string) (devicegroup : list string)
  | callTags
  | callCreateTag (name color comments : string) (devicegroup : list string)
  | callDeleteTag (name : string) (devicegroup : list string)
  | callCommit
  | callCommitAll (devicegroup : string) (devices : list string)
  | callAddresses (devicegroup : list string)
  | callAddressGroups (devicegroup : list string)
  | callCreateAddress (name addrtype address description : string)
      (devicegroup : list string)
  | callCreateSharedAddress (name addrtype address description : string)
  | callCreateStaticGroup (name members description : string)
      (devicegroup : list string)
  | callCreateSharedStaticGroup (name members description : string)
  | callCreateDynamicGroup (name criteria description : string)
      (devicegroup : list string)
  | callCreateSharedDynamicGroup (name criteria description : string)
  | callDeleteAddress (name : string) (devicegroup : list string)
  | callDeleteSharedAddress (name : string)
  | callDeleteAddressGroup (name : string) (devicegroup : list string)
  | callDeleteSharedAddressGroup (name : string).

(** The error of an operation that returns a result and an error. *)
Definition errorOnly {A : Type} (m : M (A * option error)) : M (option error) :=
  x ← m; mret x.2.

(** The error a call returns. *)
Definition exec (c : call) (p : PaloAlto) : M (option error) :=
  match c with
  | callDevices => errorOnly (Devices p)
  | callDeviceGroups => errorOnly (DeviceGroups p)
  | callCreateDeviceGroup name description devices =>
      CreateDeviceGroup p name description devices
  | callDeleteDeviceGroup name => DeleteDeviceGroup p name
  | callAddDevice serial devicegroup => AddDevice p serial devicegroup
  | callSetPanoramaServer ip => SetPanoramaServer p ip
  | callRemoveDevice serial devicegroup => RemoveDevice p serial devicegroup
  | callTags => errorOnly (Tags p)
  | callCreateTag name color comments devicegroup =>
      CreateTag p name color comments devicegroup
  | callDeleteTag name devicegroup => DeleteTag p name devicegroup
  | callCommit => Commit p
  | callCommitAll devicegroup devices => CommitAll p devicegroup devices
  | callAddresses devicegroup => errorOnly (Addresses p devicegroup)
  | callAddressGroups devicegroup => errorOnly (AddressGroups p devicegroup)
  | callCreateAddress name addrtype address description devicegroup =>
      CreateAddress p name addrtype address description devicegroup
  | callCreateSharedAddress name addrtype address description =>
      CreateSharedAddress p name addrtype address description
  | callCreateStaticGroup name members description devicegroup =>
      CreateStaticGroup p name members description devicegroup
  | callCreateSharedStaticGroup name members description =>
      CreateSharedStaticGroup p name members description
  | callCreateDynamicGroup name criteria description devicegroup =>
      CreateDynamicGroup p name criteria description devicegroup
  | callCreateSharedDynamicGroup name criteria description =>
      CreateSharedDynamicGroup p name criteria description
  | callDeleteAddress name devicegroup => DeleteAddress p name devicegroup
  | callDeleteSharedAddress name => DeleteSharedAddress p name
  | callDeleteAddressGroup name devicegroup =>
      DeleteAddressGroup p name devicegroup
  | callDeleteSharedAddressGroup name => DeleteSharedAddressGroup p name
  end.

(** Status classification of a run that started at [log]: when the run
    completes and the device answered the last request of the run with an
    envelope that has a status and a code, the error returned is nil for
    the status [success] and the coded error for any other status. *)
Definition Classified (dev : device) (log : list request)
    (run : outcome (option error) * list request) : Prop :=
  forall (err : option error) (log' pre : list request) (r : request)
         (d : document) (status code : string),
    run = (Done err, log') ->
    log' = log ++ pre ++ [r] ->
    dev (log ++ pre) r = {| Error := None; Body := Xml d |} ->
    docStatus d = Some status ->
    docCode d = Some code ->
    (status = "success" -> err = None)
    /\ (status <> "success" -> err = Some (codeError code)).

(** The text the table [errorCodes] gives for a code: its entry, and the
    empty string for a code it does not hold (Go's index of a map). *)
Definition tableText (code text : string) : Prop :=
  (forall t : string, errorCodes !! code = Some t -> text = t)
  /\ (errorCodes !! code = None -> text = EmptyString).

(** ** Example devices and sessions *)

(** A [<response status=... code=...>] document with an empty result. *)
Definition envelope (status code : string) : document :=
  {| docStatus := Some status; docCode := Some code; docMsg := None;
     docKey := EmptyString; docPlatform := EmptyString; docModel := EmptyString;
     docSerial := EmptyString; docSwVersion := EmptyString;
     docData := EmptyString; docAddresses := []; docAddressGroups := [];
     docTags := []; docDevices := []; docDeviceGroups := [];
     docServices := []; docServiceGroups := [] |}.

Definition answer (d : document) : Response :=
  {| Error := None; Body := Xml d |}.

(** A device that answers the n-th request it receives with the n-th
    response of a script, and with [fallback] once the script is over. *)
Definition scripted (script : list Response) (fallback : Response) : device :=
  fun log _ => nth (List.length log) script fallback.

(** A device that accepts everything. *)
Definition accepting : device :=
  fun _ _ => answer (envelope "success" "20").

(** A device that rejects everything with the given code. *)
Definition rejecting (code : string) : device :=
  fun _ _ => answer (envelope "error" code).

Definition firewall : PaloAlto :=
  {| Host := "fw1"; Key := "K"; URI := "https://fw1/api/?"; Platform := "vm";
     Model := "PA-VM"; Serial := "007"; SoftwareVersion := "7.0.1";
     DeviceType := "panos"; Panorama := false |}.

Definition panoramaSession : PaloAlto :=
  {| Host := "pano"; Key := "K"; URI := "https://pano/api/?"; Platform := "m";
     Model := "M-100"; Serial := "008"; SoftwareVersion := "7.0.1";
     DeviceType := "panorama"; Panorama := false |}.

(** The three answers [NewSession] reads. *)
Definition keyAnswer (key : string) : document :=
  {| docStatus := Some "success"; docCode := Some "19"; docMsg := None;
     docKey := key; docPlatform := EmptyString; docModel := EmptyString;
     docSerial := EmptyString; docSwVersion := EmptyString;
     docData := EmptyString; docAddresses := []; docAddressGroups := [];
     docTags := []; docDevices := []; docDeviceGroups := [];
     docServices := []; docServiceGroups := [] |}.

Definition systemAnswer (family model serial version : string) : document :=
  {| docStatus := Some "success"; docCode := Some "19"; docMsg := None;
     docKey := EmptyString; docPlatform := family; docModel := model;
     docSerial := serial; docSwVersion := version;
     docData := EmptyString; docAddresses := []; docAddressGroups := [];
     docTags := []; docDevices := []; docDeviceGroups := [];
     docServices := []; docServiceGroups := [] |}.

Definition statusAnswer (status code data : string) : document :=
  {| docStatus := Some status; docCode := Some code; docMsg := None;
     docKey := EmptyString; docPlatform := EmptyString; docModel := EmptyString;
     docSerial := EmptyString; docSwVersion := EmptyString;
     docData := data; docAddresses := []; docAddressGroups := [];
     docTags := []; docDevices := []; docDeviceGroups := [];
     docServices := []; docServiceGroups := [] |}.

(** A Panorama appliance and a virtual firewall at log-in. *)
Definition bootPanorama : device :=
  scripted
    [ answer (keyAnswer "K");
      answer (systemAnswer "m" "M-100" "008" "7.0.1");
      answer (statusAnswer "success" "19" EmptyString) ]
    (answer (envelope "success" "20")).

Definition bootFirewall : device :=
  scripted
    [ answer (keyAnswer "K");
      answer (systemAnswer "vm" "PA-VM" "007" "7.0.1");
      answer (statusAnswer "success" "19" "Connected : no") ]
    (answer (envelope "success" "20")).

(** A Panorama appliance that rejects the panorama-status command. *)
Definition bootNoPanoramaStatus : device :=
  scripted
    [ answer (keyAnswer "K");
      answer (systemAnswer "m" "M-100" "008" "7.0.1");
      answer (envelope "error" "17") ]
    (answer (envelope "success" "20")).

(** Modelled from the spec: listings of service objects and of service
    groups in the shape of [Addresses], one [get] of the category each.
    They only serve to run the examples; the properties of [ApplyTag] and
    [RemoveTag] are stated for any [ServiceListing]. *)
Definition listServices (p : PaloAlto)
  : M (option ServiceObjects.t * option error) :=
  let query : gmap string string :=
    list_to_map [("type", "config"); ("action", "get");
                 ("xpath", "/config/devices/entry//service"); ("key", Key p)] in
  svcData ← Send "get" (URI p) headers query;
  match Body svcData with
  | Malformed e => mret (None, Some (XmlError e))
  | Xml d =>
      if attr (docStatus d) != "success"
      then mret (None, Some (codeError (attr (docCode d))))
      else mret (Some {| ServiceObjects.Services := docServices d |}, None)
  end.

Definition listServiceGroups (p : PaloAlto)
  : M (option ServiceGroupsT.t * option error) :=
  let query : gmap string string :=
    list_to_map [("type", "config"); ("action", "get");
                 ("xpath", "/config/devices/entry//service-group");
                 ("key", Key p)] in
  grpData ← Send "get" (URI p) headers query;
  match Body grpData with
  | Malformed e => mret (None, Some (XmlError e))
  | Xml d =>
      if attr (docStatus d) != "success"
      then mret (None, Some (codeError (attr (docCode d))))
      else mret (Some {| ServiceGroupsT.Groups := docServiceGroups d |}, None)
  end.

Definition modelledListing : ServiceListing :=
  {| Services := listServices; ServiceGroups := listServiceGroups |}.

(** A configuration in which the name [web] is both an address and a
    service, [srv1] an address, and [dns] a service group. *)
Definition inventory : document :=
  {| docStatus := Some "success"; docCode := Some "19"; docMsg := None;
     docKey := EmptyString; docPlatform := EmptyString; docModel := EmptyString;
     docSerial := EmptyString; docSwVersion := EmptyString;
     docData := EmptyString;
     docAddresses :=
       [ {| Address.Name := "srv1"; Address.IPAddress := "10.0.0.5/32";
            Address.IPRange := EmptyString; Address.FQDN := EmptyString;
            Address.Description := EmptyString |};
         {| Address.Name := "web"; Address.IPAddress := EmptyString;
            Address.IPRange := EmptyString; Address.FQDN := "web.example.com";
            Address.Description := EmptyString |} ];
     docAddressGroups :=
       [ {| xmlAddressGroup.Name := "servers";
            xmlAddressGroup.Members := ["srv1"; "web"];
            xmlAddressGroup.DynamicFilter := EmptyString;
            xmlAddressGroup.Description := EmptyString |} ];
     docTags :=
       [ {| xmlTag.Name := "prod"; xmlTag.Color := "color1";
            xmlTag.Comments := EmptyString |};
         {| xmlTag.Name := "lab"; xmlTag.Color := "color99";
            xmlTag.Comments := EmptyString |};
         {| xmlTag.Name := "misc"; xmlTag.Color := EmptyString;
            xmlTag.Comments := "no color" |} ];
     docDevices := []; docDeviceGroups := [];
     docServices := [ {| Service.Name := "web" |} ];
     docServiceGroups := [ {| ServiceGroup.Name := "dns" |} ] |}.

(** A device holding [inventory]: it answers every [get] with it and
    accepts every [post]. *)
Definition stocked : device :=
  fun _ r =>
    if verb r == "get" then answer inventory
    else answer (envelope "success" "20").

(** The same device when its address-group listing fails. *)
Definition stockedNoGroups : device :=
  scripted
    [ answer inventory; answer (envelope "error" "13");
      answer inventory; answer inventory ]
    (answer (envelope "success" "20")).

(** The first two requests of [NewSession]. *)
Definition keygenRequest (host user passwd : string) : request :=
  {| verb := "get";
     url := "https://" +:+ host +:+ "/api/?type=keygen&user=" +:+ user
              +:+ "&password=" +:+ passwd;
     headers_ := ∅; query_ := ∅ |}.

Definition systemInfoRequest (host key : string) : request :=
  {| verb := "get";
     url := ("https://" +:+ host +:+ "/api/?") +:+ "&key=" +:+ key
              +:+ "&type=op&cmd=<show><system><info></info></system></show>";
     headers_ := ∅; query_ := ∅ |}.

Definition panoramaStatusRequest (host key : string) : request :=
  {| verb := "get";
     url := ("https://" +:+ host +:+ "/api/?") +:+ "&key=" +:+ key
              +:+ "&type=op&cmd=<show><panorama-status></panorama-status></show>";
     headers_ := ∅; query_ := ∅ |}.

(** ** The wire format of the calls *)

(** The listings: the calls that read the configuration. *)
Definition isListing (c : call) : bool :=
  match c with
  | callDevices | callDeviceGroups | callTags
  | callAddresses _ | callAddressGroups _ => true
  | _ => false
  end.

(** The HTTP method each call passes to [Send]. *)
Definition wireVerb (c : call) : string :=
  match c with
  | callDevices | callDeviceGroups | callTags
  | callAddresses _ | callAddressGroups _
  | callDeleteTag _ _ | callCommit | callCommitAll _ _
  | callDeleteAddress _ _ | callDeleteSharedAddress _
  | callDeleteAddressGroup _ _ | callDeleteSharedAddressGroup _ => "get"
  | _ => "post"
  end.

(** The [type] parameter. *)
Definition wireType (c : call) : string :=
  match c with
  | callCommit | callCommitAll _ _ => "commit"
  | _ => "config"
  end.

(** The [action] parameter; [Commit] sends none. *)
Definition wireAction (c : call) : option string :=
  match c with
  | callDevices | callDeviceGroups | callTags
  | callAddresses _ | callAddressGroups _ => Some "get"
  | callDeleteDeviceGroup _ | callRemoveDevice _ _ | callDeleteTag _ _
  | callDeleteAddress _ _ | callDeleteSharedAddress _
  | callDeleteAddressGroup _ _ | callDeleteSharedAddressGroup _ => Some "delete"
  | callCommit => None
  | callCommitAll _ _ => Some "all"
  | _ => Some "set"
  end.

(** What every request of a call has: the session's URI and key, the
    call's method, type and action, the [Content-Type] header for a
    listing and no header otherwise. *)
Definition wire (c : call) (p : PaloAlto) (r : request) : Prop :=
  url r = URI p
  /\ verb r = wireVerb c
  /\ headers_ r = (if isListing c then headers else ∅)
  /\ query_ r !! "key" = Some (Key p)
  /\ query_ r !! "type" = Some (wireType c)
  /\ query_ r !! "action" = wireAction c.

(** The error a listing returns for a body. *)
Definition listingError (b : body) : option error :=
  match b with
  | Malformed e => Some (XmlError e)
  | Xml d =>
      if attr (docStatus d) != "success"
      then Some (codeError (attr (docCode d)))
      else None
  end.

(** The forms the run of a call takes: it is refused before anything is
    sent; it is a listing, one request whose body decides; it is one
    checked request; or, for [AddDevice] with a device-group, two checked
    requests, the second sent when the first was accepted. *)
Inductive runShape (c : call) (p : PaloAlto) (dev : device)
    (log : list request) : outcome (option error) * list request -> Prop :=
  | refused (e : error) :
      runShape c p dev log (Done (Some e), log)
  | listed (r : request) :
      isListing c = true ->
      wire c p r ->
      runShape c p dev log (Done (listingError (Body (dev log r))), log ++ [r])
  | checked (r : request) :
      isListing c = false ->
      wire c p r ->
      runShape c p dev log
        (Done (returnNil (checkResponse (dev log r) requestError.zero)),
         log ++ [r])
  | checkedTwice (r1 r2 : request) (accepted : requestError.t) :
      (exists serial devicegroup,
          c = callAddDevice serial devicegroup /\ devicegroup <> []) ->
      wire c p r1 ->
      wire c p r2 ->
      checkResponse (dev log r1) requestError.zero = inr accepted ->
      runShape c p dev log
        (Done (returnNil (checkResponse (dev (log ++ [r1]) r2) accepted)),
         log ++ [r1; r2]).

(** The two requests of [AddDevice] with a device-group. *)
Definition registerRequest (p : PaloAlto) (serial : string) : request :=
  {| verb := "post"; url := URI p; headers_ := ∅;
     query_ := list_to_map
       [("type", "config"); ("action", "set");
        ("xpath", "/config/mgt-config/devices");
        ("element", "<entry name=" +:+ dquote +:+ serial +:+ dquote +:+ "/>");
        ("key", Key p)] |}.

Definition attachRequest (p : PaloAlto) (serial group : string) : request :=
  {| verb := "post"; url := URI p; headers_ := ∅;
     query_ := list_to_map
       [("type", "config"); ("action", "set");
        ("xpath", panoramaDeviceGroup +:+ "/entry[@name='" +:+ group +:+ "']");
        ("element", "<devices><entry name=" +:+ dquote +:+ serial +:+ dquote
                      +:+ "/></devices>");
        ("key", Key p)] |}.

(** ** More example devices *)

(** A device that cannot be reached. *)
Definition unreachable : device :=
  fun _ _ => {| Error := Some (TransportError "connection refused");
                Body := Malformed "EOF" |}.

(** A device that answers with something that is not XML. *)
Definition garbled : device :=
  fun _ _ => {| Error := None; Body := Malformed "syntax error" |}.

(** An envelope that has no status attribute. *)
Definition bare : document :=
  {| docStatus := None; docCode := None; docMsg := None;
     docKey := EmptyString; docPlatform := EmptyString; docModel := EmptyString;
     docSerial := EmptyString; docSwVersion := EmptyString;
     docData := EmptyString; docAddresses := []; docAddressGroups := [];
     docTags := []; docDevices := []; docDeviceGroups := [];
     docServices := []; docServiceGroups := [] |}.

(** A device that accepts the first request and answers every later one
    with the envelope without attributes. *)
Definition acceptsThenBare : device :=
  scripted [ answer (envelope "success" "20") ] (answer bare).

(** A device whose transport reports an error and still delivers the
    inventory. *)
Definition flaky : device :=
  fun _ _ => {| Error := Some (TransportError "timeout"); Body := Xml inventory |}.

(** A session whose device type is neither of the two [NewSession] sets. *)
Definition oddSession : PaloAlto :=
  {| Host := "x"; Key := "K"; URI := "https://x/api/?"; Platform := "vm";
     Model := "PA-VM"; Serial := "009"; SoftwareVersion := "7.0.1";
     DeviceType := "firewall"; Panorama := false |}.

(** The log the four listings of [ApplyTag] and [RemoveTag] leave, with the
    modelled service listings, from an empty log. *)
Definition listingsLog (p : PaloAlto) (dev : device) : list request :=
  snd (listServiceGroups p dev
         (snd (listServices p dev
                 (snd (AddressGroups p [] dev (snd (Addresses p [] dev []))))))).

(** A result and an error exclude each other: a run that completes gives
    either a result and a nil error or a nil result and an error. *)
Definition exclusive {A : Type} (run : outcome (option A * option error))
  : Prop :=
  match run with
  | Done (Some _, None) | Done (None, Some _) => True
  | _ => False
  end.

(** An envelope with a status and nothing else. *)
Definition statusOnly (status : string) : document :=
  {| docStatus := Some status; docCode := None; docMsg := None;
     docKey := EmptyString; docPlatform := EmptyString; docModel := EmptyString;
     docSerial := EmptyString; docSwVersion := EmptyString;
     docData := EmptyString; docAddresses := []; docAddressGroups := [];
     docTags := []; docDevices := []; docDeviceGroups := [];
     docServices := []; docServiceGroups := [] |}.

(** A device that accepts the first request with the code 20 and rejects
    every later one without naming a code. *)
Definition acceptsThenRejects : device :=
  scripted [ answer (envelope "success" "20") ] (answer (statusOnly "error")).

(** A group whose filter is white space only. *)
Definition blankFilterGroups : document :=
  {| docStatus := Some "success"; docCode := Some "19"; docMsg := None;
     docKey := EmptyString; docPlatform := EmptyString; docModel := EmptyString;
     docSerial := EmptyString; docSwVersion := EmptyString;
     docData := EmptyString; docAddresses := [];
     docAddressGroups :=
       [ {| xmlAddressGroup.Name := "servers";
            xmlAddressGroup.Members := ["srv1"; "web"];
            xmlAddressGroup.DynamicFilter := EmptyString;
            xmlAddressGroup.Description := EmptyString |};
         {| xmlAddressGroup.Name := "tagged";
            xmlAddressGroup.Members := [];
            xmlAddressGroup.DynamicFilter := " 'prod' and 'dmz' ";
            xmlAddressGroup.Description := "by tag" |};
         {| xmlAddressGroup.Name := "blank";
            xmlAddressGroup.Members := [];
            xmlAddressGroup.DynamicFilter := "  ";
            xmlAddressGroup.Description := EmptyString |} ];
     docTags := []; docDevices := []; docDeviceGroups := [];
     docServices := []; docServiceGroups := [] |}.

(** A device that lists those groups. *)
Definition groupLister : device := fun _ _ => answer blankFilterGroups.

(** The operations on a named object of a firewall or of a device-group,
    with the category of the object, its name and the device-group
    argument. *)
Definition objectOf (c : call) : option (string * string * list string) :=
  match c with
  | callCreateAddress name _ _ _ devicegroup => Some ("address", name, devicegroup)
  | callDeleteAddress name devicegroup => Some ("address", name, devicegroup)
  | callCreateStaticGroup name _ _ devicegroup =>
      Some ("address-group", name, devicegroup)
  | callCreateDynamicGroup name _ _ devicegroup =>
      Some ("address-group", name, devicegroup)
  | callDeleteAddressGroup name devicegroup =>
      Some ("address-group", name, devicegroup)
  | callCreateTag name _ _ devicegroup => Some ("tag", name, devicegroup)
  | callDeleteTag name devicegroup => Some ("tag", name, devicegroup)
  | _ => None
  end.

(** * Properties *)

(** ** Running the monad *)

Lemma run_bind {A B : Type} (m : M A) (f : A -> M B) (dev : device)
    (log : list request) :
  (m ≫= f) dev log =
  match m dev log with
  | (Done a, log') => f a dev log'
  | (Panic msg, log') => (Panic msg, log')
  end.
Proof. reflexivity. Qed.

Lemma run_ret {A : Type} (a : A) (dev : device) (log : list request) :
  (mret a : M A) dev log = (Done a, log).
Proof. reflexivity. Qed.

Lemma run_sendChecked method p query reqError dev log :
  sendChecked method p query reqError dev log =
  let r := {| verb := method; url := URI p; headers_ := ∅; query_ := query |} in
  (Done (checkResponse (dev log r) reqError), log ++ [r]).
Proof. reflexivity. Qed.

Ltac run_in H :=
  repeat (rewrite ?run_bind, ?run_sendChecked, ?run_ret in H;
          cbv beta iota zeta in H).

Ltac run :=
  repeat (rewrite ?run_bind, ?run_sendChecked, ?run_ret;
          cbv beta iota zeta).

Lemma strNeq_false a b : (a != b) = false <-> a = b.
Proof.
  unfold strNeq. rewrite negb_false_iff. apply String.eqb_eq.
Qed.

Lemma strNeq_true a b : (a != b) = true <-> a <> b.
Proof.
  unfold strNeq. rewrite negb_true_iff. apply String.eqb_neq.
Qed.

(** ** CreateAddress *)

(** C3: on a session whose device type is Panorama, [CreateAddress] without
    a device-group returns the precondition error, and the log of requests
    is what it was: nothing is sent. *)
Theorem CreateAddress_panorama_needs_device_group
    (p : PaloAlto) (name addrtype address description : string)
    (dev : device) (log : list request) :
  DeviceType p = "panorama" ->
  CreateAddress p name addrtype address description [] dev log
  = (Done (Some needDeviceGroup), log).
Proof.
  intros Hp. unfold CreateAddress. rewrite Hp. reflexivity.
Qed.

Lemma CreateAddress_panorama_needs_device_group_witness :
  CreateAddress panoramaSession "srv1" "ip" "10.0.0.5/32" EmptyString []
    accepting []
  = (Done (Some needDeviceGroup), []).
Proof.
  apply (CreateAddress_panorama_needs_device_group panoramaSession).
  reflexivity.
Defined.

(** C5: on a standalone (panos) session,
    [CreateAddress("srv1", "ip", "10.0.0.5/32", "")] sends one request; its
    [element] is [<ip-netmask>10.0.0.5/32</ip-netmask>] and its [xpath]
    ends in [/address/entry[@name='srv1']]. *)
Theorem CreateAddress_standalone_srv1
    (p : PaloAlto) (dev : device) (log : list request) :
  DeviceType p = "panos" ->
  exists (r : request) (xpath : string),
    CreateAddress p "srv1" "ip" "10.0.0.5/32" EmptyString [] dev log
    = (Done (returnNil (checkResponse (dev log r) requestError.zero)), log ++ [r])
    /\ verb r = "post"
    /\ query_ r !! "action" = Some "set"
    /\ query_ r !! "element" = Some "<ip-netmask>10.0.0.5/32</ip-netmask>"
    /\ query_ r !! "xpath" = Some xpath
    /\ HasSuffix xpath "/address/entry[@name='srv1']" = true.
Proof.
  intros Hp.
  eexists; exists (objectXpath p "address" "srv1" []).
  split.
  - unfold CreateAddress. rewrite Hp. cbn [String.eqb Ascii.eqb Bool.eqb andb].
    rewrite run_bind, run_sendChecked. reflexivity.
  - cbn [verb query_]. unfold objectXpath. rewrite Hp.
    repeat split; reflexivity.
Qed.

Lemma CreateAddress_standalone_srv1_witness :
  exists (r : request) (xpath : string),
    CreateAddress firewall "srv1" "ip" "10.0.0.5/32" EmptyString [] accepting []
    = (Done (returnNil (checkResponse (accepting [] r) requestError.zero)), [] ++ [r])
    /\ verb r = "post"
    /\ query_ r !! "action" = Some "set"
    /\ query_ r !! "element" = Some "<ip-netmask>10.0.0.5/32</ip-netmask>"
    /\ query_ r !! "xpath" = Some xpath
    /\ HasSuffix xpath "/address/entry[@name='srv1']" = true.
Proof.
  apply (CreateAddress_standalone_srv1 firewall accepting []). reflexivity.
Defined.

(** ** The request log *)

Lemma log_grows (log pre : list request) (r : request) :
  log <> log ++ pre ++ [r].
Proof.
  intros H. apply (f_equal (@List.length request)) in H.
  rewrite !length_app in H. simpl in H. lia.
Qed.

Lemma log_last (log pre : list request) (r0 r : request) :
  log ++ [r0] = log ++ pre ++ [r] -> pre = [] /\ r0 = r.
Proof.
  intros H. apply app_inv_head in H.
  destruct pre as [|x pre]; simpl in H.
  - injection H as ->. auto.
  - injection H as _ H. destruct pre; discriminate H.
Qed.

(** ** Classifying an answer *)

Lemma checkResponse_answer_fresh (d : document) :
  checkResponse (answer d) requestError.zero
  = if attr (docStatus d) != "success"
    then inl (codeError (attr (docCode d)))
    else inr {| requestError.Status := attr (docStatus d);
                requestError.Code := attr (docCode d);
                requestError.Message := attr (docMsg d) |}.
Proof. reflexivity. Qed.

Lemma errorCodes_size : size errorCodes = 24.
Proof. reflexivity. Qed.

(** The same scenario, evaluated. *)
Example DeleteAddress_code_7 :
  DeleteAddress firewall "srv1" [] (rejecting "7") []
  = (Done (Some (Errorf
       "error code 7: Object not present - Object specified by the xpath is not present. For example, entry[@name=’value’] where no object with name ‘value’ is present")),
     [ {| verb := "get"; url := "https://fw1/api/?"; headers_ := ∅;
          query_ := list_to_map
            [("type", "config"); ("action", "delete");
             ("xpath", "/config/devices/entry[@name='localhost.localdomain']/vsys/entry[@name='vsys1']/address/entry[@name='srv1']");
             ("key", "K")] |} ]).
Proof. vm_compute. reflexivity. Qed.

(** A code the table does not have. *)
Example DeleteAddress_code_99 :
  fst (DeleteAddress firewall "srv1" [] (rejecting "99") [])
  = Done (Some (Errorf "error code 99: ")).
Proof. vm_compute. reflexivity. Qed.

(** ** NewSession *)

Lemma run_Send method uri hs q dev log :
  Send method uri hs q dev log
  = (Done (dev log {| verb := method; url := uri; headers_ := hs; query_ := q |}),
     log ++ [{| verb := method; url := uri; headers_ := hs; query_ := q |}]).
Proof. reflexivity. Qed.

(** C4: a session returned by [NewSession] has the platform family of the
    answer to the system-info request, and its device type is [panorama]
    exactly when that family is [m], and [panos] for any other family. *)
Theorem NewSession_device_type
    (host user passwd : string) (dev : device) (log log' : list request)
    (p : PaloAlto) (e : option error) :
  NewSession host user passwd dev log = (Done (Some p, e), log') ->
  exists dk di : document,
    Body (dev log (keygenRequest host user passwd)) = Xml dk
    /\ Body (dev (log ++ [keygenRequest host user passwd])
                 (systemInfoRequest host (docKey dk))) = Xml di
    /\ Platform p = docPlatform di
    /\ (DeviceType p = "panorama" <-> docPlatform di = "m")
    /\ (DeviceType p = "panos" <-> docPlatform di <> "m").
Proof.
  unfold NewSession. intros H.
  rewrite run_bind, run_Send in H. cbv beta iota zeta in H.
  fold (keygenRequest host user passwd) in H.
  destruct (dev log (keygenRequest host user passwd)) as [[e1|] [m1|dk]] eqn:E1;
    try discriminate H.
  cbn [Error Body unmarshal_authKey authKey.Status authKey.Code authKey.Key] in H.
  destruct (attr (docStatus dk) != "success"); [discriminate H|].
  rewrite run_bind, run_Send in H. cbv beta iota zeta in H.
  fold (systemInfoRequest host (docKey dk)) in H.
  destruct (dev (log ++ [keygenRequest host user passwd])
                (systemInfoRequest host (docKey dk))) as [[e2|] [m2|di]] eqn:E2;
    try discriminate H.
  cbn [Error Body unmarshal_systemInfo systemInfo.Status systemInfo.Code
       systemInfo.Platform systemInfo.Model systemInfo.Serial
       systemInfo.SoftwareVersion] in H.
  destruct (attr (docStatus di) != "success"); [discriminate H|].
  rewrite run_bind, run_Send in H. cbv beta iota zeta in H.
  match type of H with
  | context [dev ?l ?r] => destruct (dev l r) as [[e3|] [m3|dp]]
  end; try discriminate H.
  cbn [Error Body unmarshal_panoramaStatus panoramaStatus.Data] in H.
  rewrite run_ret in H. injection H as Hp _ _. subst p.
  exists dk, di. rewrite E2. cbn [Body Platform DeviceType].
  repeat split; try reflexivity.
  - destruct (String.eqb_spec (docPlatform di) "m") as [Hm|Hm]; intros Ht;
      [exact Hm|discriminate Ht].
  - intros ->. reflexivity.
  - destruct (String.eqb_spec (docPlatform di) "m") as [Hm|Hm]; intros Ht;
      [discriminate Ht|exact Hm].
  - intros Hne. apply String.eqb_neq in Hne. rewrite Hne. reflexivity.
Qed.

Lemma NewSession_device_type_witness :
  exists dk di : document,
    Body (bootPanorama [] (keygenRequest "pano" "admin" "secret")) = Xml dk
    /\ Body (bootPanorama ([] ++ [keygenRequest "pano" "admin" "secret"])
                 (systemInfoRequest "pano" (docKey dk))) = Xml di
    /\ Platform panoramaSession = docPlatform di
    /\ (DeviceType panoramaSession = "panorama" <-> docPlatform di = "m")
    /\ (DeviceType panoramaSession = "panos" <-> docPlatform di <> "m").
Proof.
  apply (NewSession_device_type "pano" "admin" "secret" bootPanorama []
           (snd (NewSession "pano" "admin" "secret" bootPanorama []))
           panoramaSession None).
  vm_compute. reflexivity.
Defined.

(** The two scenarios of the specification, evaluated. *)
Example NewSession_family_m :
  fst (NewSession "pano" "admin" "secret" bootPanorama [])
  = Done (Some panoramaSession, None).
Proof. vm_compute. reflexivity. Qed.

Example NewSession_family_vm :
  fst (NewSession "fw1" "admin" "secret" bootFirewall [])
  = Done (Some firewall, None).
Proof. vm_compute. reflexivity. Qed.

(** ** Tags *)

Lemma tagColors_values_NoDup : NoDup (map_to_list tagColors).*2.
Proof. apply (bool_decide_unpack _). vm_compute. exact I. Qed.

(** The table is a constant; the proofs below never need to look inside. *)
#[local] Opaque tagColors.

Lemma find_none_not_value (entries : list (string * string)) (code : string) :
  code ∉ entries.*2 -> List.find (fun kv => code == kv.2) entries = None.
Proof.
  induction entries as [|[k v] entries IH]; intros Hnot; [reflexivity|].
  simpl. rewrite fmap_cons, not_elem_of_cons in Hnot. destruct Hnot as [Hne Hnot].
  destruct (String.eqb_spec code v) as [->|_]; [contradiction|].
  apply IH, Hnot.
Qed.

(** The inner loop assigns at most once when no two entries share a value. *)
Lemma rangeTagColors_find (entries : list (string * string))
    (code tcolor : string) :
  NoDup entries.*2 ->
  rangeTagColors entries code tcolor
  = default tcolor (fst <$> List.find (fun kv => code == kv.2) entries).
Proof.
  unfold rangeTagColors. revert tcolor.
  induction entries as [|[k v] entries IH]; intros tcolor Hnd; [reflexivity|].
  rewrite fmap_cons, NoDup_cons in Hnd. destruct Hnd as [Hv Hnd].
  simpl in Hv. simpl. rewrite (IH _ Hnd).
  destruct (String.eqb_spec code v) as [->|_]; [|reflexivity].
  rewrite (find_none_not_value _ _ Hv). reflexivity.
Qed.

Lemma find_value_perm (e1 e2 : list (string * string)) (code : string) :
  e1 ≡ₚ e2 -> NoDup e1.*2 ->
  List.find (fun kv => code == kv.2) e1 = List.find (fun kv => code == kv.2) e2.
Proof.
  induction 1 as [|[k v] l1 l2 _ IH|[k1 v1] [k2 v2] l|l1 l2 l3 H12 IH12 H23 IH23];
    intros Hnd.
  - reflexivity.
  - simpl. rewrite fmap_cons, NoDup_cons in Hnd. destruct Hnd as [_ Hnd].
    rewrite (IH Hnd). reflexivity.
  - simpl. rewrite !fmap_cons, !NoDup_cons, not_elem_of_cons in Hnd.
    destruct Hnd as [[Hne _] _]. simpl in Hne.
    destruct (String.eqb_spec code v1) as [E1|_];
      destruct (String.eqb_spec code v2) as [E2|_]; congruence.
  - rewrite (IH12 Hnd). apply IH23.
    assert (Hp : l1.*2 ≡ₚ l2.*2) by (apply fmap_Permutation, H12).
    rewrite <- Hp. exact Hnd.
Qed.

(** The order in which Go ranges over [tagColors] does not matter. *)
Lemma rangeTagColors_any_order (entries : list (string * string))
    (code tcolor : string) :
  entries ≡ₚ map_to_list tagColors ->
  rangeTagColors entries code tcolor
  = rangeTagColors (map_to_list tagColors) code tcolor.
Proof.
  intros Hperm.
  assert (Hnd : NoDup entries.*2).
  { assert (Hp : entries.*2 ≡ₚ (map_to_list tagColors).*2)
      by (apply fmap_Permutation, Hperm).
    rewrite Hp. exact tagColors_values_NoDup. }
  rewrite (rangeTagColors_find _ _ _ Hnd),
    (rangeTagColors_find _ _ _ tagColors_values_NoDup),
    (find_value_perm _ _ code Hperm Hnd).
  reflexivity.
Qed.

Lemma rangeTagColors_colorName (code tcolor : string) :
  rangeTagColors (map_to_list tagColors) code tcolor
  = default tcolor (colorName code).
Proof. apply rangeTagColors_find, tagColors_values_NoDup. Qed.

Lemma colorName_Some (code k : string) :
  colorName code = Some k <-> tagColors !! k = Some code.
Proof.
  unfold colorName. split.
  - intros H. destruct (List.find _ _) as [[k' v]|] eqn:Hf; [|discriminate H].
    injection H as <-. apply find_some in Hf as [Hin Heq].
    apply String.eqb_eq in Heq. simpl in Heq. subst v.
    apply elem_of_map_to_list, list_elem_of_In, Hin.
  - intros H. apply elem_of_map_to_list in H.
    destruct (List.find _ _) as [[k' v]|] eqn:Hf.
    + apply find_some in Hf as [Hin Heq].
      apply String.eqb_eq in Heq. simpl in Heq. subst v.
      apply list_elem_of_In in Hin. simpl. f_equal.
      pose proof tagColors_values_NoDup as Hnd.
      apply list_elem_of_lookup in H as [i Hi], Hin as [j Hj].
      assert (i = j) as ->.
      { eapply NoDup_lookup; [exact Hnd| |];
          rewrite list_lookup_fmap; [rewrite Hi|rewrite Hj]; reflexivity. }
      congruence.
    + exfalso. apply list_elem_of_In in H.
      eapply find_none in Hf; [|exact H]. simpl in Hf.
      rewrite String.eqb_refl in Hf. discriminate Hf.
Qed.

Lemma colorName_None (code : string) :
  colorName code = None <-> forall k : string, tagColors !! k <> Some code.
Proof.
  split.
  - intros H k Hk. apply colorName_Some in Hk. congruence.
  - intros H. destruct (colorName code) as [k|] eqn:Hc; [|reflexivity].
    apply colorName_Some in Hc. destruct (H k Hc).
Qed.

Lemma tagsLoop_acc (parsed : list xmlTag.t) (tcolor : string) (acc : list Tag.t) :
  tagsLoop parsed tcolor acc = acc ++ tagsLoop parsed tcolor [].
Proof.
  revert tcolor acc.
  induction parsed as [|t rest IH]; intros tcolor acc; simpl.
  - rewrite app_nil_r. reflexivity.
  - rewrite IH. rewrite (IH _ [_]). rewrite <- app_assoc. reflexivity.
Qed.

(** The color of the i-th tag returned is the name of the last code, among
    those of the tags up to and including the i-th, that the table knows,
    and the initial [tcolor] when there is none. *)
Lemma tagsLoop_lookup (parsed : list xmlTag.t) (tcolor : string) (i : nat)
    (t : xmlTag.t) :
  parsed !! i = Some t ->
  tagsLoop parsed tcolor [] !! i
  = Some {| Tag.Name := xmlTag.Name t;
            Tag.Color :=
              default tcolor
                (last (omap colorName (xmlTag.Color <$> take (S i) parsed)));
            Tag.Comments := xmlTag.Comments t |}.
Proof.
  revert tcolor i.
  induction parsed as [|t0 rest IH]; intros tcolor i Hi; [discriminate Hi|].
  simpl tagsLoop. rewrite tagsLoop_acc, rangeTagColors_colorName.
  destruct i as [|j].
  - injection Hi as ->. simpl.
    destruct (colorName (xmlTag.Color t)); reflexivity.
  - simpl in Hi. simpl lookup. rewrite (IH _ _ Hi).
    do 2 f_equal. rewrite firstn_cons, fmap_cons. simpl omap.
    destruct (colorName (xmlTag.Color t0)) as [k|]; simpl; [|reflexivity].
    rewrite last_cons.
    destruct (last _); reflexivity.
Qed.

Lemma tagsLoop_length (parsed : list xmlTag.t) (tcolor : string) :
  List.length (tagsLoop parsed tcolor []) = List.length parsed.
Proof.
  revert tcolor. induction parsed as [|t rest IH]; intros tcolor; [reflexivity|].
  simpl tagsLoop. rewrite tagsLoop_acc, length_app, IH. reflexivity.
Qed.

(** C9: when [Tags] returns a result, it sent one request and read the
    parsed tags of the answer; for every parsed tag whose color code is
    under no key of [tagColors], the tag returned at the same position has
    the color name of the most recent earlier tag whose code the table
    knows, and the empty string when there is no such tag. *)
Theorem Tags_unknown_color_keeps_previous
    (p : PaloAlto) (dev : device) (log log' : list request)
    (result : TagsT.t) (e : option error) :
  Tags p dev log = (Done (Some result, e), log') ->
  exists (r : request) (d : document),
    log' = log ++ [r]
    /\ Body (dev log r) = Xml d
    /\ List.length (TagsT.Tags result) = List.length (docTags d)
    /\ forall (i : nat) (t : xmlTag.t),
         docTags d !! i = Some t ->
         (forall k : string, tagColors !! k <> Some (xmlTag.Color t)) ->
         exists tg : Tag.t,
           TagsT.Tags result !! i = Some tg
           /\ Tag.Name tg = xmlTag.Name t
           /\ Tag.Color tg
              = default EmptyString
                  (last (omap colorName (xmlTag.Color <$> take i (docTags d)))).
Proof.
  unfold Tags. intros H.
  rewrite run_bind, run_Send in H. cbv beta iota zeta in H.
  match type of H with
  | context [dev log ?r0] =>
      exists r0; destruct (dev log r0) as [e0 [m|d]]; [discriminate H|]
  end.
  exists d.
  cbn [Body unmarshal_xmlTags xmlTags.Status xmlTags.Code xmlTags.Tags] in H.
  destruct (attr (docStatus d) != "success"); [discriminate H|].
  rewrite run_ret in H. injection H as <- _ <-.
  cbn [Body TagsT.Tags].
  split; [reflexivity|]. split; [reflexivity|].
  split; [apply tagsLoop_length|].
  intros i t Hi Hunknown. eexists.
  split; [apply tagsLoop_lookup, Hi|]. split; [reflexivity|].
  cbn [Tag.Color].
  rewrite (take_S_r _ _ _ Hi), fmap_app, omap_app. simpl.
  apply colorName_None in Hunknown. rewrite Hunknown, app_nil_r.
  reflexivity.
Qed.

(** ** The search of ApplyTag and RemoveTag *)

Lemma hasName_cons (object n : string) (names : list string) :
  hasName object (n :: names) = (object == n) || hasName object names.
Proof. reflexivity. Qed.

Section Search.

Context (object : string) (stops : bool).
Context (loopBody : category -> string -> M (option (option error))).

Hypothesis body_miss :
  forall c n dev log, object <> n -> loopBody c n dev log = (Done None, log).
Hypothesis body_stop :
  stops = true ->
  forall c dev log, exists v log', loopBody c object dev log = (Done (Some v), log').
Hypothesis body_pass :
  stops = false -> forall c n dev log, loopBody c n dev log = (Done None, log).

Lemma forRange_continue {A : Type} (name : A -> string) (c : category)
    (xs : list A) (dev : device) (log : list request) :
  stops && hasName object (name <$> xs) = false ->
  forRange xs (fun a => loopBody c (name a)) dev log = (Done None, log).
Proof.
  induction xs as [|x xs IH]; intros H; [reflexivity|].
  rewrite fmap_cons, hasName_cons in H.
  cbn [forRange]. rewrite run_bind.
  destruct stops eqn:Hs.
  - simpl in H. apply orb_false_iff in H as [Hx Hxs].
    apply String.eqb_neq in Hx.
    rewrite (body_miss c _ dev log Hx). apply IH. exact Hxs.
  - rewrite (body_pass eq_refl). apply IH. reflexivity.
Qed.

Lemma forRange_stop {A : Type} (name : A -> string) (c : category)
    (xs : list A) (dev : device) (log : list request) :
  stops && hasName object (name <$> xs) = true ->
  forRange xs (fun a => loopBody c (name a)) dev log = loopBody c object dev log.
Proof.
  intros H. apply andb_true_iff in H as [Hs H].
  induction xs as [|x xs IH]; [discriminate H|].
  rewrite fmap_cons, hasName_cons in H.
  cbn [forRange]. rewrite run_bind.
  destruct (String.eqb_spec object (name x)) as [<-|Hx].
  - destruct (body_stop Hs c dev log) as (v & log' & Hv).
    rewrite Hv. reflexivity.
  - rewrite (body_miss c _ dev log Hx). apply IH. exact H.
Qed.

(** One loop of the four, with what follows it. *)
Lemma search_level {T A : Type} (items : T -> list A) (name : A -> string)
    (ptr : option T) (c : category) (next : M (option error))
    (rest : list (category * option (list string)))
    (dev : device) (log : list request) :
  next dev log = searchFrom (fun c => loopBody c object) stops object rest dev log ->
  (deref ptr ≫= fun x =>
   forRange (items x) (fun a => loopBody c (name a)) ≫= fun r =>
   match r with
   | Some e => mret e
   | None => next
   end) dev log
  = searchFrom (fun c => loopBody c object) stops object
      ((c, (fun x => name <$> items x) <$> ptr) :: rest) dev log.
Proof.
  intros Hnext. destruct ptr as [x|]; [|reflexivity].
  cbn [fmap option_fmap option_map searchFrom deref].
  rewrite run_bind, run_ret. rewrite run_bind.
  destruct (stops && hasName object (name <$> items x)) eqn:H.
  - rewrite (forRange_stop _ _ _ _ _ H), run_bind.
    apply andb_true_iff in H as [Hs _].
    destruct (body_stop Hs c dev log) as (v & log' & Hv).
    rewrite Hv. reflexivity.
  - rewrite (forRange_continue _ _ _ _ _ H). exact Hnext.
Qed.

End Search.

Lemma leb_0_ltb (n : nat) : (n <=? 0)%nat = negb (0 <? n)%nat.
Proof. apply Nat.leb_antisym. Qed.

Lemma applyTagBody_miss p cat object dg q n dev log :
  object <> n -> applyTagBody p cat object dg q n dev log = (Done None, log).
Proof.
  intros H. apply String.eqb_neq in H. unfold applyTagBody. rewrite H.
  reflexivity.
Qed.

Lemma applyTagBody_stop p cat object dg q dev log :
  returnsOnMatch p = true ->
  exists v log', applyTagBody p cat object dg q object dev log = (Done (Some v), log').
Proof.
  unfold returnsOnMatch, applyTagBody. intros H. rewrite String.eqb_refl.
  destruct (DeviceType p == "panos"); [run; eauto|].
  simpl in H. rewrite H, leb_0_ltb. simpl.
  destruct (0 <? len dg)%nat; [run; eauto|].
  simpl. rewrite run_ret. eauto.
Qed.

Lemma applyTagBody_pass p cat object dg q n dev log :
  returnsOnMatch p = false ->
  applyTagBody p cat object dg q n dev log = (Done None, log).
Proof.
  unfold returnsOnMatch, applyTagBody. intros H.
  apply orb_false_iff in H as [-> ->]. simpl.
  destruct (object == n); reflexivity.
Qed.

Lemma removeTagBody_miss p cat tag object dg q n dev log :
  object <> n -> removeTagBody p cat tag object dg q n dev log = (Done None, log).
Proof.
  intros H. apply String.eqb_neq in H. unfold removeTagBody. rewrite H.
  reflexivity.
Qed.

Lemma removeTagBody_stop p cat tag object dg q dev log :
  returnsOnMatch p = true ->
  exists v log',
    removeTagBody p cat tag object dg q object dev log = (Done (Some v), log').
Proof.
  unfold returnsOnMatch, removeTagBody. intros H. rewrite String.eqb_refl.
  destruct (DeviceType p == "panos"); [run; eauto|].
  simpl in H. rewrite H, leb_0_ltb. simpl.
  destruct (0 <? len dg)%nat; [run; eauto|].
  simpl. rewrite run_ret. eauto.
Qed.

Lemma removeTagBody_pass p cat tag object dg q n dev log :
  returnsOnMatch p = false ->
  removeTagBody p cat tag object dg q n dev log = (Done None, log).
Proof.
  unfold returnsOnMatch, removeTagBody. intros H.
  apply orb_false_iff in H as [-> ->]. simpl.
  destruct (object == n); reflexivity.
Qed.

(** After the four listings, [ApplyTag] is the search over their pointers. *)
Lemma ApplyTag_searchFrom {SL : ServiceListing}
    (p : PaloAlto) (tag object : string) (devicegroup : list string)
    (dev : device) (log0 log1 log2 log3 log4 : list request)
    (adObj : option AddressObjects.t) (agObj : option AddressGroupsT.t)
    (sObj : option ServiceObjects.t) (sgObj : option ServiceGroupsT.t)
    (e1 e2 e3 e4 : option error) :
  Addresses p [] dev log0 = (Done (adObj, e1), log1) ->
  AddressGroups p [] dev log1 = (Done (agObj, e2), log2) ->
  Services p dev log2 = (Done (sObj, e3), log3) ->
  ServiceGroups p dev log3 = (Done (sgObj, e4), log4) ->
  ApplyTag p tag object devicegroup dev log0
  = searchFrom
      (fun c => applyTagBody p (segment c) object devicegroup
                  (applyTagQuery p tag) object)
      (returnsOnMatch p) object
      (listingResults adObj agObj sObj sgObj) dev log4.
Proof.
  intros H1 H2 H3 H4. unfold ApplyTag.
  rewrite run_bind, H1. cbv beta iota.
  rewrite run_bind, H2. cbv beta iota.
  rewrite run_bind, H3. cbv beta iota.
  rewrite run_bind, H4. cbv beta iota zeta.
  fold (applyTagQuery p tag). unfold listingResults.
  set (loopBody := fun c => applyTagBody p (segment c) object devicegroup
                             (applyTagQuery p tag)).
  pose proof (fun c n dev log H =>
                applyTagBody_miss p (segment c) object devicegroup
                  (applyTagQuery p tag) n dev log H) as Hmiss.
  pose proof (fun (H : returnsOnMatch p = true) c dev log =>
                applyTagBody_stop p (segment c) object devicegroup
                  (applyTagQuery p tag) dev log H) as Hstop.
  pose proof (fun (H : returnsOnMatch p = false) c n dev log =>
                applyTagBody_pass p (segment c) object devicegroup
                  (applyTagQuery p tag) n dev log H) as Hpass.
  apply (search_level object (returnsOnMatch p) loopBody Hmiss Hstop Hpass
           AddressObjects.Addresses Address.Name adObj catAddress).
  apply (search_level object (returnsOnMatch p) loopBody Hmiss Hstop Hpass
           AddressGroupsT.Groups AddressGroup.Name agObj catAddressGroup).
  apply (search_level object (returnsOnMatch p) loopBody Hmiss Hstop Hpass
           ServiceObjects.Services Service.Name sObj catService).
  apply (search_level object (returnsOnMatch p) loopBody Hmiss Hstop Hpass
           ServiceGroupsT.Groups ServiceGroup.Name sgObj catServiceGroup).
  reflexivity.
Qed.

Lemma RemoveTag_searchFrom {SL : ServiceListing}
    (p : PaloAlto) (tag object : string) (devicegroup : list string)
    (dev : device) (log0 log1 log2 log3 log4 : list request)
    (adObj : option AddressObjects.t) (agObj : option AddressGroupsT.t)
    (sObj : option ServiceObjects.t) (sgObj : option ServiceGroupsT.t)
    (e1 e2 e3 e4 : option error) :
  Addresses p [] dev log0 = (Done (adObj, e1), log1) ->
  AddressGroups p [] dev log1 = (Done (agObj, e2), log2) ->
  Services p dev log2 = (Done (sObj, e3), log3) ->
  ServiceGroups p dev log3 = (Done (sgObj, e4), log4) ->
  RemoveTag p tag object devicegroup dev log0
  = searchFrom
      (fun c => removeTagBody p (segment c) tag object devicegroup
                  (removeTagQuery p) object)
      (returnsOnMatch p) object
      (listingResults adObj agObj sObj sgObj) dev log4.
Proof.
  intros H1 H2 H3 H4. unfold RemoveTag.
  rewrite run_bind, H1. cbv beta iota.
  rewrite run_bind, H2. cbv beta iota.
  rewrite run_bind, H3. cbv beta iota.
  rewrite run_bind, H4. cbv beta iota zeta.
  fold (removeTagQuery p). unfold listingResults.
  set (loopBody := fun c => removeTagBody p (segment c) tag object devicegroup
                             (removeTagQuery p)).
  pose proof (fun c n dev log H =>
                removeTagBody_miss p (segment c) tag object devicegroup
                  (removeTagQuery p) n dev log H) as Hmiss.
  pose proof (fun (H : returnsOnMatch p = true) c dev log =>
                removeTagBody_stop p (segment c) tag object devicegroup
                  (removeTagQuery p) dev log H) as Hstop.
  pose proof (fun (H : returnsOnMatch p = false) c n dev log =>
                removeTagBody_pass p (segment c) tag object devicegroup
                  (removeTagQuery p) n dev log H) as Hpass.
  apply (search_level object (returnsOnMatch p) loopBody Hmiss Hstop Hpass
           AddressObjects.Addresses Address.Name adObj catAddress).
  apply (search_level object (returnsOnMatch p) loopBody Hmiss Hstop Hpass
           AddressGroupsT.Groups AddressGroup.Name agObj catAddressGroup).
  apply (search_level object (returnsOnMatch p) loopBody Hmiss Hstop Hpass
           ServiceObjects.Services Service.Name sObj catService).
  apply (search_level object (returnsOnMatch p) loopBody Hmiss Hstop Hpass
           ServiceGroupsT.Groups ServiceGroup.Name sgObj catServiceGroup).
  reflexivity.
Qed.

Lemma hasName_false (object : string) (names : list string) :
  hasName object names = false <-> object ∉ names.
Proof.
  unfold hasName. induction names as [|n names IH]; simpl.
  - split; [intros _; apply not_elem_of_nil|reflexivity].
  - rewrite orb_false_iff, not_elem_of_cons, IH, String.eqb_neq. reflexivity.
Qed.

Lemma searchFrom_no_match (hit : category -> M (option (option error)))
    (stops : bool) (object : string)
    (ad : AddressObjects.t) (ag : AddressGroupsT.t)
    (s : ServiceObjects.t) (sg : ServiceGroupsT.t)
    (dev : device) (log : list request) :
  (forall c, object ∉ listedNames ad ag s sg c) ->
  searchFrom hit stops object
    (listingResults (Some ad) (Some ag) (Some s) (Some sg)) dev log
  = (Done None, log).
Proof.
  intros H.
  pose proof (proj2 (hasName_false _ _) (H catAddress)) as H1.
  pose proof (proj2 (hasName_false _ _) (H catAddressGroup)) as H2.
  pose proof (proj2 (hasName_false _ _) (H catService)) as H3.
  pose proof (proj2 (hasName_false _ _) (H catServiceGroup)) as H4.
  cbn [listedNames] in H1, H2, H3, H4.
  unfold listingResults.
  cbn [fmap option_fmap option_map searchFrom].
  rewrite H1, H2, H3, H4, !andb_false_r. reflexivity.
Qed.

Lemma searchFrom_first_category (hit : category -> M (option (option error)))
    (object : string)
    (ad : AddressObjects.t) (ag : AddressGroupsT.t)
    (s : ServiceObjects.t) (sg : ServiceGroupsT.t) (c : category)
    (dev : device) (log : list request) :
  firstCategory object (listedNames ad ag s sg) = Some c ->
  searchFrom hit true object
    (listingResults (Some ad) (Some ag) (Some s) (Some sg)) dev log
  = (hit c ≫= fun r => mret (default None r)) dev log.
Proof.
  unfold firstCategory, searchOrder, listingResults.
  cbn [List.find listedNames fmap option_fmap option_map searchFrom andb].
  repeat (destruct (hasName object _);
          [intros H; injection H as <-; reflexivity|]).
  discriminate.
Qed.

(** What [firstCategory] means: the category holds the name and no category
    before it in the search order does. *)
Lemma firstCategory_earliest (object : string) (listed : category -> list string)
    (c : category) :
  firstCategory object listed = Some c <->
  exists before after : list category,
    searchOrder = before ++ c :: after
    /\ object ∈ listed c
    /\ forall c', c' ∈ before -> object ∉ listed c'.
Proof.
  unfold firstCategory. generalize searchOrder as order.
  induction order as [|c0 order IH]; simpl.
  - split; [discriminate|]. intros (before & after & H & _).
    destruct before; discriminate H.
  - destruct (hasName object (listed c0)) eqn:Hc0.
    + assert (Hin : object ∈ listed c0).
      { destruct (decide (object ∈ listed c0)) as [|Hn]; [assumption|].
        apply hasName_false in Hn. congruence. }
      split.
      * intros H. injection H as <-. exists [], order.
        split; [reflexivity|]. split; [exact Hin|].
        intros c' Hc'. apply elem_of_nil in Hc'. destruct Hc'.
      * intros (before & after & H & _ & Hb).
        destruct before as [|b before]; simpl in H; injection H as E H;
          subst c0.
        -- reflexivity.
        -- destruct (Hb b (list_elem_of_here _ _)). exact Hin.
    + apply hasName_false in Hc0. rewrite IH. split.
      * intros (before & after & -> & Hin & Hb).
        exists (c0 :: before), after. split; [reflexivity|].
        split; [exact Hin|].
        intros c' Hc'. apply elem_of_cons in Hc' as [->|Hc']; auto.
      * intros (before & after & H & Hin & Hb).
        destruct before as [|b before]; simpl in H; injection H as E H;
          subst c0.
        -- contradiction.
        -- exists before, after. split; [exact H|]. split; [exact Hin|].
           intros c' Hc'. apply Hb. apply list_elem_of_further, Hc'.
Qed.

(** The loop body at a match, on a session that can locate the object. *)
Lemma applyTagBody_sends (p : PaloAlto) (tag object : string)
    (devicegroup : list string) (c : category)
    (dev : device) (log : list request) :
  DeviceType p = "panos" \/ (DeviceType p = "panorama" /\ devicegroup <> []) ->
  applyTagBody p (segment c) object devicegroup (applyTagQuery p tag) object
    dev log
  = (Done (Some (returnNil
       (checkResponse (dev log (applyTagRequest p tag object devicegroup c))
          requestError.zero))),
     log ++ [applyTagRequest p tag object devicegroup c]).
Proof.
  intros H. unfold applyTagBody, applyTagRequest, applyTagXpath.
  rewrite String.eqb_refl.
  destruct H as [H|[H Hdg]]; rewrite H.
  - rewrite String.eqb_refl. run. reflexivity.
  - change ("panorama" == "panos") with false. rewrite String.eqb_refl.
    destruct devicegroup as [|g gs]; [contradiction|].
    cbn [len List.length Nat.ltb Nat.leb andb]. run. reflexivity.
Qed.

(** On Panorama without a device-group the loop body refuses at a match. *)
Lemma applyTagBody_refuses (p : PaloAlto) (cat object : string)
    (q : gmap string string) (dev : device) (log : list request) :
  DeviceType p = "panorama" ->
  applyTagBody p cat object [] q object dev log
  = (Done (Some (Some needDeviceGroup)), log).
Proof.
  intros H. unfold applyTagBody. rewrite String.eqb_refl, H. reflexivity.
Qed.

Lemma append_assoc (a b c : string) : (a +:+ b) +:+ c = a +:+ (b +:+ c).
Proof.
  induction a as [|x a IH]; [reflexivity|].
  change (String x ((a +:+ b) +:+ c) = String x (a +:+ (b +:+ c))).
  rewrite IH. reflexivity.
Qed.

(** The element [ApplyTag] builds, read from left to right: one member per
    comma-separated tag, trimmed, between [<tag>] and [</tag>]. *)
Lemma tagBody_members (tag : string) :
  tagBody tag
  = "<tag>"
      +:+ foldr (fun t rest => "<member>" +:+ TrimSpace t +:+ "</member>" +:+ rest)
            "</tag>" (Split tag ","%char).
Proof.
  unfold tagBody. cbv zeta.
  generalize (Split tag ","%char) as tags. generalize "<tag>" as acc.
  intros acc tags. revert acc.
  induction tags as [|t tags IH]; intros acc; cbn [fold_left foldr].
  - reflexivity.
  - rewrite IH, !append_assoc. reflexivity.
Qed.

Lemma searchFrom_passes (hit : category -> M (option (option error)))
    (object : string)
    (ad : AddressObjects.t) (ag : AddressGroupsT.t)
    (s : ServiceObjects.t) (sg : ServiceGroupsT.t)
    (dev : device) (log : list request) :
  searchFrom hit false object
    (listingResults (Some ad) (Some ag) (Some s) (Some sg)) dev log
  = (Done None, log).
Proof. reflexivity. Qed.

Lemma applyTagRequest_panos (p : PaloAlto) (tag object : string)
    (devicegroup : list string) (c : category) :
  DeviceType p = "panos" ->
  applyTagRequest p tag object devicegroup c
  = {| verb := "post"; url := URI p; headers_ := ∅;
       query_ := list_to_map
         [ ("type", "config"); ("action", "edit");
           ("element",
            "<tag>"
              +:+ foldr (fun t rest =>
                           "<member>" +:+ TrimSpace t +:+ "</member>" +:+ rest)
                    "</tag>" (Split tag ","%char));
           ("key", Key p);
           ("xpath",
            "/config/devices/entry[@name='localhost.localdomain']/vsys/entry[@name='vsys1']/"
              +:+ segment c +:+ "/entry[@name='" +:+ object +:+ "']/tag") ] |}.
Proof.
  intros H. unfold applyTagRequest, applyTagXpath, applyTagQuery.
  rewrite H, tagBody_members. 
  change ("panos" == "panos") with true. cbv iota.
  reflexivity.
Qed.

Lemma applyTagRequest_panorama (p : PaloAlto) (tag object g : string)
    (gs : list string) (c : category) :
  DeviceType p = "panorama" ->
  applyTagRequest p tag object (g :: gs) c
  = {| verb := "post"; url := URI p; headers_ := ∅;
       query_ := list_to_map
         [ ("type", "config"); ("action", "edit");
           ("element",
            "<tag>"
              +:+ foldr (fun t rest =>
                           "<member>" +:+ TrimSpace t +:+ "</member>" +:+ rest)
                    "</tag>" (Split tag ","%char));
           ("key", Key p);
           ("xpath",
            "/config/devices/entry[@name='localhost.localdomain']/device-group/entry[@name='"
              +:+ g +:+ "']/" +:+ segment c +:+ "/entry[@name='" +:+ object
              +:+ "']/tag") ] |}.
Proof.
  intros H. unfold applyTagRequest, applyTagXpath, applyTagQuery.
  rewrite H, tagBody_members.
  change ("panorama" == "panos") with false. cbv iota.
  reflexivity.
Qed.

(** C6, amended: [ApplyTag] lists addresses, address groups, services and
    service groups and, when the four listings succeed, resolves the object
    to the first category, in that order, that has an entry of its name
    ([firstCategory]): a name held by several categories goes to the
    earliest.  What happens there depends on the session.  On a [panos]
    session, and on a [panorama] session called with a device-group, it
    sends exactly one request after the listings, the [edit] whose element
    lists the comma-separated tags, trimmed, one member each, at the [tag]
    node of that object in that category, and returns at once what the
    answer to it amounts to.  On a [panorama] session called without a
    device-group it sends nothing after the listings and returns the
    device-group error.  On a session of any other device type no match
    ends the search: nothing is sent and nil is returned. *)
Theorem ApplyTag_first_category {SL : ServiceListing}
    (p : PaloAlto) (tag object : string) (devicegroup : list string)
    (dev : device) (log0 log1 log2 log3 log4 : list request)
    (ad : AddressObjects.t) (ag : AddressGroupsT.t)
    (s : ServiceObjects.t) (sg : ServiceGroupsT.t)
    (e1 e2 e3 e4 : option error) (c : category) :
  Addresses p [] dev log0 = (Done (Some ad, e1), log1) ->
  AddressGroups p [] dev log1 = (Done (Some ag, e2), log2) ->
  Services p dev log2 = (Done (Some s, e3), log3) ->
  ServiceGroups p dev log3 = (Done (Some sg, e4), log4) ->
  firstCategory object (listedNames ad ag s sg) = Some c ->
  (DeviceType p = "panos" ->
   exists r : request,
     ApplyTag p tag object devicegroup dev log0
     = (Done (returnNil (checkResponse (dev log4 r) requestError.zero)),
        log4 ++ [r])
     /\ r = {| verb := "post"; url := URI p; headers_ := ∅;
               query_ := list_to_map
                 [ ("type", "config"); ("action", "edit");
                   ("element",
                    "<tag>"
                      +:+ foldr (fun t rest =>
                                   "<member>" +:+ TrimSpace t +:+ "</member>"
                                     +:+ rest)
                            "</tag>" (Split tag ","%char));
                   ("key", Key p);
                   ("xpath",
                    "/config/devices/entry[@name='localhost.localdomain']/vsys/entry[@name='vsys1']/"
                      +:+ segment c +:+ "/entry[@name='" +:+ object
                      +:+ "']/tag") ] |})
  /\ (DeviceType p = "panorama" ->
      forall (g : string) (gs : list string), devicegroup = g :: gs ->
      exists r : request,
        ApplyTag p tag object devicegroup dev log0
        = (Done (returnNil (checkResponse (dev log4 r) requestError.zero)),
           log4 ++ [r])
        /\ r = {| verb := "post"; url := URI p; headers_ := ∅;
                  query_ := list_to_map
                    [ ("type", "config"); ("action", "edit");
                      ("element",
                       "<tag>"
                         +:+ foldr (fun t rest =>
                                      "<member>" +:+ TrimSpace t +:+ "</member>"
                                        +:+ rest)
                               "</tag>" (Split tag ","%char));
                      ("key", Key p);
                      ("xpath",
                       "/config/devices/entry[@name='localhost.localdomain']/device-group/entry[@name='"
                         +:+ g +:+ "']/" +:+ segment c +:+ "/entry[@name='"
                         +:+ object +:+ "']/tag") ] |})
  /\ (DeviceType p = "panorama" -> devicegroup = [] ->
      ApplyTag p tag object devicegroup dev log0
      = (Done (Some (ErrorsNew
           "you must specify a device-group when connected to a Panorama device")),
         log4))
  /\ (DeviceType p <> "panos" -> DeviceType p <> "panorama" ->
      ApplyTag p tag object devicegroup dev log0 = (Done None, log4)).
Proof.
  intros H1 H2 H3 H4 Hc.
  rewrite (ApplyTag_searchFrom p tag object devicegroup dev _ _ _ _ _
             _ _ _ _ _ _ _ _ H1 H2 H3 H4).
  split; [|split; [|split]].
  - intros Hp. eexists. split; [|apply (applyTagRequest_panos p tag object devicegroup c Hp)].
    unfold returnsOnMatch. rewrite Hp. cbn [orb String.eqb Ascii.eqb Bool.eqb andb].
    rewrite (searchFrom_first_category _ _ _ _ _ _ _ _ _ Hc).
    rewrite run_bind, (applyTagBody_sends p tag object devicegroup c dev log4
                         (or_introl Hp)).
    reflexivity.
  - intros Hp g gs ->. eexists.
    split; [|apply (applyTagRequest_panorama p tag object g gs c Hp)].
    unfold returnsOnMatch. rewrite Hp.
    change (("panorama" == "panos") || ("panorama" == "panorama")) with true.
    rewrite (searchFrom_first_category _ _ _ _ _ _ _ _ _ Hc).
    rewrite run_bind, (applyTagBody_sends p tag object (g :: gs) c dev log4).
    + reflexivity.
    + right. split; [exact Hp|discriminate].
  - intros Hp ->. unfold returnsOnMatch. rewrite Hp.
    change (("panorama" == "panos") || ("panorama" == "panorama")) with true.
    rewrite (searchFrom_first_category _ _ _ _ _ _ _ _ _ Hc).
    rewrite run_bind, (applyTagBody_refuses _ _ _ _ _ _ Hp). reflexivity.
  - intros Hn1 Hn2. unfold returnsOnMatch.
    apply String.eqb_neq in Hn1, Hn2. rewrite Hn1, Hn2.
    apply searchFrom_passes.
Qed.

(** C8: when the four listings succeed and none of them has an entry named
    [object], [ApplyTag] and [RemoveTag] return nil and the log of requests
    is the one the listings left: no mutation is sent.  This holds for any
    session and any device-group argument, Panorama without a device-group
    included. *)
Theorem tag_of_unlisted_object_is_noop {SL : ServiceListing}
    (p : PaloAlto) (tag object : string) (devicegroup : list string)
    (dev : device) (log0 log1 log2 log3 log4 : list request)
    (ad : AddressObjects.t) (ag : AddressGroupsT.t)
    (s : ServiceObjects.t) (sg : ServiceGroupsT.t)
    (e1 e2 e3 e4 : option error) :
  Addresses p [] dev log0 = (Done (Some ad, e1), log1) ->
  AddressGroups p [] dev log1 = (Done (Some ag, e2), log2) ->
  Services p dev log2 = (Done (Some s, e3), log3) ->
  ServiceGroups p dev log3 = (Done (Some sg, e4), log4) ->
  (forall c : category, object ∉ listedNames ad ag s sg c) ->
  ApplyTag p tag object devicegroup dev log0 = (Done None, log4)
  /\ RemoveTag p tag object devicegroup dev log0 = (Done None, log4).
Proof.
  intros H1 H2 H3 H4 Hno. split.
  - rewrite (ApplyTag_searchFrom p tag object devicegroup dev _ _ _ _ _
               _ _ _ _ _ _ _ _ H1 H2 H3 H4).
    apply searchFrom_no_match, Hno.
  - rewrite (RemoveTag_searchFrom p tag object devicegroup dev _ _ _ _ _
               _ _ _ _ _ _ _ _ H1 H2 H3 H4).
    apply searchFrom_no_match, Hno.
Qed.

Lemma searchFrom_faults (hit : category -> M (option (option error)))
    (stops : bool) (object : string)
    (results : list (category * option (list string)))
    (dev : device) (log : list request) :
  (stops = true ->
   forall c dev log, exists v log', hit c dev log = (Done (Some v), log')) ->
  (exists msg, fst (searchFrom hit stops object results dev log) = Panic msg)
  <-> reachesNil stops object results.*2 = true.
Proof.
  intros Hhit.
  induction results as [|[c [names|]] results IH]; cbn [searchFrom reachesNil fmap list_fmap snd].
  - split; [intros [msg H]; discriminate H|discriminate].
  - destruct (stops && hasName object names) eqn:Hs; [|exact IH].
    apply andb_true_iff in Hs as [Hs _].
    destruct (Hhit Hs c dev log) as (v & log' & Hv).
    rewrite run_bind, Hv.
    split; [intros [msg H]; discriminate H|discriminate].
  - split; [reflexivity|]. intros _. exists nilDereference. reflexivity.
Qed.

(** Two readings of [reachesNil]: a failed address listing is always
    reached, and four successful listings leave nothing to reach. *)
Lemma reachesNil_first (stops : bool) (object : string)
    (rest : list (option (list string))) :
  reachesNil stops object (None :: rest) = true.
Proof. reflexivity. Qed.

Lemma reachesNil_all_listed (stops : bool) (object : string)
    (ad ag s sg : list string) :
  reachesNil stops object [Some ad; Some ag; Some s; Some sg] = false.
Proof.
  cbn [reachesNil].
  repeat (destruct (stops && hasName object _); [reflexivity|]).
  reflexivity.
Qed.

(** C10, amended: with the pointers the four listings returned, [ApplyTag]
    and [RemoveTag] end in the nil-pointer fault exactly when the search
    reaches a nil pointer: some listing returned nil and, on a [panos] or
    [panorama] session, no listing before it has an entry named [object]
    (on any other device type a match never ends the search). *)
Theorem tag_search_faults_iff {SL : ServiceListing}
    (p : PaloAlto) (tag object : string) (devicegroup : list string)
    (dev : device) (log0 log1 log2 log3 log4 : list request)
    (adObj : option AddressObjects.t) (agObj : option AddressGroupsT.t)
    (sObj : option ServiceObjects.t) (sgObj : option ServiceGroupsT.t)
    (e1 e2 e3 e4 : option error) :
  Addresses p [] dev log0 = (Done (adObj, e1), log1) ->
  AddressGroups p [] dev log1 = (Done (agObj, e2), log2) ->
  Services p dev log2 = (Done (sObj, e3), log3) ->
  ServiceGroups p dev log3 = (Done (sgObj, e4), log4) ->
  ((exists msg, fst (ApplyTag p tag object devicegroup dev log0) = Panic msg)
   <-> reachesNil (returnsOnMatch p) object
         (listingResults adObj agObj sObj sgObj).*2 = true)
  /\ ((exists msg, fst (RemoveTag p tag object devicegroup dev log0) = Panic msg)
      <-> reachesNil (returnsOnMatch p) object
            (listingResults adObj agObj sObj sgObj).*2 = true).
Proof.
  intros H1 H2 H3 H4. split.
  - rewrite (ApplyTag_searchFrom p tag object devicegroup dev _ _ _ _ _
               _ _ _ _ _ _ _ _ H1 H2 H3 H4).
    apply searchFrom_faults. intros Hs c dev' log'.
    apply applyTagBody_stop, Hs.
  - rewrite (RemoveTag_searchFrom p tag object devicegroup dev _ _ _ _ _
               _ _ _ _ _ _ _ _ H1 H2 H3 H4).
    apply searchFrom_faults. intros Hs c dev' log'.
    apply removeTagBody_stop, Hs.
Qed.

(** *** On the stocked firewall *)

(** [web] is an address and a service: the tag goes to the address. *)
Lemma ApplyTag_first_category_witness :
  fst (ApplyTag (SL := modelledListing) firewall "prod, dmz" "web" [] stocked [])
  = Done None
  /\ last (snd (ApplyTag (SL := modelledListing) firewall "prod, dmz" "web" []
                  stocked []))
     = Some {| verb := "post"; url := "https://fw1/api/?"; headers_ := ∅;
               query_ := list_to_map
                 [ ("type", "config"); ("action", "edit");
                   ("element",
                    "<tag><member>prod</member><member>dmz</member></tag>");
                   ("key", "K");
                   ("xpath",
                    "/config/devices/entry[@name='localhost.localdomain']/vsys/entry[@name='vsys1']/address/entry[@name='web']/tag") ] |}
  /\ List.length (snd (ApplyTag (SL := modelledListing) firewall "prod, dmz" "web"
                         [] stocked [])) = 5.
Proof.
  pose (l1 := snd (Addresses firewall [] stocked [])).
  pose (l2 := snd (AddressGroups firewall [] stocked l1)).
  pose (l3 := snd (listServices firewall stocked l2)).
  pose (l4 := snd (listServiceGroups firewall stocked l3)).
  destruct (ApplyTag_first_category (SL := modelledListing)
              firewall "prod, dmz" "web" [] stocked [] l1 l2 l3 l4
              {| AddressObjects.Status := "success"; AddressObjects.Code := "19";
                 AddressObjects.Addresses := docAddresses inventory |}
              {| AddressGroupsT.Groups :=
                   [ {| AddressGroup.Name := "servers";
                        AddressGroup.Type_ := "Static";
                        AddressGroup.Members := ["srv1"; "web"];
                        AddressGroup.DynamicFilter := EmptyString;
                        AddressGroup.Description := EmptyString |} ] |}
              {| ServiceObjects.Services := docServices inventory |}
              {| ServiceGroupsT.Groups := docServiceGroups inventory |}
              None None None None catAddress) as [Hpanos _].
  - vm_compute. reflexivity.
  - vm_compute. reflexivity.
  - vm_compute. reflexivity.
  - vm_compute. reflexivity.
  - vm_compute. reflexivity.
  - destruct (Hpanos eq_refl) as (r & Hrun & Hr).
    rewrite Hrun, Hr. repeat split; vm_compute; reflexivity.
Defined.

(** C6, as stated, fails on Panorama: [web] is listed as an address, the
    session is a [panorama] one and no device-group is given.  [ApplyTag]
    finds the object and returns the device-group error; the log holds the
    four listing requests and no mutation, so the tag is not applied. *)
Lemma ApplyTag_without_device_group_counterexample :
  DeviceType panoramaSession = "panorama"
  /\ fst (Addresses panoramaSession [] stocked [])
     = Done (Some {| AddressObjects.Status := "success";
                     AddressObjects.Code := "19";
                     AddressObjects.Addresses := docAddresses inventory |}, None)
  /\ hasName "web" (Address.Name <$> docAddresses inventory) = true
  /\ ApplyTag (SL := modelledListing) panoramaSession "prod" "web" [] stocked []
     = (Done (Some (ErrorsNew
          "you must specify a device-group when connected to a Panorama device")),
        snd (listServiceGroups panoramaSession stocked
               (snd (listServices panoramaSession stocked
                       (snd (AddressGroups panoramaSession [] stocked
                               (snd (Addresses panoramaSession [] stocked []))))))))
  /\ List.length (snd (ApplyTag (SL := modelledListing) panoramaSession "prod"
                         "web" [] stocked [])) = 4.
Proof. repeat split; vm_compute; reflexivity. Qed.

Example ApplyTag_web_request :
  applyTagRequest firewall "prod, dmz" "web" [] catAddress
  = {| verb := "post"; url := "https://fw1/api/?"; headers_ := ∅;
       query_ := list_to_map
         [("type", "config"); ("action", "edit");
          ("element", "<tag><member>prod</member><member>dmz</member></tag>");
          ("key", "K");
          ("xpath", "/config/devices/entry[@name='localhost.localdomain']/vsys/entry[@name='vsys1']/address/entry[@name='web']/tag")] |}.
Proof. vm_compute. reflexivity. Qed.

(** On Panorama, with no device-group, a name no listing has. *)
Lemma tag_of_unlisted_object_is_noop_witness :
  ApplyTag (SL := modelledListing) panoramaSession "prod" "ghost" [] stocked []
  = (Done None,
     snd (listServiceGroups panoramaSession stocked
            (snd (listServices panoramaSession stocked
                    (snd (AddressGroups panoramaSession [] stocked
                            (snd (Addresses panoramaSession [] stocked []))))))))
  /\ RemoveTag (SL := modelledListing) panoramaSession "prod" "ghost" [] stocked []
     = (Done None,
        snd (listServiceGroups panoramaSession stocked
               (snd (listServices panoramaSession stocked
                       (snd (AddressGroups panoramaSession [] stocked
                               (snd (Addresses panoramaSession [] stocked [])))))))).
Proof.
  apply (tag_of_unlisted_object_is_noop (SL := modelledListing)
           panoramaSession "prod" "ghost" [] stocked []
           (snd (Addresses panoramaSession [] stocked []))
           (snd (AddressGroups panoramaSession [] stocked
                   (snd (Addresses panoramaSession [] stocked []))))
           (snd (listServices panoramaSession stocked
                   (snd (AddressGroups panoramaSession [] stocked
                           (snd (Addresses panoramaSession [] stocked []))))))
           (snd (listServiceGroups panoramaSession stocked
                   (snd (listServices panoramaSession stocked
                           (snd (AddressGroups panoramaSession [] stocked
                                   (snd (Addresses panoramaSession [] stocked
                                           [])))))))) 
           {| AddressObjects.Status := "success"; AddressObjects.Code := "19";
              AddressObjects.Addresses := docAddresses inventory |}
           {| AddressGroupsT.Groups :=
                [ {| AddressGroup.Name := "servers";
                     AddressGroup.Type_ := "Static";
                     AddressGroup.Members := ["srv1"; "web"];
                     AddressGroup.DynamicFilter := EmptyString;
                     AddressGroup.Description := EmptyString |} ] |}
           {| ServiceObjects.Services := docServices inventory |}
           {| ServiceGroupsT.Groups := docServiceGroups inventory |}
           None None None None).
  - vm_compute. reflexivity.
  - vm_compute. reflexivity.
  - vm_compute. reflexivity.
  - vm_compute. reflexivity.
  - intros c. apply hasName_false. destruct c; vm_compute; reflexivity.
Defined.

Example unlisted_object_sends_listings_only :
  map (fun r => (verb r, query_ r !! "action"))
    (snd (ApplyTag (SL := modelledListing) panoramaSession "prod" "ghost" []
            stocked []))
  = [("get", Some "get"); ("get", Some "get"); ("get", Some "get");
     ("get", Some "get")].
Proof. vm_compute. reflexivity. Qed.

(** *** When a listing fails *)

(** The address-group listing fails and the object is not an address: the
    search reaches the nil pointer. *)
Lemma tag_search_faults_iff_witness :
  exists msg : string,
    fst (ApplyTag (SL := modelledListing) firewall "prod" "servers" []
           stockedNoGroups []) = Panic msg.
Proof.
  pose (l1 := snd (Addresses firewall [] stockedNoGroups [])).
  pose (l2 := snd (AddressGroups firewall [] stockedNoGroups l1)).
  pose (l3 := snd (listServices firewall stockedNoGroups l2)).
  pose (l4 := snd (listServiceGroups firewall stockedNoGroups l3)).
  apply (proj1 (tag_search_faults_iff (SL := modelledListing)
                  firewall "prod" "servers" [] stockedNoGroups [] l1 l2 l3 l4
                  (Some {| AddressObjects.Status := "success";
                           AddressObjects.Code := "19";
                           AddressObjects.Addresses := docAddresses inventory |})
                  None
                  (Some {| ServiceObjects.Services := docServices inventory |})
                  (Some {| ServiceGroupsT.Groups := docServiceGroups inventory |})
                  None (Some (codeError "13")) None None
                  ltac:(vm_compute; reflexivity) ltac:(vm_compute; reflexivity)
                  ltac:(vm_compute; reflexivity) ltac:(vm_compute; reflexivity))).
  vm_compute. reflexivity.
Defined.

(** C10, as stated, fails: the address-group listing fails, returning nil
    and an error, and yet [ApplyTag] and [RemoveTag] complete without a
    fault, because the object is an address and the first loop returns
    before the nil pointer is read. *)
Lemma fault_needs_all_listings_counterexample :
  fst (AddressGroups firewall [] stockedNoGroups
         (snd (Addresses firewall [] stockedNoGroups [])))
  = Done (None, Some (codeError "13"))
  /\ fst (ApplyTag (SL := modelledListing) firewall "prod" "srv1" []
            stockedNoGroups []) = Done None
  /\ fst (RemoveTag (SL := modelledListing) firewall "prod" "srv1" []
            stockedNoGroups []) = Done None.
Proof. repeat split; vm_compute; reflexivity. Qed.

(** C7 at a failing input: the device rejects the address listing with
    code 13.  [Addresses] reports the error; [ApplyTag] and [RemoveTag]
    drop it and end in the nil-pointer fault, after the four listing
    requests, instead of returning it. *)
Theorem listing_error_is_not_returned :
  fst (Addresses firewall [] (rejecting "13") [])
  = Done (None, Some (codeError "13"))
  /\ ApplyTag (SL := modelledListing) firewall "prod" "srv1" [] (rejecting "13") []
     = (Panic nilDereference,
        snd (listServiceGroups firewall (rejecting "13")
               (snd (listServices firewall (rejecting "13")
                       (snd (AddressGroups firewall [] (rejecting "13")
                               (snd (Addresses firewall [] (rejecting "13") []))))))))
  /\ RemoveTag (SL := modelledListing) firewall "prod" "srv1" [] (rejecting "13") []
     = (Panic nilDereference,
        snd (listServiceGroups firewall (rejecting "13")
               (snd (listServices firewall (rejecting "13")
                       (snd (AddressGroups firewall [] (rejecting "13")
                               (snd (Addresses firewall [] (rejecting "13") [])))))))).
Proof. repeat split; vm_compute; reflexivity. Qed.

(** ** Status classification *)

Lemma checkResponse_answer (d : document) (reqError : requestError.t)
    (status code : string) :
  docStatus d = Some status ->
  docCode d = Some code ->
  checkResponse {| Error := None; Body := Xml d |} reqError
  = if status != "success"
    then inl (codeError code)
    else inr {| requestError.Status := status;
                requestError.Code := code;
                requestError.Message :=
                  default (requestError.Message reqError) (docMsg d) |}.
Proof.
  intros Hs Hc. unfold checkResponse. cbn [Error Body unmarshal_requestError].
  rewrite Hs, Hc. reflexivity.
Qed.

Lemma Classified_silent (dev : device) (log : list request)
    (out : outcome (option error)) :
  Classified dev log (out, log).
Proof.
  intros err log' pre r d status code H Hlog. injection H as _ <-.
  destruct (log_grows _ _ _ Hlog).
Qed.

Lemma Classified_checked (dev : device) (log : list request) (r0 : request)
    (reqError : requestError.t) :
  Classified dev log
    (Done (returnNil (checkResponse (dev log r0) reqError)), log ++ [r0]).
Proof.
  intros err log' pre r d status code H Hlog Hdev Hs Hc.
  injection H as <- <-. apply log_last in Hlog as [-> ->].
  rewrite app_nil_r in Hdev.
  rewrite Hdev, (checkResponse_answer _ _ _ _ Hs Hc).
  destruct (status != "success") eqn:E.
  - apply strNeq_true in E. split; [contradiction|reflexivity].
  - apply strNeq_false in E. split; [reflexivity|contradiction].
Qed.

(** A run that sent [r1] unconditionally and then went on. *)
Lemma Classified_after (dev : device) (log : list request) (r1 : request)
    (out : outcome (option error)) (log' : list request) :
  (exists more r2, log' = (log ++ [r1]) ++ more ++ [r2]) ->
  Classified dev (log ++ [r1]) (out, log') ->
  Classified dev log (out, log').
Proof.
  intros (more & r2 & ->) Hc err log2 pre r d status code H Hlog Hdev Hs Hcode.
  injection H as -> <-.
  rewrite <- !app_assoc in Hlog. apply app_inv_head in Hlog.
  assert (Hpre : pre = r1 :: more /\ r = r2).
  { change ([r1] ++ more ++ [r2]) with ((r1 :: more) ++ [r2]) in Hlog.
    apply app_inj_tail in Hlog as [<- <-]. auto. }
  destruct Hpre as [-> ->].
  apply (Hc err _ more r2 d status code eq_refl eq_refl); auto.
  rewrite <- app_assoc. exact Hdev.
Qed.

Lemma Classified_mret (dev : device) (log : list request) (e : option error) :
  Classified dev log ((mret e : M (option error)) dev log).
Proof. apply Classified_silent. Qed.

Lemma Classified_sendChecked (dev : device) (log : list request)
    (method : string) (p : PaloAlto) (q : gmap string string) :
  Classified dev log
    ((sendChecked method p q requestError.zero ≫= fun r => mret (returnNil r))
       dev log).
Proof. apply Classified_checked. Qed.

(** The listings send one request and classify its answer themselves. *)
Lemma Classified_listing {T R : Type} (unmarshal : body -> error + T)
    (st cd : T -> string) (result : T -> R)
    (method uri : string) (hs q : gmap string string)
    (dev : device) (log : list request) :
  (forall d, exists v,
     unmarshal (Xml d) = inr v
     /\ st v = attr (docStatus d) /\ cd v = attr (docCode d)) ->
  Classified dev log
    (errorOnly
       (Send method uri hs q ≫= fun resp =>
        match unmarshal (Body resp) with
        | inl err => mret (None, Some err)
        | inr v =>
            if st v != "success"
            then mret (None, Some (codeError (cd v)))
            else mret (Some (result v), None)
        end) dev log).
Proof.
  intros Hun err log' pre r d status code H Hlog Hdev Hs Hc.
  unfold errorOnly in H. rewrite !run_bind, run_Send in H.
  cbv beta iota zeta in H.
  match type of H with
  | context [dev log ?r0] => set (r0' := r0) in *
  end.
  assert (Hpre : log' = log ++ [r0']).
  { destruct (unmarshal (Body (dev log r0'))) as [e0|v];
      [|destruct (st v != "success")]; injection H as _ <-; reflexivity. }
  rewrite Hpre in Hlog. apply log_last in Hlog as [-> ->].
  rewrite app_nil_r in Hdev. rewrite Hdev in H. cbn [Body] in H.
  destruct (Hun d) as (v & Hv & Hst & Hcd).
  rewrite Hv, Hst, Hcd, Hs, Hc in H.
  change (attr (Some status)) with status in H.
  change (attr (Some code)) with code in H.
  destruct (status != "success") eqn:E;
    rewrite run_ret in H; cbv beta iota in H; rewrite run_ret in H;
    injection H as <- _.
  - apply strNeq_true in E. split; [contradiction|reflexivity].
  - apply strNeq_false in E. split; [reflexivity|contradiction].
Qed.

Ltac split_guards :=
  cbv zeta;
  repeat match goal with
         | |- Classified _ _ ((if ?b then _ else _) _ _) => destruct b
         | |- Classified _ _ (errorOnly (if ?b then _ else _) _ _) => destruct b
         end.

Ltac classify_mutation :=
  split_guards; first [apply Classified_mret | apply Classified_sendChecked].

Ltac classify_listing unm st cd res :=
  split_guards;
  first
    [ apply Classified_silent
    | apply (Classified_listing unm st cd res);
      intros d; eexists; split; [reflexivity|split; reflexivity] ].

Lemma AddDevice_classified (p : PaloAlto) (serial : string)
    (devicegroup : list string) (dev : device) (log : list request) :
  Classified dev log (AddDevice p serial devicegroup dev log).
Proof.
  unfold AddDevice. cbv zeta.
  destruct ((DeviceType p == "panos") || (DeviceType p != "panorama"));
    [apply Classified_mret|].
  destruct (DeviceType p == "panorama"); cbn [andb].
  - destruct devicegroup as [|g gs]; cbn [len List.length Nat.leb Nat.ltb].
    + rewrite run_bind, run_sendChecked. cbv beta iota zeta.
      match goal with
      | |- context [checkResponse ?x ?y] =>
          generalize (Classified_checked dev log
                        {| verb := "post"; url := URI p; headers_ := ∅;
                           query_ := list_to_map
                             [("type", "config"); ("action", "set");
                              ("xpath", "/config/mgt-config/devices");
                              ("element",
                               "<entry name=" +:+ dquote +:+ serial +:+ dquote
                                 +:+ "/>");
                              ("key", Key p)] |} y);
          destruct (checkResponse x y)
      end; intros Hc; exact Hc.
    + rewrite run_bind, run_ret. cbv beta iota.
      rewrite run_bind, run_sendChecked. cbv beta iota zeta.
      match goal with
      | |- context [checkResponse (dev log ?r1) ?y] =>
          generalize (Classified_checked dev log r1 y);
          destruct (checkResponse (dev log r1) y) as [e|re]; intros Hc;
          [exact Hc|]
      end.
      rewrite run_bind, run_sendChecked. cbv beta iota zeta. rewrite run_ret.
      match goal with
      | |- Classified _ _ (_, (log ++ [?r1]) ++ [?r2]) =>
          apply (Classified_after dev log r1);
          [exists [], r2; reflexivity|apply Classified_checked]
      end.
  - rewrite run_bind, run_ret. cbv beta iota. apply Classified_mret.
Qed.

(** Every call is classified by the answer to its last request. *)
Lemma exec_classified (c : call) (p : PaloAlto) (dev : device)
    (log : list request) :
  Classified dev log (exec c p dev log).
Proof.
  destruct c; cbn [exec].
  - unfold Devices.
    classify_listing unmarshal_Devices DevicesT.Status DevicesT.Code
      (fun v : DevicesT.t => v).
  - unfold DeviceGroups.
    classify_listing unmarshal_DeviceGroups DeviceGroupsT.Status
      DeviceGroupsT.Code (fun v : DeviceGroupsT.t => v).
  - unfold CreateDeviceGroup. classify_mutation.
  - unfold DeleteDeviceGroup. classify_mutation.
  - apply AddDevice_classified.
  - unfold SetPanoramaServer. classify_mutation.
  - unfold RemoveDevice. classify_mutation.
  - unfold Tags.
    classify_listing unmarshal_xmlTags xmlTags.Status xmlTags.Code
      (fun v : xmlTags.t =>
         {| TagsT.Tags := tagsLoop (xmlTags.Tags v) EmptyString [] |}).
  - unfold CreateTag. classify_mutation.
  - unfold DeleteTag. classify_mutation.
  - unfold Commit. classify_mutation.
  - unfold CommitAll. classify_mutation.
  - unfold Addresses.
    classify_listing unmarshal_AddressObjects AddressObjects.Status
      AddressObjects.Code (fun v : AddressObjects.t => v).
  - unfold AddressGroups. split_guards; [apply Classified_silent|].
    eapply (Classified_listing unmarshal_xmlAddressGroups
              xmlAddressGroups.Status xmlAddressGroups.Code).
    intros d; eexists; split; [reflexivity|split; reflexivity].
  - unfold CreateAddress. classify_mutation.
  - unfold CreateSharedAddress. classify_mutation.
  - unfold CreateStaticGroup. classify_mutation.
  - unfold CreateSharedStaticGroup. classify_mutation.
  - unfold CreateDynamicGroup. classify_mutation.
  - unfold CreateSharedDynamicGroup. classify_mutation.
  - unfold DeleteAddress. classify_mutation.
  - unfold DeleteSharedAddress. classify_mutation.
  - unfold DeleteAddressGroup. classify_mutation.
  - unfold DeleteSharedAddressGroup. classify_mutation.
Qed.

Lemma searchFrom_classified (hit : category -> M (option (option error)))
    (stops : bool) (object : string)
    (results : list (category * option (list string)))
    (dev : device) (log : list request) :
  (forall c,
     Classified dev log ((hit c ≫= fun r => mret (default None r)) dev log)) ->
  Classified dev log (searchFrom hit stops object results dev log).
Proof.
  intros Hhit.
  induction results as [|[c [names|]] results IH]; cbn [searchFrom].
  - apply Classified_mret.
  - destruct (stops && hasName object names); [apply Hhit|exact IH].
  - apply Classified_silent.
Qed.

Lemma applyTagBody_classified p cat object dg q dev log :
  Classified dev log
    ((applyTagBody p cat object dg q object ≫= fun r => mret (default None r))
       dev log).
Proof.
  unfold applyTagBody. rewrite String.eqb_refl. cbv zeta.
  repeat match goal with
         | |- Classified _ _ (((if ?b then _ else _) ≫= _) _ _) => destruct b
         end;
    first [ apply Classified_silent
          | rewrite !run_bind, run_sendChecked; apply Classified_checked ].
Qed.

Lemma removeTagBody_classified p cat tag object dg q dev log :
  Classified dev log
    ((removeTagBody p cat tag object dg q object
        ≫= fun r => mret (default None r)) dev log).
Proof.
  unfold removeTagBody. rewrite String.eqb_refl. cbv zeta.
  repeat match goal with
         | |- Classified _ _ (((if ?b then _ else _) ≫= _) _ _) => destruct b
         end;
    first [ apply Classified_silent
          | rewrite !run_bind, run_sendChecked; apply Classified_checked ].
Qed.

(** [NewSession] classifies the answers to the key and system-info
    requests and returns the session whatever the status of the answer to
    the panorama-status request. *)
Lemma NewSession_classified
    (host user passwd : string) (dev : device) (log log' pre : list request)
    (sess : option PaloAlto) (err : option error)
    (r : request) (d : document) (status code : string) :
  NewSession host user passwd dev log = (Done (sess, err), log') ->
  log' = log ++ pre ++ [r] ->
  dev (log ++ pre) r = {| Error := None; Body := Xml d |} ->
  docStatus d = Some status ->
  docCode d = Some code ->
  (status = "success" -> err = None)
  /\ (status <> "success" ->
      (pre = []
       /\ err = Some (Errorf ("error code " +:+ code +:+ ": "
                                +:+ index errorCodes code +:+ " (keygen)")))
      \/ (List.length pre = 1
          /\ err = Some (Errorf ("error code " +:+ code +:+ ": "
                                   +:+ index errorCodes code
                                   +:+ " (show system info)")))
      \/ (List.length pre = 2 /\ err = None /\ sess <> None)).
Proof.
  unfold NewSession. intros H Hlog Hdev Hs Hc. subst log'.
  rewrite run_bind, run_Send in H. cbv beta iota zeta in H.
  fold (keygenRequest host user passwd) in H.
  set (r1 := keygenRequest host user passwd) in *.
  destruct (dev log r1) as [[e1|] [m1|dk]] eqn:E1;
    cbn [Error Body unmarshal_authKey authKey.Status authKey.Code authKey.Key] in H;
    try (rewrite run_ret in H; injection H as _ _ Hlog;
         apply app_inv_head in Hlog;
         apply (app_inj_tail [] pre) in Hlog as [<- <-];
         rewrite app_nil_r, E1 in Hdev; discriminate Hdev).
  destruct (attr (docStatus dk) != "success") eqn:Ek.
  { rewrite run_ret in H. injection H as _ <- Hlog.
    apply app_inv_head in Hlog.
    apply (app_inj_tail [] pre) in Hlog as [<- <-].
    rewrite app_nil_r, E1 in Hdev. injection Hdev as ->.
    rewrite Hs, Hc in *. cbn [attr default] in *.
    apply strNeq_true in Ek. split; [contradiction|]. intros _. left. auto. }
  rewrite run_bind, run_Send in H. cbv beta iota zeta in H.
  fold (systemInfoRequest host (docKey dk)) in H.
  set (r2 := systemInfoRequest host (docKey dk)) in *.
  destruct (dev (log ++ [r1]) r2) as [[e2|] [m2|di]] eqn:E2;
    cbn [Error Body unmarshal_systemInfo systemInfo.Status systemInfo.Code
         systemInfo.Platform systemInfo.Model systemInfo.Serial
         systemInfo.SoftwareVersion] in H;
    try (rewrite run_ret in H; injection H as _ _ Hlog;
         rewrite <- app_assoc in Hlog; apply app_inv_head in Hlog;
         apply (app_inj_tail [r1] pre) in Hlog as [<- <-];
         rewrite E2 in Hdev; discriminate Hdev).
  destruct (attr (docStatus di) != "success") eqn:Ei.
  { rewrite run_ret in H. injection H as _ <- Hlog.
    rewrite <- app_assoc in Hlog. apply app_inv_head in Hlog.
    apply (app_inj_tail [r1] pre) in Hlog as [<- <-].
    rewrite E2 in Hdev. injection Hdev as ->.
    rewrite Hs, Hc in *. cbn [attr default] in *.
    apply strNeq_true in Ei. split; [contradiction|]. intros _.
    right. left. auto. }
  rewrite run_bind, run_Send in H. cbv beta iota zeta in H.
  match type of H with
  | context [dev ?l ?r3] => destruct (dev l r3) as [[e3|] [m3|dp]] eqn:E3
  end;
    cbn [Error Body unmarshal_panoramaStatus panoramaStatus.Data] in H;
    rewrite run_ret in H; injection H as <- <- Hlog;
    rewrite <- !app_assoc in Hlog; apply app_inv_head in Hlog;
    apply (app_inj_tail [r1; r2] pre) in Hlog as [<- <-];
    rewrite <- app_assoc in E3; change ([r1] ++ [r2]) with [r1; r2] in E3;
    rewrite E3 in Hdev; try discriminate Hdev.
  split; [reflexivity|]. intros _. right. right.
  split; [reflexivity|]. split; [reflexivity|discriminate].
Qed.

(** C1, amended: the answer to the last request of an operation decides
    the error it returns.  For every call of [call] (all public operations
    but [NewSession], [ApplyTag] and [RemoveTag]): if the run completes and
    the device answered its last request with an envelope carrying a status
    and a code, the error is nil when the status is [success] and
    [error code <code>: <text of errorCodes>] with the envelope's code
    otherwise.  The same holds for [ApplyTag] and [RemoveTag] from the log
    the four listings left, that is, for their mutation request.
    [NewSession] classifies the answers to the key request and to the
    system-info request in this way (the message names the step) and never
    looks at the status of the answer to the panorama-status request: the
    session is returned with a nil error. *)
Theorem status_classification :
  (forall (c : call) (p : PaloAlto) (dev : device)
          (log log' pre : list request) (err : option error) (r : request)
          (d : document) (status code : string),
      exec c p dev log = (Done err, log') ->
      log' = log ++ pre ++ [r] ->
      dev (log ++ pre) r = {| Error := None; Body := Xml d |} ->
      docStatus d = Some status ->
      docCode d = Some code ->
      (status = "success" -> err = None)
      /\ (status <> "success" ->
          err = Some (Errorf ("error code " +:+ code +:+ ": "
                                +:+ index errorCodes code))))
  /\ (forall (SL : ServiceListing) (p : PaloAlto) (tag object : string)
             (devicegroup : list string) (dev : device)
             (log0 log1 log2 log3 log4 : list request)
             (adObj : option AddressObjects.t) (agObj : option AddressGroupsT.t)
             (sObj : option ServiceObjects.t) (sgObj : option ServiceGroupsT.t)
             (e1 e2 e3 e4 : option error),
        Addresses p [] dev log0 = (Done (adObj, e1), log1) ->
        AddressGroups p [] dev log1 = (Done (agObj, e2), log2) ->
        Services p dev log2 = (Done (sObj, e3), log3) ->
        ServiceGroups p dev log3 = (Done (sgObj, e4), log4) ->
        Classified dev log4 (ApplyTag p tag object devicegroup dev log0)
        /\ Classified dev log4 (RemoveTag p tag object devicegroup dev log0))
  /\ (forall (host user passwd : string) (dev : device)
             (log log' pre : list request)
             (sess : option PaloAlto) (err : option error)
             (r : request) (d : document) (status code : string),
        NewSession host user passwd dev log = (Done (sess, err), log') ->
        log' = log ++ pre ++ [r] ->
        dev (log ++ pre) r = {| Error := None; Body := Xml d |} ->
        docStatus d = Some status ->
        docCode d = Some code ->
        (status = "success" -> err = None)
        /\ (status <> "success" ->
            (pre = []
             /\ err = Some (Errorf ("error code " +:+ code +:+ ": "
                                      +:+ index errorCodes code +:+ " (keygen)")))
            \/ (List.length pre = 1
                /\ err = Some (Errorf ("error code " +:+ code +:+ ": "
                                         +:+ index errorCodes code
                                         +:+ " (show system info)")))
            \/ (List.length pre = 2 /\ err = None /\ sess <> None))).
Proof.
  split; [|split].
  - intros c p dev log log' pre err r d status code H.
    exact (exec_classified c p dev log err log' pre r d status code H).
  - intros SL p tag object devicegroup dev log0 log1 log2 log3 log4
      adObj agObj sObj sgObj e1 e2 e3 e4 H1 H2 H3 H4. split.
    + rewrite (ApplyTag_searchFrom p tag object devicegroup dev _ _ _ _ _
                 _ _ _ _ _ _ _ _ H1 H2 H3 H4).
      apply searchFrom_classified. intros c. apply applyTagBody_classified.
    + rewrite (RemoveTag_searchFrom p tag object devicegroup dev _ _ _ _ _
                 _ _ _ _ _ _ _ _ H1 H2 H3 H4).
      apply searchFrom_classified. intros c. apply removeTagBody_classified.
  - exact NewSession_classified.
Qed.

(** [Commit] on a device whose session timed out. *)
Lemma status_classification_witness :
  ("error" = "success" -> Some (codeError "22") = None)
  /\ ("error" <> "success" ->
      Some (codeError "22")
      = Some (Errorf ("error code " +:+ "22" +:+ ": " +:+ index errorCodes "22"))).
Proof.
  apply (proj1 status_classification callCommit firewall (rejecting "22")
           []
           [ {| verb := "get"; url := "https://fw1/api/?"; headers_ := ∅;
                query_ := list_to_map
                  [("type", "commit"); ("cmd", "<commit></commit>");
                   ("key", "K")] |} ]
           []
           (Some (codeError "22"))
           {| verb := "get"; url := "https://fw1/api/?"; headers_ := ∅;
              query_ := list_to_map
                [("type", "commit"); ("cmd", "<commit></commit>");
                 ("key", "K")] |}
           (envelope "error" "22") "error" "22").
  - vm_compute. reflexivity.
  - reflexivity.
  - reflexivity.
  - reflexivity.
  - reflexivity.
Defined.

Example Commit_session_timed_out :
  fst (Commit firewall (rejecting "22") [])
  = Done (Some (Errorf
      "error code 22: Session timed out - The session for this query timed out")).
Proof. vm_compute. reflexivity. Qed.

Example Commit_accepted :
  fst (Commit firewall accepting []) = Done None.
Proof. vm_compute. reflexivity. Qed.

(** C1, as stated, fails on [NewSession]: the device answers the
    panorama-status request, the last of the three, with a well-formed
    envelope whose status is [error] (code 17), and [NewSession] returns
    the session and no error. *)
Lemma NewSession_ignores_panorama_status_counterexample :
  NewSession "pano" "admin" "secret" bootNoPanoramaStatus []
  = (Done (Some panoramaSession, None),
     [ keygenRequest "pano" "admin" "secret"; systemInfoRequest "pano" "K";
       panoramaStatusRequest "pano" "K" ])
  /\ bootNoPanoramaStatus
       [ keygenRequest "pano" "admin" "secret"; systemInfoRequest "pano" "K" ]
       (panoramaStatusRequest "pano" "K")
     = {| Error := None; Body := Xml (envelope "error" "17") |}
  /\ docStatus (envelope "error" "17") = Some "error"
  /\ docCode (envelope "error" "17") = Some "17".
Proof. repeat split; vm_compute; reflexivity. Qed.

(** ** The message of a coded error *)

Lemma tableText_index (code : string) : tableText code (index errorCodes code).
Proof.
  unfold tableText, index. destruct (errorCodes !! code) as [t|]; split.
  - intros t' H. injection H as <-. reflexivity.
  - discriminate.
  - discriminate.
  - reflexivity.
Qed.

Lemma index_object_not_present (code : string) :
  code = "7" -> Contains (index errorCodes code) "Object not present" = true.
Proof. intros ->. vm_compute. reflexivity. Qed.

Lemma Classified_message (dev : device) (log : list request)
    (run : outcome (option error) * list request)
    (err : option error) (log' pre : list request) (r : request)
    (d : document) (status code : string) :
  Classified dev log run ->
  run = (Done err, log') ->
  log' = log ++ pre ++ [r] ->
  dev (log ++ pre) r = {| Error := None; Body := Xml d |} ->
  docStatus d = Some status ->
  docCode d = Some code ->
  status <> "success" ->
  exists text : string,
    tableText code text
    /\ err = Some (Errorf ("error code " +:+ code +:+ ": " +:+ text))
    /\ (code = "7" -> Contains text "Object not present" = true).
Proof.
  intros Hcl Hrun Hlog Hdev Hs Hc Hne.
  destruct (Hcl err log' pre r d status code Hrun Hlog Hdev Hs Hc) as [_ He].
  exists (index errorCodes code).
  split; [apply tableText_index|]. split; [exact (He Hne)|].
  apply index_object_not_present.
Qed.

(** C2, amended: the message of the error an operation returns for an
    envelope whose status is not [success].  For every call of [call], and
    for the mutation [ApplyTag] and [RemoveTag] send after the four
    listings: when the run completes and the device answered its last
    request with an envelope carrying a status other than [success] and a
    code, the error is [error code <code>: <text>], with the envelope's code
    and the text the table [errorCodes] (24 entries) has for that code; for
    the code 7 the text contains [Object not present]; for a code the table
    does not hold the text is empty, so the message is the frame with the
    raw code and nothing after it.  [NewSession] appends [ (keygen)] or
    [ (show system info)] to that message for the answers to its first two
    requests and returns no error for the answer to the third. *)
Theorem error_message_from_table :
  (forall (c : call) (p : PaloAlto) (dev : device)
          (log log' pre : list request) (err : option error) (r : request)
          (d : document) (status code : string),
      exec c p dev log = (Done err, log') ->
      log' = log ++ pre ++ [r] ->
      dev (log ++ pre) r = {| Error := None; Body := Xml d |} ->
      docStatus d = Some status ->
      docCode d = Some code ->
      status <> "success" ->
      exists text : string,
        tableText code text
        /\ err = Some (Errorf ("error code " +:+ code +:+ ": " +:+ text))
        /\ (code = "7" -> Contains text "Object not present" = true))
  /\ (forall (SL : ServiceListing) (p : PaloAlto) (tag object : string)
             (devicegroup : list string) (dev : device)
             (log0 log1 log2 log3 log4 log' pre : list request)
             (adObj : option AddressObjects.t) (agObj : option AddressGroupsT.t)
             (sObj : option ServiceObjects.t) (sgObj : option ServiceGroupsT.t)
             (e1 e2 e3 e4 err : option error) (r : request)
             (d : document) (status code : string),
        Addresses p [] dev log0 = (Done (adObj, e1), log1) ->
        AddressGroups p [] dev log1 = (Done (agObj, e2), log2) ->
        Services p dev log2 = (Done (sObj, e3), log3) ->
        ServiceGroups p dev log3 = (Done (sgObj, e4), log4) ->
        ApplyTag p tag object devicegroup dev log0 = (Done err, log')
        \/ RemoveTag p tag object devicegroup dev log0 = (Done err, log') ->
        log' = log4 ++ pre ++ [r] ->
        dev (log4 ++ pre) r = {| Error := None; Body := Xml d |} ->
        docStatus d = Some status ->
        docCode d = Some code ->
        status <> "success" ->
        exists text : string,
          tableText code text
          /\ err = Some (Errorf ("error code " +:+ code +:+ ": " +:+ text))
          /\ (code = "7" -> Contains text "Object not present" = true))
  /\ (forall (host user passwd : string) (dev : device)
             (log log' pre : list request)
             (sess : option PaloAlto) (err : option error)
             (r : request) (d : document) (status code : string),
        NewSession host user passwd dev log = (Done (sess, err), log') ->
        log' = log ++ pre ++ [r] ->
        dev (log ++ pre) r = {| Error := None; Body := Xml d |} ->
        docStatus d = Some status ->
        docCode d = Some code ->
        status <> "success" ->
        exists text : string,
          tableText code text
          /\ ((pre = []
               /\ err = Some (Errorf ("error code " +:+ code +:+ ": " +:+ text
                                        +:+ " (keygen)")))
              \/ (List.length pre = 1
                  /\ err = Some (Errorf ("error code " +:+ code +:+ ": " +:+ text
                                           +:+ " (show system info)")))
              \/ (List.length pre = 2 /\ err = None /\ sess <> None)))
  /\ size errorCodes = 24.
Proof.
  split; [|split; [|split]].
  - intros c p dev log log' pre err r d status code H.
    exact (Classified_message dev log _ err log' pre r d status code
             (exec_classified c p dev log) H).
  - intros SL p tag object devicegroup dev log0 log1 log2 log3 log4 log' pre
      adObj agObj sObj sgObj e1 e2 e3 e4 err r d status code H1 H2 H3 H4 [H|H].
    + apply (Classified_message dev log4
               (ApplyTag p tag object devicegroup dev log0)
               err log' pre r d status code);
        [|exact H].
      rewrite (ApplyTag_searchFrom p tag object devicegroup dev _ _ _ _ _
                 _ _ _ _ _ _ _ _ H1 H2 H3 H4).
      apply searchFrom_classified. intros c. apply applyTagBody_classified.
    + apply (Classified_message dev log4
               (RemoveTag p tag object devicegroup dev log0)
               err log' pre r d status code);
        [|exact H].
      rewrite (RemoveTag_searchFrom p tag object devicegroup dev _ _ _ _ _
                 _ _ _ _ _ _ _ _ H1 H2 H3 H4).
      apply searchFrom_classified. intros c. apply removeTagBody_classified.
  - intros host user passwd dev log log' pre sess err r d status code
      H Hlog Hdev Hs Hc Hne.
    exists (index errorCodes code). split; [apply tableText_index|].
    exact (proj2 (NewSession_classified host user passwd dev log log' pre
                    sess err r d status code H Hlog Hdev Hs Hc) Hne).
  - reflexivity.
Qed.

(** [DeleteAddress] of an object the firewall does not have. *)
Lemma error_message_from_table_witness :
  exists text : string,
    tableText "7" text
    /\ fst (DeleteAddress firewall "srv1" [] (rejecting "7") [])
       = Done (Some (Errorf ("error code " +:+ "7" +:+ ": " +:+ text)))
    /\ Contains text "Object not present" = true.
Proof.
  destruct (proj1 error_message_from_table
              (callDeleteAddress "srv1" []) firewall (rejecting "7") []
              [ {| verb := "get"; url := "https://fw1/api/?"; headers_ := ∅;
                   query_ := list_to_map
                     [("type", "config"); ("action", "delete");
                      ("xpath", objectXpath firewall "address" "srv1" []);
                      ("key", "K")] |} ]
              []
              (Some (codeError "7"))
              {| verb := "get"; url := "https://fw1/api/?"; headers_ := ∅;
                 query_ := list_to_map
                   [("type", "config"); ("action", "delete");
                    ("xpath", objectXpath firewall "address" "srv1" []);
                    ("key", "K")] |}
              (envelope "error" "7") "error" "7")
    as (text & Htext & Herr & H7).
  - vm_compute. reflexivity.
  - reflexivity.
  - reflexivity.
  - reflexivity.
  - reflexivity.
  - discriminate.
  - exists text. split; [exact Htext|]. split; [|exact (H7 eq_refl)].
    transitivity (Done (Some (codeError "7")));
      [vm_compute; reflexivity|f_equal; exact Herr].
Defined.

(** C2, as stated, fails twice.  The firewall answers a delete with the
    status [error] and the code 99, which the table does not hold: the
    message is [error code 99: ] and ends there, with no generic text
    after the raw code.  And a device answers the panorama-status request
    of [NewSession] with the status [error] and the code 17, which the
    table holds: no error is returned at all. *)
Lemma unknown_code_has_no_text_counterexample :
  (rejecting "99" []
     {| verb := "get"; url := "https://fw1/api/?"; headers_ := ∅;
        query_ := list_to_map
          [("type", "config"); ("action", "delete");
           ("xpath", "/config/devices/entry[@name='localhost.localdomain']/vsys/entry[@name='vsys1']/address/entry[@name='srv1']");
           ("key", "K")] |}
   = {| Error := None; Body := Xml (envelope "error" "99") |}
   /\ errorCodes !! "99" = None
   /\ DeleteAddress firewall "srv1" [] (rejecting "99") []
      = (Done (Some (Errorf "error code 99: ")),
         [ {| verb := "get"; url := "https://fw1/api/?"; headers_ := ∅;
              query_ := list_to_map
                [("type", "config"); ("action", "delete");
                 ("xpath", "/config/devices/entry[@name='localhost.localdomain']/vsys/entry[@name='vsys1']/address/entry[@name='srv1']");
                 ("key", "K")] |} ]))
  /\ (bootNoPanoramaStatus
        [ keygenRequest "pano" "admin" "secret"; systemInfoRequest "pano" "K" ]
        (panoramaStatusRequest "pano" "K")
      = {| Error := None; Body := Xml (envelope "error" "17") |}
      /\ errorCodes !! "17"
         = Some "Invalid command - Invalid command or parameters"
      /\ fst (NewSession "pano" "admin" "secret" bootNoPanoramaStatus [])
         = Done (Some panoramaSession, None)).
Proof. repeat split; vm_compute; reflexivity. Qed.

(** *** Tags on the stocked firewall *)

(** The tags [lab] (code [color99]) and [misc] (no color) come back with
    the color of [prod], the tag before them. *)
Example Tags_of_inventory :
  fst (Tags firewall stocked [])
  = Done (Some {| TagsT.Tags :=
                    [ {| Tag.Name := "prod"; Tag.Color := "Red";
                         Tag.Comments := EmptyString |};
                      {| Tag.Name := "lab"; Tag.Color := "Red";
                         Tag.Comments := EmptyString |};
                      {| Tag.Name := "misc"; Tag.Color := "Red";
                         Tag.Comments := "no color" |} ] |},
          None).
Proof. vm_compute. reflexivity. Qed.

Lemma Tags_unknown_color_keeps_previous_witness :
  exists (r : request) (d : document),
    snd (Tags firewall stocked []) = [] ++ [r]
    /\ Body (stocked [] r) = Xml d
    /\ List.length
         [ {| Tag.Name := "prod"; Tag.Color := "Red";
              Tag.Comments := EmptyString |};
           {| Tag.Name := "lab"; Tag.Color := "Red";
              Tag.Comments := EmptyString |};
           {| Tag.Name := "misc"; Tag.Color := "Red";
              Tag.Comments := "no color" |} ]
       = List.length (docTags d)
    /\ forall (i : nat) (t : xmlTag.t),
         docTags d !! i = Some t ->
         (forall k : string, tagColors !! k <> Some (xmlTag.Color t)) ->
         exists tg : Tag.t,
           [ {| Tag.Name := "prod"; Tag.Color := "Red";
                Tag.Comments := EmptyString |};
             {| Tag.Name := "lab"; Tag.Color := "Red";
                Tag.Comments := EmptyString |};
             {| Tag.Name := "misc"; Tag.Color := "Red";
                Tag.Comments := "no color" |} ] !! i = Some tg
           /\ Tag.Name tg = xmlTag.Name t
           /\ Tag.Color tg
              = default EmptyString
                  (last (omap colorName (xmlTag.Color <$> take i (docTags d)))).
Proof.
  apply (Tags_unknown_color_keeps_previous firewall stocked []
           (snd (Tags firewall stocked []))
           {| TagsT.Tags :=
                [ {| Tag.Name := "prod"; Tag.Color := "Red";
                     Tag.Comments := EmptyString |};
                  {| Tag.Name := "lab"; Tag.Color := "Red";
                     Tag.Comments := EmptyString |};
                  {| Tag.Name := "misc"; Tag.Color := "Red";
                     Tag.Comments := "no color" |} ] |}
           None).
  vm_compute. reflexivity.
Defined.

(** With no tag of a known color before it, the color is empty. *)
Example tagsLoop_unknown_first :
  tagsLoop
    [ {| xmlTag.Name := "lab"; xmlTag.Color := "color99";
         xmlTag.Comments := EmptyString |};
      {| xmlTag.Name := "prod"; xmlTag.Color := "color2";
         xmlTag.Comments := EmptyString |};
      {| xmlTag.Name := "misc"; xmlTag.Color := EmptyString;
         xmlTag.Comments := EmptyString |} ]
    EmptyString []
  = [ {| Tag.Name := "lab"; Tag.Color := EmptyString;
         Tag.Comments := EmptyString |};
      {| Tag.Name := "prod"; Tag.Color := "Green";
         Tag.Comments := EmptyString |};
      {| Tag.Name := "misc"; Tag.Color := "Green";
         Tag.Comments := EmptyString |} ].
Proof. vm_compute. reflexivity. Qed.

(** * Further properties *)

(** ** The shape of a run *)

Lemma listing_run {T R : Type} (unmarshal : body -> error + T)
    (st cd : T -> string) (result : T -> R)
    (method uri : string) (hs q : gmap string string)
    (dev : device) (log : list request) :
  (forall e, unmarshal (Malformed e) = inl (XmlError e)) ->
  (forall d, exists v,
     unmarshal (Xml d) = inr v
     /\ st v = attr (docStatus d) /\ cd v = attr (docCode d)) ->
  errorOnly
    (Send method uri hs q ≫= fun resp =>
     match unmarshal (Body resp) with
     | inl err => mret (None, Some err)
     | inr v =>
         if st v != "success"
         then mret (None, Some (codeError (cd v)))
         else mret (Some (result v), None)
     end) dev log
  = (Done (listingError
             (Body (dev log {| verb := method; url := uri; headers_ := hs;
                               query_ := q |}))),
     log ++ [{| verb := method; url := uri; headers_ := hs; query_ := q |}]).
Proof.
  intros Hbad Hok. unfold errorOnly. rewrite !run_bind, run_Send.
  cbv beta iota zeta.
  destruct (Body (dev log _)) as [e|d]; cbn [listingError].
  - rewrite Hbad. reflexivity.
  - destruct (Hok d) as (v & Hv & Hst & Hcd). rewrite Hv, Hst, Hcd.
    destruct (attr (docStatus d) != "success"); reflexivity.
Qed.

Ltac shape_guards :=
  cbv zeta;
  repeat match goal with
         | |- runShape _ _ _ _ ((if ?b then _ else _) _ _) => destruct b
         | |- runShape _ _ _ _ (errorOnly (if ?b then _ else _) _ _) =>
             destruct b
         end.

Ltac wire_ok := unfold wire; repeat split; reflexivity.

Ltac shape_mutation :=
  shape_guards;
  first [ apply refused | apply checked; [reflexivity|wire_ok] ].

Ltac shape_listing unm st cd res :=
  shape_guards;
  first
    [ apply refused
    | rewrite (listing_run unm st cd res);
      [ apply listed; [reflexivity|wire_ok]
      | reflexivity
      | intros d; eexists; split; [reflexivity|split; reflexivity] ] ].

Lemma AddDevice_shape (p : PaloAlto) (serial : string)
    (devicegroup : list string) (dev : device) (log : list request) :
  runShape (callAddDevice serial devicegroup) p dev log
    (AddDevice p serial devicegroup dev log).
Proof.
  unfold AddDevice, strNeq. cbv zeta.
  destruct (DeviceType p == "panorama"); cbn [negb andb];
    [|rewrite orb_true_r; apply refused].
  destruct (DeviceType p == "panos"); [apply refused|]. cbn [orb].
  destruct devicegroup as [|g gs]; cbn [len List.length Nat.leb Nat.ltb].
  - rewrite run_bind, run_sendChecked. cbv beta iota zeta.
    fold (registerRequest p serial).
    generalize (checked (callAddDevice serial []) p dev log
                  (registerRequest p serial) eq_refl).
    destruct (checkResponse (dev log (registerRequest p serial))
                requestError.zero) as [e|re]; intros Hc;
      apply Hc; wire_ok.
  - rewrite run_bind, run_ret. cbv beta iota.
    rewrite run_bind, run_sendChecked. cbv beta iota zeta.
    fold (registerRequest p serial).
    generalize (checked (callAddDevice serial (g :: gs)) p dev log
                  (registerRequest p serial) eq_refl).
    destruct (checkResponse (dev log (registerRequest p serial))
                requestError.zero) as [e|re] eqn:E; intros Hc.
    + apply Hc. wire_ok.
    + rewrite run_bind, run_sendChecked. cbv beta iota zeta. rewrite run_ret.
      rewrite <- app_assoc.
      apply (checkedTwice (callAddDevice serial (g :: gs)) p dev log
               (registerRequest p serial) (attachRequest p serial g) re).
      * exists serial, (g :: gs). split; [reflexivity|discriminate].
      * wire_ok.
      * wire_ok.
      * exact E.
Qed.

(** Every call runs in one of the four forms. *)
Lemma exec_shape (c : call) (p : PaloAlto) (dev : device) (log : list request) :
  runShape c p dev log (exec c p dev log).
Proof.
  destruct c; cbn [exec].
  - unfold Devices.
    shape_listing unmarshal_Devices DevicesT.Status DevicesT.Code
      (fun v : DevicesT.t => v).
  - unfold DeviceGroups.
    shape_listing unmarshal_DeviceGroups DeviceGroupsT.Status
      DeviceGroupsT.Code (fun v : DeviceGroupsT.t => v).
  - unfold CreateDeviceGroup. shape_mutation.
  - unfold DeleteDeviceGroup. shape_mutation.
  - apply AddDevice_shape.
  - unfold SetPanoramaServer. shape_mutation.
  - unfold RemoveDevice. shape_mutation.
  - unfold Tags.
    shape_listing unmarshal_xmlTags xmlTags.Status xmlTags.Code
      (fun v : xmlTags.t =>
         {| TagsT.Tags := tagsLoop (xmlTags.Tags v) EmptyString [] |}).
  - unfold CreateTag. shape_mutation.
  - unfold DeleteTag. shape_mutation.
  - unfold Commit. shape_mutation.
  - unfold CommitAll. shape_mutation.
  - unfold Addresses.
    shape_listing unmarshal_AddressObjects AddressObjects.Status
      AddressObjects.Code (fun v : AddressObjects.t => v).
  - unfold AddressGroups. shape_guards; [apply refused|].
    erewrite (listing_run unmarshal_xmlAddressGroups
                xmlAddressGroups.Status xmlAddressGroups.Code);
      [ apply listed; [reflexivity|wire_ok]
      | reflexivity
      | intros d; eexists; split; [reflexivity|split; reflexivity] ].
  - unfold CreateAddress. shape_mutation.
  - unfold CreateSharedAddress. shape_mutation.
  - unfold CreateStaticGroup. shape_mutation.
  - unfold CreateSharedStaticGroup. shape_mutation.
  - unfold CreateDynamicGroup. shape_mutation.
  - unfold CreateSharedDynamicGroup. shape_mutation.
  - unfold DeleteAddress. shape_mutation.
  - unfold DeleteSharedAddress. shape_mutation.
  - unfold DeleteAddressGroup. shape_mutation.
  - unfold DeleteSharedAddressGroup. shape_mutation.
Qed.

(** ** What every call does *)

(** X1: every call completes without a fault and only appends to the log
    of requests; it sends at most one request, or two when it is
    [AddDevice] with a device-group; a call that sends nothing returns an
    error. *)
Theorem call_request_bound (c : call) (p : PaloAlto) (dev : device)
    (log : list request) :
  exists (err : option error) (sent : list request),
    exec c p dev log = (Done err, log ++ sent)
    /\ List.length sent <= 2
    /\ (List.length sent = 2 ->
        exists serial devicegroup,
          c = callAddDevice serial devicegroup /\ devicegroup <> [])
    /\ (sent = [] -> err <> None).
Proof.
  destruct (exec_shape c p dev log) as [e|r Hl Hw|r Hl Hw|r1 r2 re Hc Hw1 Hw2 E].
  - exists (Some e), []. rewrite app_nil_r.
    repeat split; [simpl; lia|discriminate|discriminate].
  - eexists _, [r]. repeat split; [simpl; lia|discriminate|discriminate].
  - eexists _, [r]. repeat split; [simpl; lia|discriminate|discriminate].
  - eexists _, [r1; r2]. repeat split; [simpl; lia| |discriminate].
    intros _. exact Hc.
Qed.

(** X2: every request a call sends goes to the session's URI with the
    session's key, and has the method, the [type] and the [action] of the
    call: [get] for the listings, [set] for what creates, adds or sets,
    [delete] for what deletes or removes, [all] for [CommitAll] and none
    for [Commit]; only the listings send the [Content-Type] header. *)
Theorem call_wire_format (c : call) (p : PaloAlto) (dev : device)
    (log : list request) :
  Forall (wire c p) (drop (List.length log) (snd (exec c p dev log))).
Proof.
  destruct (exec_shape c p dev log) as [e|r Hl Hw|r Hl Hw|r1 r2 re Hc Hw1 Hw2 E];
    cbn [snd].
  - rewrite drop_all. constructor.
  - rewrite drop_app_length. constructor; [exact Hw|constructor].
  - rewrite drop_app_length. constructor; [exact Hw|constructor].
  - rewrite drop_app_length.
    constructor; [exact Hw1|constructor; [exact Hw2|constructor]].
Qed.

Lemma checkResponse_transport (e : error) (b : body) (reqError : requestError.t) :
  checkResponse {| Error := Some e; Body := b |} reqError = inl e.
Proof. reflexivity. Qed.

Lemma log_last_two (log pre : list request) (r1 r2 r : request) :
  log ++ [r1; r2] = log ++ pre ++ [r] -> pre = [r1] /\ r2 = r.
Proof.
  intros H. apply app_inv_head in H.
  change [r1; r2] with ([r1] ++ [r2]) in H.
  apply app_inj_tail in H as [<- <-]. auto.
Qed.

(** X3: a call that is not a listing returns the transport's error as it
    is: when the answer to the last request it sent carries an error, that
    error is the result, whatever the body. *)
Theorem mutation_returns_transport_error
    (c : call) (p : PaloAlto) (dev : device) (log pre : list request)
    (out : outcome (option error)) (r : request) (e : error) :
  isListing c = false ->
  exec c p dev log = (out, log ++ pre ++ [r]) ->
  Error (dev (log ++ pre) r) = Some e ->
  out = Done (Some e).
Proof.
  intros Hc Hrun He.
  destruct (exec_shape c p dev log) as [e0|r0 Hl Hw|r0 Hl Hw|r1 r2 re _ _ _ E].
  - injection Hrun as _ Hlog. destruct (log_grows _ _ _ Hlog).
  - congruence.
  - injection Hrun as <- Hlog. apply log_last in Hlog as [-> ->].
    rewrite app_nil_r in He.
    destruct (dev log r) as [err b]. cbn [Error] in He. subst err.
    reflexivity.
  - injection Hrun as <- Hlog. apply log_last_two in Hlog as [-> ->].
    destruct (dev (log ++ [r1]) r) as [err b]. cbn [Error] in He. subst err.
    reflexivity.
Qed.

Lemma mutation_returns_transport_error_witness :
  fst (CreateAddress firewall "srv1" "ip" "10.0.0.5/32" EmptyString []
         unreachable [])
  = Done (Some (TransportError "connection refused")).
Proof.
  apply (mutation_returns_transport_error
           (callCreateAddress "srv1" "ip" "10.0.0.5/32" EmptyString [])
           firewall unreachable [] []
           (fst (CreateAddress firewall "srv1" "ip" "10.0.0.5/32" EmptyString []
                   unreachable []))
           {| verb := "post"; url := "https://fw1/api/?"; headers_ := ∅;
              query_ := list_to_map
                [("type", "config"); ("action", "set");
                 ("xpath", objectXpath firewall "address" "srv1" []);
                 ("element", "<ip-netmask>10.0.0.5/32</ip-netmask>");
                 ("key", "K")] |}
           (TransportError "connection refused")).
  - reflexivity.
  - vm_compute. reflexivity.
  - reflexivity.
Defined.

(** X4: a body that does not decode comes back as the decoder's error:
    for a listing always, for any other call when the transport reported
    no error. *)
Theorem undecodable_body_is_returned
    (c : call) (p : PaloAlto) (dev : device) (log pre : list request)
    (out : outcome (option error)) (r : request) (m : string) :
  isListing c = true \/ Error (dev (log ++ pre) r) = None ->
  exec c p dev log = (out, log ++ pre ++ [r]) ->
  Body (dev (log ++ pre) r) = Malformed m ->
  out = Done (Some (XmlError m)).
Proof.
  intros Hc Hrun Hb.
  destruct (exec_shape c p dev log)
    as [e0|r0 Hl Hw|r0 Hl Hw|r1 r2 re Hadd _ _ E].
  - injection Hrun as _ Hlog. destruct (log_grows _ _ _ Hlog).
  - injection Hrun as <- Hlog. apply log_last in Hlog as [-> ->].
    rewrite app_nil_r in Hb. rewrite Hb. reflexivity.
  - destruct Hc as [Hc|He]; [congruence|].
    injection Hrun as <- Hlog. apply log_last in Hlog as [-> ->].
    rewrite app_nil_r in Hb, He.
    destruct (dev log r) as [err b]. cbn [Error Body] in *. subst err b.
    reflexivity.
  - destruct Hc as [Hc|He].
    { destruct Hadd as (serial & devicegroup & -> & _). discriminate Hc. }
    injection Hrun as <- Hlog. apply log_last_two in Hlog as [-> ->].
    destruct (dev (log ++ [r1]) r) as [err b]. cbn [Error Body] in *.
    subst err b. reflexivity.
Qed.

Lemma undecodable_body_is_returned_witness :
  fst (Tags firewall garbled []) = Done (None, Some (XmlError "syntax error"))
  /\ fst (exec callTags firewall garbled []) = Done (Some (XmlError "syntax error")).
Proof.
  split; [vm_compute; reflexivity|].
  apply (undecodable_body_is_returned callTags firewall garbled [] []
           (fst (exec callTags firewall garbled []))
           {| verb := "get"; url := "https://fw1/api/?"; headers_ := headers;
              query_ := list_to_map
                [("type", "config"); ("action", "get");
                 ("xpath", "/config/devices/entry//tag"); ("key", "K")] |}
           "syntax error").
  - left. reflexivity.
  - vm_compute. reflexivity.
  - reflexivity.
Defined.

(** X5: a listing never looks at the transport's error: when the body of
    the answer is an envelope with the status [success], the listing
    returns no error, whatever the transport reported. *)
Theorem listing_reads_body_only
    (c : call) (p : PaloAlto) (dev : device) (log pre : list request)
    (out : outcome (option error)) (r : request) (d : document) :
  isListing c = true ->
  exec c p dev log = (out, log ++ pre ++ [r]) ->
  Body (dev (log ++ pre) r) = Xml d ->
  attr (docStatus d) = "success" ->
  out = Done None.
Proof.
  intros Hc Hrun Hb Hs.
  destruct (exec_shape c p dev log)
    as [e0|r0 Hl Hw|r0 Hl Hw|r1 r2 re Hadd _ _ E].
  - injection Hrun as _ Hlog. destruct (log_grows _ _ _ Hlog).
  - injection Hrun as <- Hlog. apply log_last in Hlog as [-> ->].
    rewrite app_nil_r in Hb. rewrite Hb. cbn [listingError].
    rewrite Hs. reflexivity.
  - congruence.
  - destruct Hadd as (serial & devicegroup & -> & _). discriminate Hc.
Qed.

Lemma listing_reads_body_only_witness :
  Error (flaky [] {| verb := "get"; url := "https://fw1/api/?";
                     headers_ := headers;
                     query_ := list_to_map
                       [("type", "config"); ("action", "get");
                        ("xpath", panosVsys +:+ "/address"); ("key", "K")] |})
  = Some (TransportError "timeout")
  /\ fst (exec (callAddresses []) firewall flaky []) = Done None.
Proof.
  split; [reflexivity|].
  apply (listing_reads_body_only (callAddresses []) firewall flaky [] []
           (fst (exec (callAddresses []) firewall flaky []))
           {| verb := "get"; url := "https://fw1/api/?"; headers_ := headers;
              query_ := list_to_map
                [("type", "config"); ("action", "get");
                 ("xpath", panosVsys +:+ "/address"); ("key", "K")] |}
           inventory).
  - reflexivity.
  - vm_compute. reflexivity.
  - reflexivity.
  - reflexivity.
Defined.

(** ** Guards *)

(** X6: on a Panorama session, the operations on objects of a
    device-group refuse a call without a device-group before anything is
    sent: [DeleteAddress], [DeleteAddressGroup], [CreateTag], [DeleteTag],
    and [CreateStaticGroup] and [CreateDynamicGroup] once their members or
    filter are not empty. *)
Theorem device_group_required
    (p : PaloAlto) (name color comments members criteria description : string)
    (dev : device) (log : list request) :
  DeviceType p = "panorama" ->
  DeleteAddress p name [] dev log = (Done (Some needDeviceGroup), log)
  /\ DeleteAddressGroup p name [] dev log = (Done (Some needDeviceGroup), log)
  /\ CreateTag p name color comments [] dev log
     = (Done (Some needDeviceGroup), log)
  /\ DeleteTag p name [] dev log = (Done (Some needDeviceGroup), log)
  /\ (members <> EmptyString ->
      CreateStaticGroup p name members description [] dev log
      = (Done (Some needDeviceGroup), log))
  /\ (criteria <> EmptyString ->
      CreateDynamicGroup p name criteria description [] dev log
      = (Done (Some needDeviceGroup), log)).
Proof.
  intros Hp.
  unfold DeleteAddress, DeleteAddressGroup, CreateTag, DeleteTag,
    CreateStaticGroup, CreateDynamicGroup.
  rewrite Hp. repeat split; try reflexivity.
  - intros H. apply String.eqb_neq in H. rewrite H. reflexivity.
  - intros H. apply String.eqb_neq in H. rewrite H. reflexivity.
Qed.

Lemma device_group_required_witness :
  DeleteAddress panoramaSession "srv1" [] accepting []
  = (Done (Some needDeviceGroup), [])
  /\ CreateStaticGroup panoramaSession "servers" "srv1, web" EmptyString []
       accepting []
     = (Done (Some needDeviceGroup), []).
Proof.
  destruct (device_group_required panoramaSession "srv1" "Red" EmptyString
              "srv1, web" "'prod'" EmptyString accepting [] eq_refl)
    as (H1 & _ & _ & _ & H5 & _).
  split; [exact H1|].
  destruct (device_group_required panoramaSession "servers" "Red" EmptyString
              "srv1, web" "'prod'" EmptyString accepting [] eq_refl)
    as (_ & _ & _ & _ & H & _).
  apply H. discriminate.
Defined.

(** X7: on a standalone ([panos]) session the operations on shared
    objects refuse before anything is sent; the two that create a shared
    group check their members or filter first. *)
Theorem shared_objects_need_panorama
    (p : PaloAlto) (name addrtype address members criteria description : string)
    (dev : device) (log : list request) :
  DeviceType p = "panos" ->
  CreateSharedAddress p name addrtype address description dev log
  = (Done (Some (onlyShared "create")), log)
  /\ DeleteSharedAddress p name dev log
     = (Done (Some (onlyShared "remove")), log)
  /\ DeleteSharedAddressGroup p name dev log
     = (Done (Some (onlyShared "create")), log)
  /\ CreateSharedStaticGroup p name members description dev log
     = (Done (Some (if members == EmptyString then noMembers
                    else onlyShared "create")), log)
  /\ CreateSharedDynamicGroup p name criteria description dev log
     = (Done (Some (if criteria == EmptyString then noFilter
                    else onlyShared "create")), log).
Proof.
  intros Hp.
  unfold CreateSharedAddress, DeleteSharedAddress, DeleteSharedAddressGroup,
    CreateSharedStaticGroup, CreateSharedDynamicGroup.
  rewrite Hp. repeat split; try reflexivity.
  - destruct (members == EmptyString); reflexivity.
  - destruct (criteria == EmptyString); reflexivity.
Qed.

Lemma shared_objects_need_panorama_witness :
  CreateSharedAddress firewall "srv1" "ip" "10.0.0.5/32" EmptyString accepting []
  = (Done (Some (ErrorsNew
       "you can only create shared objects when connected to a Panorama device")),
     []).
Proof.
  destruct (shared_objects_need_panorama firewall "srv1" "ip" "10.0.0.5/32"
              "a" "b" EmptyString accepting [] eq_refl) as (H & _).
  exact H.
Defined.

(** X8: the operations on managed devices and device-groups run on
    Panorama only: on a session of any other device type each of them
    returns its error and sends nothing. *)
Theorem panorama_only_operations
    (p : PaloAlto) (name description serial : string)
    (devices : option (list string)) (devicegroup : list string)
    (dev : device) (log : list request) :
  DeviceType p <> "panorama" ->
  Devices p dev log
  = (Done (None, Some (ErrorsNew
             "devices can only be listed from a Panorama device")), log)
  /\ DeviceGroups p dev log
     = (Done (None, Some (ErrorsNew
                "device-groups can only be listed from a Panorama device")), log)
  /\ CreateDeviceGroup p name description devices dev log
     = (Done (Some (ErrorsNew
          "you must be connected to a Panorama device when creating a device-group")),
        log)
  /\ DeleteDeviceGroup p name dev log
     = (Done (Some (ErrorsNew
          "you must be connected to a Panorama device when deleting a device-group")),
        log)
  /\ AddDevice p serial devicegroup dev log
     = (Done (Some (ErrorsNew
          "you must be connected to Panorama when adding devices")), log)
  /\ RemoveDevice p serial devicegroup dev log
     = (Done (Some (ErrorsNew
          "you must be connected to Panorama when removing devices")), log).
Proof.
  intros Hp. apply strNeq_true in Hp.
  unfold Devices, DeviceGroups, CreateDeviceGroup, DeleteDeviceGroup,
    AddDevice, RemoveDevice.
  rewrite Hp, orb_true_r. repeat split; reflexivity.
Qed.

Lemma panorama_only_operations_witness :
  AddDevice firewall "007" ["branch"] accepting []
  = (Done (Some (ErrorsNew
       "you must be connected to Panorama when adding devices")), []).
Proof.
  destruct (panorama_only_operations firewall "g" EmptyString "007" None
              ["branch"] accepting [])
    as (_ & _ & _ & _ & H & _).
  - vm_compute. discriminate.
  - exact H.
Defined.

(** X9: a device-group argument is for Panorama: on a session of any
    other device type [Addresses] and [AddressGroups] called with one
    return a nil result and an error, and send nothing. *)
Theorem listing_device_group_needs_panorama
    (p : PaloAlto) (devicegroup : list string)
    (dev : device) (log : list request) :
  DeviceType p <> "panorama" ->
  devicegroup <> [] ->
  Addresses p devicegroup dev log
  = (Done (None, Some (ErrorsNew
       "you must be connected to a Panorama device when specifying a device-group")),
     log)
  /\ AddressGroups p devicegroup dev log
     = (Done (None, Some (ErrorsNew
          "you must be connected to a Panorama device when specifying a device-group")),
        log).
Proof.
  intros Hp Hdg. apply strNeq_true in Hp.
  destruct devicegroup as [|g gs]; [contradiction|].
  unfold Addresses, AddressGroups. rewrite Hp. split; reflexivity.
Qed.

Lemma listing_device_group_needs_panorama_witness :
  Addresses firewall ["branch"] stocked []
  = (Done (None, Some (ErrorsNew
       "you must be connected to a Panorama device when specifying a device-group")),
     []).
Proof.
  destruct (listing_device_group_needs_panorama firewall ["branch"] stocked [])
    as (H & _).
  - vm_compute. discriminate.
  - discriminate.
  - exact H.
Defined.

(** X10: a group needs content: with empty members the two
    static-group operations, and with an empty filter the two
    dynamic-group operations, return their error and send nothing, on
    every session and with every device-group argument; the check comes
    before those on the device type. *)
Theorem empty_group_is_refused
    (p : PaloAlto) (name description : string) (devicegroup : list string)
    (dev : device) (log : list request) :
  CreateStaticGroup p name EmptyString description devicegroup dev log
  = (Done (Some noMembers), log)
  /\ CreateSharedStaticGroup p name EmptyString description dev log
     = (Done (Some noMembers), log)
  /\ CreateDynamicGroup p name EmptyString description devicegroup dev log
     = (Done (Some noFilter), log)
  /\ CreateSharedDynamicGroup p name EmptyString description dev log
     = (Done (Some noFilter), log).
Proof. repeat split; reflexivity. Qed.

(** ** Tags on objects *)

Lemma removeTagBody_sends (p : PaloAlto) (tag object : string)
    (devicegroup : list string) (c : category)
    (dev : device) (log : list request) :
  DeviceType p = "panos" \/ (DeviceType p = "panorama" /\ devicegroup <> []) ->
  removeTagBody p (segment c) tag object devicegroup (removeTagQuery p) object
    dev log
  = (Done (Some (returnNil
       (checkResponse (dev log (removeTagRequest p tag object devicegroup c))
          requestError.zero))),
     log ++ [removeTagRequest p tag object devicegroup c]).
Proof.
  intros H. unfold removeTagBody, removeTagRequest, removeTagXpath.
  rewrite String.eqb_refl.
  destruct H as [H|[H Hdg]]; rewrite H.
  - rewrite String.eqb_refl. run. reflexivity.
  - change ("panorama" == "panos") with false. rewrite String.eqb_refl.
    destruct devicegroup as [|g gs]; [contradiction|].
    cbn [len List.length Nat.ltb Nat.leb andb]. run. reflexivity.
Qed.

Lemma removeTagBody_refuses (p : PaloAlto) (cat tag object : string)
    (q : gmap string string) (dev : device) (log : list request) :
  DeviceType p = "panorama" ->
  removeTagBody p cat tag object [] q object dev log
  = (Done (Some (Some needDeviceGroup)), log).
Proof.
  intros H. unfold removeTagBody. rewrite String.eqb_refl, H. reflexivity.
Qed.

Lemma removeTagRequest_panos (p : PaloAlto) (tag object : string)
    (devicegroup : list string) (c : category) :
  DeviceType p = "panos" ->
  removeTagRequest p tag object devicegroup c
  = {| verb := "post"; url := URI p; headers_ := ∅;
       query_ := list_to_map
         [ ("type", "config"); ("action", "delete"); ("key", Key p);
           ("xpath",
            "/config/devices/entry[@name='localhost.localdomain']/vsys/entry[@name='vsys1']/"
              +:+ segment c +:+ "/entry[@name='" +:+ object
              +:+ "']/tag/member[text()='" +:+ tag +:+ "']") ] |}.
Proof.
  intros H. unfold removeTagRequest, removeTagXpath, removeTagQuery.
  rewrite H. reflexivity.
Qed.

Lemma removeTagRequest_panorama (p : PaloAlto) (tag object g : string)
    (gs : list string) (c : category) :
  DeviceType p = "panorama" ->
  removeTagRequest p tag object (g :: gs) c
  = {| verb := "post"; url := URI p; headers_ := ∅;
       query_ := list_to_map
         [ ("type", "config"); ("action", "delete"); ("key", Key p);
           ("xpath",
            "/config/devices/entry[@name='localhost.localdomain']/device-group/entry[@name='"
              +:+ g +:+ "']/" +:+ segment c +:+ "/entry[@name='" +:+ object
              +:+ "']/tag/member[text()='" +:+ tag +:+ "']") ] |}.
Proof.
  intros H. unfold removeTagRequest, removeTagXpath, removeTagQuery.
  rewrite H. reflexivity.
Qed.

(** X11: [RemoveTag] resolves the object as [ApplyTag] does, to the first
    category in the order addresses, address groups, services, service
    groups that has an entry of its name.  On a [panos] session, and on a
    [panorama] session called with a device-group, it sends exactly one
    request after the listings: the [delete] of the member of that object's
    tags whose text is the [tag] argument, taken as it is (it is not split
    at commas), with no element; the answer to it decides the result.  On
    a [panorama] session called without a device-group it sends nothing
    after the listings and returns the device-group error; on a session of
    another device type nothing is sent and nil is returned. *)
Theorem RemoveTag_first_category {SL : ServiceListing}
    (p : PaloAlto) (tag object : string) (devicegroup : list string)
    (dev : device) (log0 log1 log2 log3 log4 : list request)
    (ad : AddressObjects.t) (ag : AddressGroupsT.t)
    (s : ServiceObjects.t) (sg : ServiceGroupsT.t)
    (e1 e2 e3 e4 : option error) (c : category) :
  Addresses p [] dev log0 = (Done (Some ad, e1), log1) ->
  AddressGroups p [] dev log1 = (Done (Some ag, e2), log2) ->
  Services p dev log2 = (Done (Some s, e3), log3) ->
  ServiceGroups p dev log3 = (Done (Some sg, e4), log4) ->
  firstCategory object (listedNames ad ag s sg) = Some c ->
  (DeviceType p = "panos" ->
   exists r : request,
     RemoveTag p tag object devicegroup dev log0
     = (Done (returnNil (checkResponse (dev log4 r) requestError.zero)),
        log4 ++ [r])
     /\ r = {| verb := "post"; url := URI p; headers_ := ∅;
               query_ := list_to_map
                 [ ("type", "config"); ("action", "delete"); ("key", Key p);
                   ("xpath",
                    "/config/devices/entry[@name='localhost.localdomain']/vsys/entry[@name='vsys1']/"
                      +:+ segment c +:+ "/entry[@name='" +:+ object
                      +:+ "']/tag/member[text()='" +:+ tag +:+ "']") ] |})
  /\ (DeviceType p = "panorama" ->
      forall (g : string) (gs : list string), devicegroup = g :: gs ->
      exists r : request,
        RemoveTag p tag object devicegroup dev log0
        = (Done (returnNil (checkResponse (dev log4 r) requestError.zero)),
           log4 ++ [r])
        /\ r = {| verb := "post"; url := URI p; headers_ := ∅;
                  query_ := list_to_map
                    [ ("type", "config"); ("action", "delete"); ("key", Key p);
                      ("xpath",
                       "/config/devices/entry[@name='localhost.localdomain']/device-group/entry[@name='"
                         +:+ g +:+ "']/" +:+ segment c +:+ "/entry[@name='"
                         +:+ object +:+ "']/tag/member[text()='" +:+ tag
                         +:+ "']") ] |})
  /\ (DeviceType p = "panorama" -> devicegroup = [] ->
      RemoveTag p tag object devicegroup dev log0
      = (Done (Some (ErrorsNew
           "you must specify a device-group when connected to a Panorama device")),
         log4))
  /\ (DeviceType p <> "panos" -> DeviceType p <> "panorama" ->
      RemoveTag p tag object devicegroup dev log0 = (Done None, log4)).
Proof.
  intros H1 H2 H3 H4 Hc.
  rewrite (RemoveTag_searchFrom p tag object devicegroup dev _ _ _ _ _
             _ _ _ _ _ _ _ _ H1 H2 H3 H4).
  split; [|split; [|split]].
  - intros Hp. eexists.
    split; [|apply (removeTagRequest_panos p tag object devicegroup c Hp)].
    unfold returnsOnMatch. rewrite Hp.
    change (("panos" == "panos") || ("panos" == "panorama")) with true.
    rewrite (searchFrom_first_category _ _ _ _ _ _ _ _ _ Hc).
    rewrite run_bind, (removeTagBody_sends p tag object devicegroup c dev log4
                         (or_introl Hp)).
    reflexivity.
  - intros Hp g gs ->. eexists.
    split; [|apply (removeTagRequest_panorama p tag object g gs c Hp)].
    unfold returnsOnMatch. rewrite Hp.
    change (("panorama" == "panos") || ("panorama" == "panorama")) with true.
    rewrite (searchFrom_first_category _ _ _ _ _ _ _ _ _ Hc).
    rewrite run_bind, (removeTagBody_sends p tag object (g :: gs) c dev log4).
    + reflexivity.
    + right. split; [exact Hp|discriminate].
  - intros Hp ->. unfold returnsOnMatch. rewrite Hp.
    change (("panorama" == "panos") || ("panorama" == "panorama")) with true.
    rewrite (searchFrom_first_category _ _ _ _ _ _ _ _ _ Hc).
    rewrite run_bind, (removeTagBody_refuses _ _ _ _ _ _ _ Hp). reflexivity.
  - intros Hn1 Hn2. unfold returnsOnMatch.
    apply String.eqb_neq in Hn1, Hn2. rewrite Hn1, Hn2.
    apply searchFrom_passes.
Qed.

(** On Panorama, with the device-group [branch]: [web] is an address and
    a service, and the member goes from the address. *)
Lemma RemoveTag_first_category_witness :
  fst (RemoveTag (SL := modelledListing) panoramaSession "prod, dmz" "web"
         ["branch"] stocked [])
  = Done None
  /\ last (snd (RemoveTag (SL := modelledListing) panoramaSession "prod, dmz"
                  "web" ["branch"] stocked []))
     = Some {| verb := "post"; url := "https://pano/api/?"; headers_ := ∅;
               query_ := list_to_map
                 [ ("type", "config"); ("action", "delete"); ("key", "K");
                   ("xpath",
                    "/config/devices/entry[@name='localhost.localdomain']/device-group/entry[@name='branch']/address/entry[@name='web']/tag/member[text()='prod, dmz']") ] |}
  /\ List.length (snd (RemoveTag (SL := modelledListing) panoramaSession
                         "prod, dmz" "web" ["branch"] stocked [])) = 5.
Proof.
  pose (l1 := snd (Addresses panoramaSession [] stocked [])).
  pose (l2 := snd (AddressGroups panoramaSession [] stocked l1)).
  pose (l3 := snd (listServices panoramaSession stocked l2)).
  pose (l4 := snd (listServiceGroups panoramaSession stocked l3)).
  destruct (RemoveTag_first_category (SL := modelledListing)
              panoramaSession "prod, dmz" "web" ["branch"] stocked [] l1 l2 l3 l4
              {| AddressObjects.Status := "success"; AddressObjects.Code := "19";
                 AddressObjects.Addresses := docAddresses inventory |}
              {| AddressGroupsT.Groups :=
                   [ {| AddressGroup.Name := "servers";
                        AddressGroup.Type_ := "Static";
                        AddressGroup.Members := ["srv1"; "web"];
                        AddressGroup.DynamicFilter := EmptyString;
                        AddressGroup.Description := EmptyString |} ] |}
              {| ServiceObjects.Services := docServices inventory |}
              {| ServiceGroupsT.Groups := docServiceGroups inventory |}
              None None None None catAddress) as (_ & Hpano & _).
  - vm_compute. reflexivity.
  - vm_compute. reflexivity.
  - vm_compute. reflexivity.
  - vm_compute. reflexivity.
  - vm_compute. reflexivity.
  - destruct (Hpano eq_refl "branch" [] eq_refl) as (r & Hrun & Hr).
    rewrite Hrun, Hr. repeat split; vm_compute; reflexivity.
Defined.

Lemma searchFrom_sends (Q : request -> Prop)
    (hit : category -> M (option (option error)))
    (stops : bool) (object : string)
    (results : list (category * option (list string)))
    (dev : device) (log : list request) :
  (forall c, exists sent,
      snd ((hit c ≫= fun r => mret (default None r)) dev log) = log ++ sent
      /\ List.length sent <= 1 /\ Forall Q sent) ->
  exists sent,
    snd (searchFrom hit stops object results dev log) = log ++ sent
    /\ List.length sent <= 1 /\ Forall Q sent.
Proof.
  intros Hhit.
  induction results as [|[c [names|]] results IH]; cbn [searchFrom].
  - exists []. rewrite app_nil_r. repeat split; [simpl; lia|constructor].
  - destruct (stops && hasName object names); [apply Hhit|exact IH].
  - exists []. rewrite app_nil_r. repeat split; [simpl; lia|constructor].
Qed.

Lemma applyTagBody_one_edit p cat tag object dg dev log :
  exists sent,
    snd ((applyTagBody p cat object dg (applyTagQuery p tag) object
            ≫= fun r => mret (default None r)) dev log) = log ++ sent
    /\ List.length sent <= 1
    /\ Forall (fun r => verb r = "post" /\ url r = URI p
                        /\ query_ r !! "type" = Some "config"
                        /\ query_ r !! "action" = Some "edit"
                        /\ query_ r !! "element" = Some (tagBody tag)
                        /\ query_ r !! "key" = Some (Key p)) sent.
Proof.
  unfold applyTagBody. rewrite String.eqb_refl. cbv zeta.
  repeat match goal with
         | |- context [if ?b then _ else _] => destruct b
         end;
    first
      [ exists []; rewrite app_nil_r;
        repeat split; [simpl; lia|constructor]
      | eexists [_]; split; [reflexivity|];
        split; [simpl; lia|];
        constructor; [repeat split; reflexivity|constructor] ].
Qed.

Lemma removeTagBody_one_delete p cat tag object dg dev log :
  exists sent,
    snd ((removeTagBody p cat tag object dg (removeTagQuery p) object
            ≫= fun r => mret (default None r)) dev log) = log ++ sent
    /\ List.length sent <= 1
    /\ Forall (fun r => verb r = "post" /\ url r = URI p
                        /\ query_ r !! "type" = Some "config"
                        /\ query_ r !! "action" = Some "delete"
                        /\ query_ r !! "element" = None
                        /\ query_ r !! "key" = Some (Key p)) sent.
Proof.
  unfold removeTagBody. rewrite String.eqb_refl. cbv zeta.
  repeat match goal with
         | |- context [if ?b then _ else _] => destruct b
         end;
    first
      [ exists []; rewrite app_nil_r;
        repeat split; [simpl; lia|constructor]
      | eexists [_]; split; [reflexivity|];
        split; [simpl; lia|];
        constructor; [repeat split; reflexivity|constructor] ].
Qed.

(** X12: whatever the four listings returned, [ApplyTag] and [RemoveTag]
    send at most one request after them, to the session's URI with its
    key: for [ApplyTag] a [post] with the action [edit] whose element is
    the list of the comma-separated, trimmed tags; for [RemoveTag] a
    [post] with the action [delete] and no element. *)
Theorem tag_operations_send_one_mutation {SL : ServiceListing}
    (p : PaloAlto) (tag object : string) (devicegroup : list string)
    (dev : device) (log0 log1 log2 log3 log4 : list request)
    (adObj : option AddressObjects.t) (agObj : option AddressGroupsT.t)
    (sObj : option ServiceObjects.t) (sgObj : option ServiceGroupsT.t)
    (e1 e2 e3 e4 : option error) :
  Addresses p [] dev log0 = (Done (adObj, e1), log1) ->
  AddressGroups p [] dev log1 = (Done (agObj, e2), log2) ->
  Services p dev log2 = (Done (sObj, e3), log3) ->
  ServiceGroups p dev log3 = (Done (sgObj, e4), log4) ->
  (exists sent,
      snd (ApplyTag p tag object devicegroup dev log0) = log4 ++ sent
      /\ List.length sent <= 1
      /\ Forall (fun r => verb r = "post" /\ url r = URI p
                          /\ query_ r !! "type" = Some "config"
                          /\ query_ r !! "action" = Some "edit"
                          /\ query_ r !! "element"
                             = Some ("<tag>"
                                       +:+ foldr (fun t rest =>
                                                    "<member>" +:+ TrimSpace t
                                                      +:+ "</member>" +:+ rest)
                                             "</tag>" (Split tag ","%char))
                          /\ query_ r !! "key" = Some (Key p)) sent)
  /\ (exists sent,
         snd (RemoveTag p tag object devicegroup dev log0) = log4 ++ sent
         /\ List.length sent <= 1
         /\ Forall (fun r => verb r = "post" /\ url r = URI p
                             /\ query_ r !! "type" = Some "config"
                             /\ query_ r !! "action" = Some "delete"
                             /\ query_ r !! "element" = None
                             /\ query_ r !! "key" = Some (Key p)) sent).
Proof.
  intros H1 H2 H3 H4. split.
  - rewrite (ApplyTag_searchFrom p tag object devicegroup dev _ _ _ _ _
               _ _ _ _ _ _ _ _ H1 H2 H3 H4).
    apply searchFrom_sends. intros c. rewrite <- tagBody_members.
    apply applyTagBody_one_edit.
  - rewrite (RemoveTag_searchFrom p tag object devicegroup dev _ _ _ _ _
               _ _ _ _ _ _ _ _ H1 H2 H3 H4).
    apply searchFrom_sends. intros c. apply removeTagBody_one_delete.
Qed.

Lemma tag_operations_send_one_mutation_witness :
  (exists sent,
      snd (ApplyTag (SL := modelledListing) firewall "prod" "web" [] stocked [])
      = listingsLog firewall stocked ++ sent
      /\ List.length sent <= 1
      /\ Forall (fun r => verb r = "post" /\ url r = URI firewall
                          /\ query_ r !! "type" = Some "config"
                          /\ query_ r !! "action" = Some "edit"
                          /\ query_ r !! "element"
                             = Some ("<tag>"
                                       +:+ foldr (fun t rest =>
                                                    "<member>" +:+ TrimSpace t
                                                      +:+ "</member>" +:+ rest)
                                             "</tag>" (Split "prod" ","%char))
                          /\ query_ r !! "key" = Some (Key firewall)) sent)
  /\ (exists sent,
         snd (RemoveTag (SL := modelledListing) firewall "prod" "web" []
                stocked [])
         = listingsLog firewall stocked ++ sent
         /\ List.length sent <= 1
         /\ Forall (fun r => verb r = "post" /\ url r = URI firewall
                             /\ query_ r !! "type" = Some "config"
                             /\ query_ r !! "action" = Some "delete"
                             /\ query_ r !! "element" = None
                             /\ query_ r !! "key" = Some (Key firewall)) sent).
Proof.
  apply (tag_operations_send_one_mutation (SL := modelledListing)
           firewall "prod" "web" [] stocked []
           (snd (Addresses firewall [] stocked []))
           (snd (AddressGroups firewall [] stocked
                   (snd (Addresses firewall [] stocked []))))
           (snd (listServices firewall stocked
                   (snd (AddressGroups firewall [] stocked
                           (snd (Addresses firewall [] stocked []))))))
           (listingsLog firewall stocked)
           (Some {| AddressObjects.Status := "success";
                    AddressObjects.Code := "19";
                    AddressObjects.Addresses := docAddresses inventory |})
           (Some {| AddressGroupsT.Groups :=
                      [ {| AddressGroup.Name := "servers";
                           AddressGroup.Type_ := "Static";
                           AddressGroup.Members := ["srv1"; "web"];
                           AddressGroup.DynamicFilter := EmptyString;
                           AddressGroup.Description := EmptyString |} ] |})
           (Some {| ServiceObjects.Services := docServices inventory |})
           (Some {| ServiceGroupsT.Groups := docServiceGroups inventory |})
           None None None None).
  - vm_compute. reflexivity.
  - vm_compute. reflexivity.
  - vm_compute. reflexivity.
  - vm_compute. reflexivity.
Defined.

(** ** Results and errors *)

Ltac exclusive_listing :=
  cbv zeta;
  repeat match goal with
         | |- exclusive (fst ((if ?b then _ else _) _ _)) => destruct b
         end;
  [exact I|];
  rewrite run_bind, run_Send; cbv beta iota zeta;
  match goal with
  | |- context [Body ?x] => destruct (Body x) as [m|d]
  end;
  [exact I|];
  cbv beta iota delta [unmarshal_Devices unmarshal_DeviceGroups
                       unmarshal_xmlTags unmarshal_AddressObjects
                       unmarshal_xmlAddressGroups];
  cbn [DevicesT.Status DeviceGroupsT.Status xmlTags.Status
       AddressObjects.Status xmlAddressGroups.Status];
  match goal with
  | |- context [if ?b then _ else _] => destruct b
  end; exact I.

(** X13: a result and an error exclude each other.  [NewSession] and the
    five listings always complete, and give either a result with a nil
    error or a nil result with an error, never both and never neither. *)
Theorem result_excludes_error
    (p : PaloAlto) (host user passwd : string) (devicegroup : list string)
    (dev : device) (log : list request) :
  exclusive (fst (NewSession host user passwd dev log))
  /\ exclusive (fst (Devices p dev log))
  /\ exclusive (fst (DeviceGroups p dev log))
  /\ exclusive (fst (Tags p dev log))
  /\ exclusive (fst (Addresses p devicegroup dev log))
  /\ exclusive (fst (AddressGroups p devicegroup dev log)).
Proof.
  split; [|split; [|split; [|split; [|split]]]].
  - unfold NewSession. rewrite run_bind, run_Send. cbv beta iota zeta.
    match goal with
    | |- context [dev log ?r] => destruct (dev log r) as [[e1|] [m1|dk]]
    end; try exact I.
    cbn [Error Body unmarshal_authKey authKey.Status authKey.Code authKey.Key].
    destruct (attr (docStatus dk) != "success"); [exact I|].
    rewrite run_bind, run_Send. cbv beta iota zeta.
    match goal with
    | |- context [dev ?l ?r] => destruct (dev l r) as [[e2|] [m2|di]]
    end; try exact I.
    cbn [Error Body unmarshal_systemInfo systemInfo.Status systemInfo.Code
         systemInfo.Platform systemInfo.Model systemInfo.Serial
         systemInfo.SoftwareVersion].
    destruct (attr (docStatus di) != "success"); [exact I|].
    rewrite run_bind, run_Send. cbv beta iota zeta.
    match goal with
    | |- context [dev ?l ?r] => destruct (dev l r) as [[e3|] [m3|dp]]
    end; exact I.
  - unfold Devices. exclusive_listing.
  - unfold DeviceGroups. exclusive_listing.
  - unfold Tags. cbv zeta.
    rewrite run_bind, run_Send; cbv beta iota zeta.
    match goal with
    | |- context [Body ?x] => destruct (Body x) as [m|d]
    end; [exact I|].
    cbn [unmarshal_xmlTags xmlTags.Status].
    destruct (attr (docStatus d) != "success"); exact I.
  - unfold Addresses. exclusive_listing.
  - unfold AddressGroups. exclusive_listing.
Qed.

(** ** More on NewSession *)


(** X15: the session [NewSession] returns is read off the three answers:
    the host as given, the key of the key answer, the URI
    [https://<host>/api/?], platform, model, serial and software version
    of the system-info answer, and the managed-by-Panorama flag, which is
    set exactly when the text of the panorama-status answer contains
    [: yes]. *)
Theorem NewSession_session
    (host user passwd : string) (dev : device) (log log' : list request)
    (s : PaloAlto) (err : option error) :
  NewSession host user passwd dev log = (Done (Some s, err), log') ->
  exists dk di dp : document,
    Body (dev log (keygenRequest host user passwd)) = Xml dk
    /\ Body (dev (log ++ [keygenRequest host user passwd])
               (systemInfoRequest host (docKey dk))) = Xml di
    /\ Body (dev (log ++ [keygenRequest host user passwd;
                          systemInfoRequest host (docKey dk)])
               (panoramaStatusRequest host (docKey dk))) = Xml dp
    /\ Host s = host
    /\ Key s = docKey dk
    /\ URI s = "https://" +:+ host +:+ "/api/?"
    /\ Platform s = docPlatform di
    /\ Model s = docModel di
    /\ Serial s = docSerial di
    /\ SoftwareVersion s = docSwVersion di
    /\ Panorama s = Contains (docData dp) ": yes".
Proof.
  unfold NewSession. intros H.
  rewrite run_bind, run_Send in H. cbv beta iota zeta in H.
  fold (keygenRequest host user passwd) in H.
  destruct (dev log (keygenRequest host user passwd)) as [[e1|] [m1|dk]] eqn:E1;
    try discriminate H.
  cbn [Error Body unmarshal_authKey authKey.Status authKey.Code authKey.Key] in H.
  destruct (attr (docStatus dk) != "success"); [discriminate H|].
  rewrite run_bind, run_Send in H. cbv beta iota zeta in H.
  fold (systemInfoRequest host (docKey dk)) in H.
  destruct (dev (log ++ [keygenRequest host user passwd])
                (systemInfoRequest host (docKey dk))) as [[e2|] [m2|di]] eqn:E2;
    try discriminate H.
  cbn [Error Body unmarshal_systemInfo systemInfo.Status systemInfo.Code
       systemInfo.Platform systemInfo.Model systemInfo.Serial
       systemInfo.SoftwareVersion] in H.
  destruct (attr (docStatus di) != "success"); [discriminate H|].
  rewrite run_bind, run_Send in H. cbv beta iota zeta in H.
  fold (panoramaStatusRequest host (docKey dk)) in H.
  rewrite <- app_assoc in H.
  change ([keygenRequest host user passwd] ++ [systemInfoRequest host (docKey dk)])
    with [keygenRequest host user passwd; systemInfoRequest host (docKey dk)] in H.
  destruct (dev (log ++ [keygenRequest host user passwd;
                         systemInfoRequest host (docKey dk)])
                (panoramaStatusRequest host (docKey dk)))
    as [[e3|] [m3|dp]] eqn:E3; try discriminate H.
  cbn [Error Body unmarshal_panoramaStatus panoramaStatus.Data] in H.
  rewrite run_ret in H. injection H as <- _ _.
  exists dk, di, dp. rewrite E2, E3. cbn [Body Host Key URI Platform Model Serial
                                          SoftwareVersion Panorama].
  repeat split; try reflexivity.
  destruct (Contains (docData dp) ": yes"); reflexivity.
Qed.

Lemma NewSession_session_witness :
  exists dk di dp : document,
    Body (bootFirewall [] (keygenRequest "fw1" "admin" "secret")) = Xml dk
    /\ Body (bootFirewall ([] ++ [keygenRequest "fw1" "admin" "secret"])
               (systemInfoRequest "fw1" (docKey dk))) = Xml di
    /\ Body (bootFirewall ([] ++ [keygenRequest "fw1" "admin" "secret";
                                  systemInfoRequest "fw1" (docKey dk)])
               (panoramaStatusRequest "fw1" (docKey dk))) = Xml dp
    /\ Host firewall = "fw1"
    /\ Key firewall = docKey dk
    /\ URI firewall = "https://" +:+ "fw1" +:+ "/api/?"
    /\ Platform firewall = docPlatform di
    /\ Model firewall = docModel di
    /\ Serial firewall = docSerial di
    /\ SoftwareVersion firewall = docSwVersion di
    /\ Panorama firewall = Contains (docData dp) ": yes".
Proof.
  apply (NewSession_session "fw1" "admin" "secret" bootFirewall []
           (snd (NewSession "fw1" "admin" "secret" bootFirewall []))
           firewall None).
  vm_compute. reflexivity.
Defined.

(** ** AddDevice with a device-group *)

(** X16: [AddDevice] with a device-group registers the serial and then
    attaches it to the group, and reads the second answer over the first.
    When the device does not accept the registration, the coded error is
    returned and the second request is not sent.  When it does, the
    second request is sent, and its answer is decoded into the variable
    that still holds the first answer: an attribute the second envelope
    lacks keeps the value of the first, so that a second envelope without a
    status counts as accepted, and one that is rejected without a code
    is reported with the code of the registration. *)
Theorem AddDevice_reads_attach_over_register
    (p : PaloAlto) (serial g : string) (gs : list string)
    (dev : device) (log : list request) (d1 : document) :
  DeviceType p = "panorama" ->
  dev log (registerRequest p serial) = {| Error := None; Body := Xml d1 |} ->
  (attr (docStatus d1) <> "success" ->
   AddDevice p serial (g :: gs) dev log
   = (Done (Some (codeError (attr (docCode d1)))),
      log ++ [registerRequest p serial]))
  /\ (attr (docStatus d1) = "success" ->
      forall d2 : document,
        dev (log ++ [registerRequest p serial]) (attachRequest p serial g)
        = {| Error := None; Body := Xml d2 |} ->
        AddDevice p serial (g :: gs) dev log
        = (Done (if default "success" (docStatus d2) != "success"
                 then Some (codeError (default (attr (docCode d1)) (docCode d2)))
                 else None),
           log ++ [registerRequest p serial; attachRequest p serial g])).
Proof.
  intros Hp H1. unfold AddDevice. cbv zeta. rewrite Hp.
  change (("panorama" == "panos") || ("panorama" != "panorama")) with false.
  change ("panorama" == "panorama") with true.
  cbn [andb len List.length Nat.leb Nat.ltb].
  rewrite run_bind, run_ret. cbv beta iota.
  rewrite run_bind, run_sendChecked. cbv beta iota zeta.
  fold (registerRequest p serial). rewrite H1.
  unfold checkResponse at 1 2.
  cbn [Error Body unmarshal_requestError requestError.Status requestError.Code
       requestError.zero default].
  change (default EmptyString (docStatus d1)) with (attr (docStatus d1)).
  change (default EmptyString (docCode d1)) with (attr (docCode d1)).
  destruct (attr (docStatus d1) != "success") eqn:E.
  - apply strNeq_true in E. split; [|intros Heq; contradiction].
    intros _. rewrite run_ret. reflexivity.
  - apply strNeq_false in E. split; [intros Hne; contradiction|].
    intros _ d2 H2. rewrite run_bind, run_sendChecked. cbv beta iota zeta.
    rewrite run_ret.
    change (panoramaDeviceGroup +:+ "/entry[@name='" +:+ elem0 (g :: gs) +:+ "']")
      with (panoramaDeviceGroup +:+ "/entry[@name='" +:+ g +:+ "']").
    fold (attachRequest p serial g). rewrite H2.
    unfold checkResponse.
    cbn [Error Body unmarshal_requestError requestError.Status requestError.Code
         default].
    rewrite E, <- app_assoc.
    destruct (default "success" (docStatus d2) != "success"); reflexivity.
Qed.

(** The second envelope has no attribute at all: the device is added. *)
Lemma AddDevice_reads_attach_over_register_witness :
  AddDevice panoramaSession "0007" ["branch"] acceptsThenBare []
  = (Done None,
     [ {| verb := "post"; url := "https://pano/api/?"; headers_ := ∅;
          query_ := list_to_map
            [("type", "config"); ("action", "set");
             ("xpath", "/config/mgt-config/devices");
             ("element", "<entry name=" +:+ dquote +:+ "0007" +:+ dquote +:+ "/>");
             ("key", "K")] |};
       {| verb := "post"; url := "https://pano/api/?"; headers_ := ∅;
          query_ := list_to_map
            [("type", "config"); ("action", "set");
             ("xpath", "/config/devices/entry[@name='localhost.localdomain']/device-group/entry[@name='branch']");
             ("element", "<devices><entry name=" +:+ dquote +:+ "0007" +:+ dquote
                           +:+ "/></devices>");
             ("key", "K")] |} ]).
Proof.
  destruct (AddDevice_reads_attach_over_register panoramaSession "0007" "branch"
              [] acceptsThenBare [] (envelope "success" "20"))
    as [_ H].
  - reflexivity.
  - vm_compute. reflexivity.
  - rewrite (H eq_refl bare); [vm_compute; reflexivity|].
    vm_compute. reflexivity.
Defined.

(** Rejected without a code, the attachment is reported with the code of
    the registration, which was a success. *)
Example AddDevice_reports_the_first_code :
  fst (AddDevice panoramaSession "0007" ["branch"] acceptsThenRejects [])
  = Done (Some (Errorf "error code 20: Success - Command completed successfully")).
Proof. vm_compute. reflexivity. Qed.

(** ** What the listings make of the answer *)

Lemma tagsLoop_names (parsed : list xmlTag.t) (tcolor : string) :
  Tag.Name <$> tagsLoop parsed tcolor [] = xmlTag.Name <$> parsed
  /\ Tag.Comments <$> tagsLoop parsed tcolor [] = xmlTag.Comments <$> parsed.
Proof.
  revert tcolor. induction parsed as [|t rest IH]; intros tcolor;
    [split; reflexivity|].
  simpl tagsLoop. rewrite tagsLoop_acc, !fmap_app, !fmap_cons.
  destruct (IH (rangeTagColors (map_to_list tagColors) (xmlTag.Color t) tcolor))
    as [-> ->].
  split; reflexivity.
Qed.

(** X17: [Tags] returns the parsed tags in their order, with their names
    and comments, and names the color of every tag whose code the table
    [tagColors] holds: the color of the tag returned is the key under
    which the table has the code. *)
Theorem Tags_names_known_colors
    (p : PaloAlto) (dev : device) (log log' : list request)
    (result : TagsT.t) (e : option error) :
  Tags p dev log = (Done (Some result, e), log') ->
  exists (r : request) (d : document),
    log' = log ++ [r]
    /\ Body (dev log r) = Xml d
    /\ Tag.Name <$> TagsT.Tags result = xmlTag.Name <$> docTags d
    /\ Tag.Comments <$> TagsT.Tags result = xmlTag.Comments <$> docTags d
    /\ forall (i : nat) (t : xmlTag.t) (k : string),
         docTags d !! i = Some t ->
         tagColors !! k = Some (xmlTag.Color t) ->
         Tag.Color <$> TagsT.Tags result !! i = Some k.
Proof.
  unfold Tags. intros H.
  rewrite run_bind, run_Send in H. cbv beta iota zeta in H.
  match type of H with
  | context [dev log ?r0] =>
      exists r0; destruct (dev log r0) as [e0 [m|d]]; [discriminate H|]
  end.
  exists d.
  cbn [Body unmarshal_xmlTags xmlTags.Status xmlTags.Code xmlTags.Tags] in H.
  destruct (attr (docStatus d) != "success"); [discriminate H|].
  rewrite run_ret in H. injection H as <- _ <-.
  cbn [TagsT.Tags].
  destruct (tagsLoop_names (docTags d) EmptyString) as [Hn Hc].
  split; [reflexivity|]. split; [reflexivity|].
  split; [exact Hn|]. split; [exact Hc|].
  intros i t k Hi Hk.
  rewrite (tagsLoop_lookup _ _ _ _ Hi). cbn [fmap option_fmap option_map Tag.Color].
  f_equal.
  rewrite (take_S_r _ _ _ Hi), fmap_app, omap_app.
  cbn [fmap list_fmap omap list_omap].
  rewrite (proj2 (colorName_Some _ _) Hk).
  rewrite last_snoc. reflexivity.
Qed.

Lemma Tags_names_known_colors_witness :
  exists (r : request) (d : document),
    snd (Tags firewall stocked []) = [] ++ [r]
    /\ Body (stocked [] r) = Xml d
    /\ ["prod"; "lab"; "misc"] = xmlTag.Name <$> docTags d
    /\ [EmptyString; EmptyString; "no color"] = xmlTag.Comments <$> docTags d
    /\ forall (i : nat) (t : xmlTag.t) (k : string),
         docTags d !! i = Some t ->
         tagColors !! k = Some (xmlTag.Color t) ->
         Tag.Color
           <$> [ {| Tag.Name := "prod"; Tag.Color := "Red";
                    Tag.Comments := EmptyString |};
                 {| Tag.Name := "lab"; Tag.Color := "Red";
                    Tag.Comments := EmptyString |};
                 {| Tag.Name := "misc"; Tag.Color := "Red";
                    Tag.Comments := "no color" |} ] !! i
         = Some k.
Proof.
  apply (Tags_names_known_colors firewall stocked []
           (snd (Tags firewall stocked []))
           {| TagsT.Tags :=
                [ {| Tag.Name := "prod"; Tag.Color := "Red";
                     Tag.Comments := EmptyString |};
                  {| Tag.Name := "lab"; Tag.Color := "Red";
                     Tag.Comments := EmptyString |};
                  {| Tag.Name := "misc"; Tag.Color := "Red";
                     Tag.Comments := "no color" |} ] |}
           None).
  vm_compute. reflexivity.
Defined.

Lemma groupsLoop_map {A B : Type} (f : A -> B) (xs : list A) (acc : list B) :
  fold_left (fun acc x => acc ++ [f x]) xs acc = acc ++ (f <$> xs).
Proof.
  revert acc. induction xs as [|x xs IH]; intros acc; simpl.
  - rewrite app_nil_r. reflexivity.
  - rewrite IH, <- app_assoc. reflexivity.
Qed.

(** X18: [AddressGroups] returns one group for each parsed group, in their
    order, with its name, members and description.  The type is decided
    on the filter as it was parsed, and the filter returned is the trimmed
    one: a group is [Dynamic] exactly when the parsed filter is not the
    empty string, so a filter of white space only gives a [Dynamic] group
    whose filter is empty. *)
Theorem AddressGroups_conversion
    (p : PaloAlto) (devicegroup : list string) (dev : device)
    (log log' : list request) (result : AddressGroupsT.t) (e : option error) :
  AddressGroups p devicegroup dev log = (Done (Some result, e), log') ->
  exists (r : request) (d : document),
    log' = log ++ [r]
    /\ Body (dev log r) = Xml d
    /\ List.length (AddressGroupsT.Groups result)
       = List.length (docAddressGroups d)
    /\ forall (i : nat) (g : xmlAddressGroup.t),
         docAddressGroups d !! i = Some g ->
         exists G : AddressGroup.t,
           AddressGroupsT.Groups result !! i = Some G
           /\ AddressGroup.Name G = xmlAddressGroup.Name g
           /\ AddressGroup.Members G = xmlAddressGroup.Members g
           /\ AddressGroup.Description G = xmlAddressGroup.Description g
           /\ AddressGroup.DynamicFilter G
              = TrimSpace (xmlAddressGroup.DynamicFilter g)
           /\ (xmlAddressGroup.DynamicFilter g = EmptyString ->
               AddressGroup.Type_ G = "Static")
           /\ (xmlAddressGroup.DynamicFilter g <> EmptyString ->
               AddressGroup.Type_ G = "Dynamic").
Proof.
  unfold AddressGroups. cbv zeta. intros H.
  destruct ((DeviceType p != "panorama") && (0 <? len devicegroup)%nat);
    [discriminate H|].
  rewrite run_bind, run_Send in H. cbv beta iota zeta in H.
  match type of H with
  | context [dev log ?r0] =>
      exists r0; destruct (dev log r0) as [e0 [m|d]]; [discriminate H|]
  end.
  exists d.
  cbn [Body unmarshal_xmlAddressGroups xmlAddressGroups.Status
       xmlAddressGroups.Code xmlAddressGroups.Groups] in H.
  destruct (attr (docStatus d) != "success"); [discriminate H|].
  rewrite run_ret in H. injection H as <- _ <-.
  cbn [AddressGroupsT.Groups].
  rewrite (groupsLoop_map
             (fun g => {| AddressGroup.Name := xmlAddressGroup.Name g;
                          AddressGroup.Type_ :=
                            if xmlAddressGroup.DynamicFilter g != EmptyString
                            then "Dynamic" else "Static";
                          AddressGroup.Members := xmlAddressGroup.Members g;
                          AddressGroup.DynamicFilter :=
                            TrimSpace (xmlAddressGroup.DynamicFilter g);
                          AddressGroup.Description :=
                            xmlAddressGroup.Description g |})).
  rewrite app_nil_l.
  split; [reflexivity|]. split; [reflexivity|].
  split; [apply length_fmap|].
  intros i g Hi. rewrite list_lookup_fmap, Hi. eexists. split; [reflexivity|].
  cbn [AddressGroup.Name AddressGroup.Members AddressGroup.Description
       AddressGroup.DynamicFilter AddressGroup.Type_].
  repeat split.
  - intros ->. reflexivity.
  - intros Hne. apply strNeq_true in Hne. rewrite Hne. reflexivity.
Qed.

Lemma AddressGroups_conversion_witness :
  exists (r : request) (d : document),
    snd (AddressGroups firewall [] groupLister [])
    = [] ++ [r]
    /\ Body (groupLister [] r) = Xml d
    /\ List.length
         [ {| AddressGroup.Name := "servers"; AddressGroup.Type_ := "Static";
              AddressGroup.Members := ["srv1"; "web"];
              AddressGroup.DynamicFilter := EmptyString;
              AddressGroup.Description := EmptyString |};
           {| AddressGroup.Name := "tagged"; AddressGroup.Type_ := "Dynamic";
              AddressGroup.Members := [];
              AddressGroup.DynamicFilter := "'prod' and 'dmz'";
              AddressGroup.Description := "by tag" |};
           {| AddressGroup.Name := "blank"; AddressGroup.Type_ := "Dynamic";
              AddressGroup.Members := [];
              AddressGroup.DynamicFilter := EmptyString;
              AddressGroup.Description := EmptyString |} ]
       = List.length (docAddressGroups d)
    /\ forall (i : nat) (g : xmlAddressGroup.t),
         docAddressGroups d !! i = Some g ->
         exists G : AddressGroup.t,
           [ {| AddressGroup.Name := "servers"; AddressGroup.Type_ := "Static";
                AddressGroup.Members := ["srv1"; "web"];
                AddressGroup.DynamicFilter := EmptyString;
                AddressGroup.Description := EmptyString |};
             {| AddressGroup.Name := "tagged"; AddressGroup.Type_ := "Dynamic";
                AddressGroup.Members := [];
                AddressGroup.DynamicFilter := "'prod' and 'dmz'";
                AddressGroup.Description := "by tag" |};
             {| AddressGroup.Name := "blank"; AddressGroup.Type_ := "Dynamic";
                AddressGroup.Members := [];
                AddressGroup.DynamicFilter := EmptyString;
                AddressGroup.Description := EmptyString |} ] !! i = Some G
           /\ AddressGroup.Name G = xmlAddressGroup.Name g
           /\ AddressGroup.Members G = xmlAddressGroup.Members g
           /\ AddressGroup.Description G = xmlAddressGroup.Description g
           /\ AddressGroup.DynamicFilter G
              = TrimSpace (xmlAddressGroup.DynamicFilter g)
           /\ (xmlAddressGroup.DynamicFilter g = EmptyString ->
               AddressGroup.Type_ G = "Static")
           /\ (xmlAddressGroup.DynamicFilter g <> EmptyString ->
               AddressGroup.Type_ G = "Dynamic").
Proof.
  apply (AddressGroups_conversion firewall []
           groupLister []
           (snd (AddressGroups firewall [] groupLister []))
           {| AddressGroupsT.Groups :=
                [ {| AddressGroup.Name := "servers"; AddressGroup.Type_ := "Static";
                     AddressGroup.Members := ["srv1"; "web"];
                     AddressGroup.DynamicFilter := EmptyString;
                     AddressGroup.Description := EmptyString |};
                  {| AddressGroup.Name := "tagged"; AddressGroup.Type_ := "Dynamic";
                     AddressGroup.Members := [];
                     AddressGroup.DynamicFilter := "'prod' and 'dmz'";
                     AddressGroup.Description := "by tag" |};
                  {| AddressGroup.Name := "blank"; AddressGroup.Type_ := "Dynamic";
                     AddressGroup.Members := [];
                     AddressGroup.DynamicFilter := EmptyString;
                     AddressGroup.Description := EmptyString |} ] |}
           None).
  vm_compute. reflexivity.
Defined.

(** ** Where the objects are *)

Lemma objectXpath_cases (p : PaloAlto) (category name : string)
    (devicegroup : list string) :
  (DeviceType p == "panorama") && (len devicegroup <=? 0)%nat = false ->
  (DeviceType p = "panos" ->
   objectXpath p category name devicegroup
   = "/config/devices/entry[@name='localhost.localdomain']/vsys/entry[@name='vsys1']/"
       +:+ category +:+ "/entry[@name='" +:+ name +:+ "']")
  /\ (DeviceType p = "panorama" ->
      exists (g : string) (gs : list string),
        devicegroup = g :: gs
        /\ objectXpath p category name devicegroup
           = "/config/devices/entry[@name='localhost.localdomain']/device-group/entry[@name='"
               +:+ g +:+ "']/" +:+ category +:+ "/entry[@name='" +:+ name
               +:+ "']")
  /\ (DeviceType p <> "panos" -> DeviceType p <> "panorama" ->
      objectXpath p category name devicegroup = EmptyString).
Proof.
  intros Hg. unfold objectXpath. cbv zeta. split; [|split].
  - intros Hp. rewrite Hp. reflexivity.
  - intros Hp. rewrite Hp in Hg |- *.
    destruct devicegroup as [|g gs]; [discriminate Hg|].
    exists g, gs. split; reflexivity.
  - intros H1 H2. apply String.eqb_neq in H1, H2. rewrite H1, H2. reflexivity.
Qed.

(** X19: where the operations on a named object look for it.  Every
    request that [CreateAddress], [DeleteAddress], [CreateStaticGroup],
    [CreateDynamicGroup], [DeleteAddressGroup], [CreateTag] or
    [DeleteTag] sends has the locator of the object: under [vsys1] on a
    [panos] session, whatever the device-group argument; under the first
    device-group of the argument on a [panorama] session; and the empty
    string on a session of any other device type, for which the request is
    sent all the same. *)
Theorem object_locator (c : call) (p : PaloAlto) (dev : device)
    (log : list request) (category name : string) (devicegroup : list string)
    (r : request) :
  objectOf c = Some (category, name, devicegroup) ->
  r ∈ drop (List.length log) (snd (exec c p dev log)) ->
  (DeviceType p = "panos" ->
   query_ r !! "xpath"
   = Some ("/config/devices/entry[@name='localhost.localdomain']/vsys/entry[@name='vsys1']/"
             +:+ category +:+ "/entry[@name='" +:+ name +:+ "']"))
  /\ (DeviceType p = "panorama" ->
      exists (g : string) (gs : list string),
        devicegroup = g :: gs
        /\ query_ r !! "xpath"
           = Some ("/config/devices/entry[@name='localhost.localdomain']/device-group/entry[@name='"
                     +:+ g +:+ "']/" +:+ category +:+ "/entry[@name='" +:+ name
                     +:+ "']"))
  /\ (DeviceType p <> "panos" -> DeviceType p <> "panorama" ->
      query_ r !! "xpath" = Some EmptyString).
Proof.
  intros Hc.
  assert (Hx :
             (DeviceType p == "panorama") && (len devicegroup <=? 0)%nat = false ->
             query_ r !! "xpath" = Some (objectXpath p category name devicegroup) ->
             (DeviceType p = "panos" ->
              query_ r !! "xpath"
              = Some ("/config/devices/entry[@name='localhost.localdomain']/vsys/entry[@name='vsys1']/"
                        +:+ category +:+ "/entry[@name='" +:+ name +:+ "']"))
             /\ (DeviceType p = "panorama" ->
                 exists (g : string) (gs : list string),
                   devicegroup = g :: gs
                   /\ query_ r !! "xpath"
                      = Some ("/config/devices/entry[@name='localhost.localdomain']/device-group/entry[@name='"
                                +:+ g +:+ "']/" +:+ category +:+ "/entry[@name='"
                                +:+ name +:+ "']"))
             /\ (DeviceType p <> "panos" -> DeviceType p <> "panorama" ->
                 query_ r !! "xpath" = Some EmptyString)).
  { intros Hg Hq.
    destruct (objectXpath_cases p category name devicegroup Hg) as (H1 & H2 & H3).
    rewrite Hq. split; [|split].
    - intros Hp. rewrite (H1 Hp). reflexivity.
    - intros Hp. destruct (H2 Hp) as (g & gs & -> & ->). eauto.
    - intros Hn1 Hn2. rewrite (H3 Hn1 Hn2). reflexivity. }
  destruct c; try discriminate Hc; cbn [objectOf] in Hc;
    injection Hc as <- <- <-; cbn [exec];
    unfold CreateTag, DeleteTag, CreateAddress, CreateStaticGroup,
      CreateDynamicGroup, DeleteAddress, DeleteAddressGroup; cbv zeta;
    repeat match goal with
           | |- context [if ?s == EmptyString then mret _ else _] =>
               destruct (s == EmptyString);
               [ rewrite run_ret; cbn [snd]; rewrite drop_all; intros Hr;
                 apply elem_of_nil in Hr; destruct Hr | ]
           end;
    (match goal with
     | |- context [(DeviceType p == "panorama") && (len ?dg <=? 0)%nat] =>
         destruct ((DeviceType p == "panorama") && (len dg <=? 0)%nat)
           eqn:Hguard
     end;
     [ rewrite run_ret; cbn [snd]; rewrite drop_all; intros Hr;
       apply elem_of_nil in Hr; destruct Hr
     | run; cbn [snd]; rewrite drop_app_length; intros Hr;
       apply list_elem_of_singleton in Hr; subst r;
       apply Hx; reflexivity ]).
Qed.

(** On a session of another device type the request goes out with an empty
    locator. *)
Lemma object_locator_witness :
  snd (DeleteAddress oddSession "srv1" ["branch"] accepting [])
  = [ {| verb := "get"; url := "https://x/api/?"; headers_ := ∅;
         query_ := list_to_map
           [("type", "config"); ("action", "delete");
            ("xpath", EmptyString); ("key", "K")] |} ]
  /\ query_ {| verb := "get"; url := "https://x/api/?"; headers_ := ∅;
               query_ := list_to_map
                 [("type", "config"); ("action", "delete");
                  ("xpath", EmptyString); ("key", "K")] |} !! "xpath"
     = Some EmptyString.
Proof.
  split; [vm_compute; reflexivity|].
  destruct (object_locator (callDeleteAddress "srv1" ["branch"]) oddSession
              accepting [] "address" "srv1" ["branch"]
              {| verb := "get"; url := "https://x/api/?"; headers_ := ∅;
                 query_ := list_to_map
                   [("type", "config"); ("action", "delete");
                    ("xpath", EmptyString); ("key", "K")] |})
    as (_ & _ & H).
  - reflexivity.
  - vm_compute. apply list_elem_of_here.
  - apply H; vm_compute; discriminate.
Defined.

Lemma append_nil_r (a : string) : a +:+ EmptyString = a.
Proof.
  induction a as [|x a IH]; [reflexivity|].
  change (String x (a +:+ EmptyString) = String x a). rewrite IH. reflexivity.
Qed.

Lemma entries_fold (f : string -> string) (xs : list string) (acc tail : string) :
  fold_left (fun acc x => acc +:+ f x) xs acc +:+ tail
  = acc +:+ foldr (fun x rest => f x +:+ rest) tail xs.
Proof.
  revert acc. induction xs as [|x xs IH]; intros acc; cbn [fold_left foldr].
  - reflexivity.
  - rewrite IH, append_assoc. reflexivity.
Qed.

(** ** What is sent for a new object *)

(** X20: the element of a new tag.  When [CreateTag] is not refused it
    sends one request whose element names the color by the code the table
    [tagColors] has under the color argument, followed by the comments, if
    any; for a color the table does not have (the names are case
    sensitive) the color element is empty, and the request is sent all the
    same. *)
Theorem CreateTag_color (p : PaloAlto) (name color comments : string)
    (devicegroup : list string) (dev : device) (log : list request) :
  DeviceType p <> "panorama" \/ devicegroup <> [] ->
  exists r : request,
    CreateTag p name color comments devicegroup dev log
    = (Done (returnNil (checkResponse (dev log r) requestError.zero)), log ++ [r])
    /\ (forall code : string,
          tagColors !! color = Some code ->
          query_ r !! "element"
          = Some ("<color>" +:+ code +:+ "</color>"
                    +:+ (if comments == EmptyString then EmptyString
                         else "<comments>" +:+ comments +:+ "</comments>")))
    /\ (tagColors !! color = None ->
        query_ r !! "element"
        = Some ("<color></color>"
                  +:+ (if comments == EmptyString then EmptyString
                       else "<comments>" +:+ comments +:+ "</comments>"))).
Proof.
  intros Hg. unfold CreateTag. cbv zeta.
  assert (Hguard : (DeviceType p == "panorama") && (len devicegroup <=? 0)%nat
                   = false).
  { destruct Hg as [Hg|Hg].
    - apply String.eqb_neq in Hg. rewrite Hg. reflexivity.
    - destruct devicegroup; [contradiction|]. apply andb_false_r. }
  rewrite Hguard. run. eexists. split; [reflexivity|].
  cbn [query_]. unfold strNeq, index.
  assert (He : forall x y : string,
             (if negb (comments == EmptyString)
              then x +:+ "<comments>" +:+ comments +:+ "</comments>" else x) = y ->
             (list_to_map
                [("type", "config"); ("action", "set");
                 ("xpath", objectXpath p "tag" name devicegroup);
                 ("element",
                  if negb (comments == EmptyString)
                  then x +:+ "<comments>" +:+ comments +:+ "</comments>" else x);
                 ("key", Key p)] : gmap string string) !! "element" = Some y).
  { intros x y <-. reflexivity. }
  split.
  - intros code Hc. rewrite Hc. cbn [default]. apply He.
    destruct (comments == EmptyString); cbn [negb].
    + rewrite append_nil_r. reflexivity.
    + rewrite !append_assoc. reflexivity.
  - intros Hc. rewrite Hc. cbn [default]. apply He.
    destruct (comments == EmptyString); cbn [negb]; reflexivity.
Qed.

(** [red] is not [Red]. *)
Lemma CreateTag_color_witness :
  exists r : request,
    CreateTag firewall "prod" "red" EmptyString [] accepting []
    = (Done (returnNil (checkResponse (accepting [] r) requestError.zero)),
       [] ++ [r])
    /\ (forall code : string,
          tagColors !! "red" = Some code ->
          query_ r !! "element"
          = Some ("<color>" +:+ code +:+ "</color>"
                    +:+ (if EmptyString == EmptyString then EmptyString
                         else "<comments>" +:+ EmptyString +:+ "</comments>")))
    /\ (tagColors !! "red" = None ->
        query_ r !! "element"
        = Some ("<color></color>"
                  +:+ (if EmptyString == EmptyString then EmptyString
                       else "<comments>" +:+ EmptyString +:+ "</comments>"))).
Proof.
  apply (CreateTag_color firewall "prod" "red" EmptyString [] accepting []).
  left. vm_compute. discriminate.
Defined.

Example CreateTag_red :
  tagColors !! "red" = None
  /\ (fun r => query_ r !! "element")
       <$> snd (CreateTag firewall "prod" "red" EmptyString [] accepting [])
     = [Some "<color></color>"].
Proof. split; vm_compute; reflexivity. Qed.

(** X21: the element of a new address.  [CreateAddress] and
    [CreateSharedAddress] build the same element: the address in
    [ip-netmask], [ip-range] or [fqdn] for the types [ip], [range] and
    [fqdn], followed by the description, if any; for any other type the
    element has no address at all.  The type is not checked: when
    [CreateAddress] is not refused for the device-group, the request is
    sent with that element. *)
Theorem address_element (p : PaloAlto)
    (name addrtype address description : string) (devicegroup : list string)
    (dev : device) (log : list request) :
  DeviceType p <> "panorama" \/ devicegroup <> [] ->
  exists (r : request) (element : string),
    CreateAddress p name addrtype address description devicegroup dev log
    = (Done (returnNil (checkResponse (dev log r) requestError.zero)), log ++ [r])
    /\ query_ r !! "element" = Some element
    /\ (DeviceType p <> "panos" ->
        exists r' : request,
          snd (CreateSharedAddress p name addrtype address description dev log)
          = log ++ [r']
          /\ query_ r' !! "element" = Some element)
    /\ (addrtype = "ip" ->
        element = "<ip-netmask>" +:+ address +:+ "</ip-netmask>"
                    +:+ (if description == EmptyString then EmptyString
                         else "<description>" +:+ description +:+ "</description>"))
    /\ (addrtype = "range" ->
        element = "<ip-range>" +:+ address +:+ "</ip-range>"
                    +:+ (if description == EmptyString then EmptyString
                         else "<description>" +:+ description +:+ "</description>"))
    /\ (addrtype = "fqdn" ->
        element = "<fqdn>" +:+ address +:+ "</fqdn>"
                    +:+ (if description == EmptyString then EmptyString
                         else "<description>" +:+ description +:+ "</description>"))
    /\ (addrtype <> "ip" -> addrtype <> "range" -> addrtype <> "fqdn" ->
        element = (if description == EmptyString then EmptyString
                   else "<description>" +:+ description +:+ "</description>")).
Proof.
  intros Hg. unfold CreateAddress, CreateSharedAddress. cbv zeta.
  assert (Hguard : (DeviceType p == "panorama") && (len devicegroup <=? 0)%nat
                   = false).
  { destruct Hg as [Hg|Hg].
    - apply String.eqb_neq in Hg. rewrite Hg. reflexivity.
    - destruct devicegroup; [contradiction|]. apply andb_false_r. }
  rewrite Hguard. run. eexists. exists (addressBody addrtype address description).
  split; [reflexivity|]. split; [reflexivity|]. split.
  { intros Hn. apply String.eqb_neq in Hn. rewrite Hn. run.
    eexists. split; reflexivity. }
  unfold addressBody, strNeq. cbv zeta.
  repeat split.
  - intros ->. cbn [String.eqb Ascii.eqb Bool.eqb].
    change ("ip" == "ip") with true. cbv iota.
    destruct (description == EmptyString); cbn [negb].
    + rewrite append_nil_r. reflexivity.
    + rewrite !append_assoc. reflexivity.
  - intros ->. change ("range" == "ip") with false.
    change ("range" == "range") with true. cbv iota.
    destruct (description == EmptyString); cbn [negb].
    + rewrite append_nil_r. reflexivity.
    + rewrite !append_assoc. reflexivity.
  - intros ->. change ("fqdn" == "ip") with false.
    change ("fqdn" == "range") with false.
    change ("fqdn" == "fqdn") with true. cbv iota.
    destruct (description == EmptyString); cbn [negb].
    + rewrite append_nil_r. reflexivity.
    + rewrite !append_assoc. reflexivity.
  - intros H1 H2 H3. apply String.eqb_neq in H1, H2, H3. rewrite H1, H2, H3.
    destruct (description == EmptyString); reflexivity.
Qed.

(** The type [host] is none of the three: only the description is sent. *)
Lemma address_element_witness :
  (fun r => query_ r !! "element")
    <$> snd (CreateAddress firewall "srv1" "host" "10.0.0.5" "a server" []
               accepting [])
  = [Some "<description>a server</description>"].
Proof.
  destruct (address_element firewall "srv1" "host" "10.0.0.5" "a server" []
              accepting [])
    as (r & element & Hrun & Hel & _ & _ & _ & _ & Hother).
  - left. vm_compute. discriminate.
  - rewrite Hrun. cbn [snd app fmap list_fmap]. rewrite Hel.
    rewrite Hother; [reflexivity| | |]; vm_compute; discriminate.
Defined.

Lemma foldr_tail (h : string -> string -> string) (xs : list string)
    (t1 t2 : string) :
  (forall x rest, h x rest +:+ t2 = h x (rest +:+ t2)) ->
  foldr h t1 xs +:+ t2 = foldr h (t1 +:+ t2) xs.
Proof.
  intros Hh. induction xs as [|x xs IH]; cbn [foldr]; [reflexivity|].
  rewrite Hh, IH. reflexivity.
Qed.

(** ** Commit to the managed devices *)

(** X22: [CommitAll] never refuses: on every session it sends one [get]
    of the type [commit] with the action [all], and returns what the
    answer amounts to.  The command names the device-group as an entry
    when no device is given, and by name, followed by one entry for each
    device, when some are; on a session that is not a [panorama] one the
    command is empty, and the request is sent all the same. *)
Theorem CommitAll_command (p : PaloAlto) (devicegroup : string)
    (devices : list string) (dev : device) (log : list request) :
  exists (r : request) (cmd : string),
    CommitAll p devicegroup devices dev log
    = (Done (returnNil (checkResponse (dev log r) requestError.zero)), log ++ [r])
    /\ r = {| verb := "get"; url := URI p; headers_ := ∅;
              query_ := list_to_map
                [("type", "commit"); ("action", "all"); ("cmd", cmd);
                 ("key", Key p)] |}
    /\ (DeviceType p <> "panorama" -> cmd = EmptyString)
    /\ (DeviceType p = "panorama" -> devices = [] ->
        cmd = "<commit-all><shared-policy><device-group><entry name="
                +:+ dquote +:+ devicegroup +:+ dquote
                +:+ "/></device-group></shared-policy></commit-all>")
    /\ (DeviceType p = "panorama" -> devices <> [] ->
        cmd = "<commit-all><shared-policy><device-group><name>" +:+ devicegroup
                +:+ "</name><devices>"
                +:+ foldr (fun d rest =>
                             "<entry name=" +:+ dquote +:+ d +:+ dquote +:+ "/>"
                               +:+ rest)
                      "</devices></device-group></shared-policy></commit-all>"
                      devices).
Proof.
  unfold CommitAll. cbv zeta. run. eexists. eexists.
  split; [reflexivity|]. split; [reflexivity|].
  split; [|split].
  - intros Hn. apply String.eqb_neq in Hn. rewrite Hn. reflexivity.
  - intros -> ->. reflexivity.
  - intros -> Hd. destruct devices as [|d ds]; [contradiction|].
    change (("panorama" == "panorama") && (0 <? len (d :: ds))%nat) with true.
    cbv iota.
    rewrite (entries_fold
               (fun d => "<entry name=" +:+ dquote +:+ d +:+ dquote +:+ "/>")).
    rewrite !append_assoc. do 3 f_equal.
    apply foldr_ext; [|reflexivity|reflexivity].
    intros x rest. rewrite !append_assoc. reflexivity.
Qed.

(** On a firewall the command is empty. *)
Lemma CommitAll_command_witness :
  snd (CommitAll firewall "branch" ["0007"] accepting [])
  = [ {| verb := "get"; url := "https://fw1/api/?"; headers_ := ∅;
         query_ := list_to_map
           [("type", "commit"); ("action", "all"); ("cmd", EmptyString);
            ("key", "K")] |} ].
Proof.
  destruct (CommitAll_command firewall "branch" ["0007"] accepting [])
    as (r & cmd & Hrun & Hr & Hn & _).
  rewrite Hrun, Hr, Hn; [reflexivity|]. vm_compute. discriminate.
Defined.

(** On Panorama, for two devices of a group. *)
Example CommitAll_two_devices :
  (fun r => query_ r !! "cmd")
    <$> snd (CommitAll panoramaSession "branch" ["0007"; "0008"] accepting [])
  = [ Some ("<commit-all><shared-policy><device-group><name>branch</name><devices><entry name="
              +:+ dquote +:+ "0007" +:+ dquote +:+ "/><entry name=" +:+ dquote
              +:+ "0008" +:+ dquote
              +:+ "/></devices></device-group></shared-policy></commit-all>") ].
Proof. vm_compute. reflexivity. Qed.

(** ** A new device-group *)

(** X23: the element of a new device-group.  On a [panorama] session
    [CreateDeviceGroup] sends one request whose element is the entry of
    the group: a [devices] element with one entry for each device,
    trimmed, when a list of devices is given, be it empty, and no
    [devices] element when none is (a nil slice); then the description,
    if any. *)
Theorem CreateDeviceGroup_element (p : PaloAlto) (name description : string)
    (devices : option (list string)) (dev : device) (log : list request) :
  DeviceType p = "panorama" ->
  exists (r : request) (element : string),
    CreateDeviceGroup p name description devices dev log
    = (Done (returnNil (checkResponse (dev log r) requestError.zero)), log ++ [r])
    /\ r = {| verb := "post"; url := URI p; headers_ := ∅;
              query_ := list_to_map
                [("type", "config"); ("action", "set");
                 ("xpath",
                  "/config/devices/entry[@name='localhost.localdomain']/device-group");
                 ("element", element); ("key", Key p)] |}
    /\ (devices = None ->
        element = "<entry name=" +:+ dquote +:+ name +:+ dquote +:+ ">"
                    +:+ (if description == EmptyString then EmptyString
                         else "<description>" +:+ description +:+ "</description>")
                    +:+ "</entry>")
    /\ (forall ds : list string,
          devices = Some ds ->
          element = "<entry name=" +:+ dquote +:+ name +:+ dquote +:+ ">"
                      +:+ "<devices>"
                      +:+ foldr (fun s rest =>
                                   "<entry name=" +:+ dquote +:+ TrimSpace s
                                     +:+ dquote +:+ "/>" +:+ rest)
                            "</devices>" ds
                      +:+ (if description == EmptyString then EmptyString
                           else "<description>" +:+ description
                                  +:+ "</description>")
                      +:+ "</entry>").
Proof.
  intros Hp. unfold CreateDeviceGroup. cbv zeta. rewrite Hp.
  change (("panorama" == "panos") || ("panorama" != "panorama")) with false.
  change ("panorama" == "panorama") with true. cbv iota.
  run. eexists. eexists. split; [reflexivity|]. split; [reflexivity|].
  unfold strNeq. split.
  - intros ->. destruct (description == EmptyString); cbn [negb];
      rewrite !append_assoc; reflexivity.
  - intros ds ->.
    rewrite (entries_fold
               (fun s => "<entry name=" +:+ dquote +:+ TrimSpace s +:+ dquote
                           +:+ "/>")).
    rewrite (foldr_ext _
               (fun s rest => "<entry name=" +:+ dquote +:+ TrimSpace s +:+ dquote
                                +:+ "/>" +:+ rest) "</devices>" "</devices>" ds ds);
      [|intros x rest; rewrite !append_assoc; reflexivity|reflexivity|reflexivity].
    destruct (description == EmptyString); cbn [negb];
      rewrite !append_assoc;
      rewrite ?foldr_tail by (intros; rewrite !append_assoc; reflexivity);
      reflexivity.
Qed.

(** No list of devices, and an empty one. *)
Lemma CreateDeviceGroup_element_witness :
  (fun r => query_ r !! "element")
    <$> snd (CreateDeviceGroup panoramaSession "branch" EmptyString None
               accepting [])
  = [Some ("<entry name=" +:+ dquote +:+ "branch" +:+ dquote +:+ "></entry>")]
  /\ (fun r => query_ r !! "element")
       <$> snd (CreateDeviceGroup panoramaSession "branch" EmptyString (Some [])
                  accepting [])
     = [Some ("<entry name=" +:+ dquote +:+ "branch" +:+ dquote
                +:+ "><devices></devices></entry>")].
Proof.
  split.
  - destruct (CreateDeviceGroup_element panoramaSession "branch" EmptyString None
                accepting [] eq_refl) as (r & element & Hrun & Hr & Hnone & _).
    rewrite Hrun, Hr, (Hnone eq_refl). vm_compute. reflexivity.
  - destruct (CreateDeviceGroup_element panoramaSession "branch" EmptyString
                (Some []) accepting [] eq_refl)
      as (r & element & Hrun & Hr & _ & Hsome).
    rewrite Hrun, Hr, (Hsome [] eq_refl). vm_compute. reflexivity.
Defined.

(** ** What is sent for a new address group *)

(** X24: the element of a new address group.  When [CreateStaticGroup] is
    not refused it sends one request whose element lists the members, the
    comma-separated fields of the argument, trimmed, one [member] each,
    inside [static]; [CreateDynamicGroup] sends the filter as it is given,
    inside [dynamic]; both add the description, if any. *)
Theorem group_element (p : PaloAlto) (name content description : string)
    (devicegroup : list string) (dev : device) (log : list request) :
  content <> EmptyString ->
  DeviceType p <> "panorama" \/ devicegroup <> [] ->
  (exists r : request,
      CreateStaticGroup p name content description devicegroup dev log
      = (Done (returnNil (checkResponse (dev log r) requestError.zero)),
         log ++ [r])
      /\ query_ r !! "element"
         = Some ("<static>"
                   +:+ foldr (fun m rest =>
                                "<member>" +:+ TrimSpace m +:+ "</member>"
                                  +:+ rest)
                         "</static>" (Split content ","%char)
                   +:+ (if description == EmptyString then EmptyString
                        else "<description>" +:+ description
                               +:+ "</description>")))
  /\ (exists r : request,
         CreateDynamicGroup p name content description devicegroup dev log
         = (Done (returnNil (checkResponse (dev log r) requestError.zero)),
            log ++ [r])
         /\ query_ r !! "element"
            = Some ("<dynamic><filter>" +:+ content +:+ "</filter></dynamic>"
                      +:+ (if description == EmptyString then EmptyString
                           else "<description>" +:+ description
                                  +:+ "</description>"))).
Proof.
  intros Hc Hg.
  assert (Hguard : (DeviceType p == "panorama") && (len devicegroup <=? 0)%nat
                   = false).
  { destruct Hg as [Hg|Hg].
    - apply String.eqb_neq in Hg. rewrite Hg. reflexivity.
    - destruct devicegroup; [contradiction|]. apply andb_false_r. }
  apply String.eqb_neq in Hc.
  assert (He : forall (x y xp : string),
             x = y ->
             (list_to_map
                [("type", "config"); ("action", "set"); ("xpath", xp);
                 ("element", x); ("key", Key p)] : gmap string string)
               !! "element" = Some y).
  { intros x y xp <-. reflexivity. }
  split.
  - unfold CreateStaticGroup. cbv zeta. rewrite Hc, Hguard. run.
    eexists. split; [reflexivity|]. cbn [query_]. apply He.
    unfold staticBody, strNeq. cbv zeta.
    rewrite (entries_fold
               (fun m => "<member>" +:+ TrimSpace m +:+ "</member>")).
    rewrite (foldr_ext _
               (fun m rest => "<member>" +:+ TrimSpace m +:+ "</member>" +:+ rest)
               "</static>" "</static>" (Split content ","%char)
               (Split content ","%char));
      [|intros x rest; rewrite !append_assoc; reflexivity|reflexivity|reflexivity].
    destruct (description == EmptyString); cbn [negb].
    + rewrite append_nil_r. reflexivity.
    + rewrite !append_assoc. reflexivity.
  - unfold CreateDynamicGroup. cbv zeta. rewrite Hc, Hguard. run.
    eexists. split; [reflexivity|]. cbn [query_]. apply He.
    unfold dynamicBody, strNeq. cbv zeta.
    destruct (description == EmptyString); cbn [negb].
    + rewrite append_nil_r. reflexivity.
    + rewrite !append_assoc. reflexivity.
Qed.

Lemma group_element_witness :
  (fun r => query_ r !! "element")
    <$> snd (CreateStaticGroup firewall "servers" "srv1, web" EmptyString []
               accepting [])
  = [Some "<static><member>srv1</member><member>web</member></static>"]
  /\ (fun r => query_ r !! "element")
       <$> snd (CreateDynamicGroup firewall "tagged" " 'prod' and 'dmz' "
                  "by tag" [] accepting [])
     = [Some "<dynamic><filter> 'prod' and 'dmz' </filter></dynamic><description>by tag</description>"].
Proof.
  split.
  - destruct (group_element firewall "servers" "srv1, web" EmptyString []
                accepting []) as [(r & Hrun & Hel) _].
    + discriminate.
    + left. vm_compute. discriminate.
    + rewrite Hrun. cbn [snd app fmap list_fmap]. rewrite Hel.
      vm_compute. reflexivity.
  - destruct (group_element firewall "tagged" " 'prod' and 'dmz' " "by tag" []
                accepting []) as [_ (r & Hrun & Hel)].
    + discriminate.
    + left. vm_compute. discriminate.
    + rewrite Hrun. cbn [snd app fmap list_fmap]. rewrite Hel.
      vm_compute. reflexivity.
Defined.
